(** * SafeSight: the live media ingestion and capture component

    A shallow embedding of the live-stream component ([LiveStream], with its
    older sibling [CameraFeed]), of the media viewer's overlay layer and of
    the recording handlers of [App], followed by the properties the
    specification states about them.  The risk feed of [App], the risk
    history, the system overview and the camera of [CameraFeed] come
    after them, with further properties of the code.

    Conventions of the embedding.
    - A React component instance is a record of its state variables and of
      the [.current] fields of its refs.  A handler is a function of the
      render snapshot it closes over; a closure that outlives its render is
      a record of the values it captured.
    - JavaScript objects with identity (peer connections, media recorders,
      object URLs) live in a store, a list indexed by allocation order.
    - Numbers that are integers in the program (pixel sizes, millisecond
      clocks) are [N] or [Z]; the percentages of a detection are rationals.
    - Browser interfaces are modelled by what the program observes of them;
      an operation that may reject or throw receives its outcome from the
      event that resumes the program. *)

From Stdlib Require Import ZArith QArith Qround Lqa String DecimalString List Lia Bool.
From stdpp Require Import base option list.
Import ListNotations.
Local Open Scope string_scope.
Local Open Scope list_scope.

(** ** JavaScript evaluation: state, [null] and exceptions *)

Module Js.

Inductive Error := TypeError | DomError (name : string) | ThrownError (message : string).

Inductive Completion (A : Type) :=
| Normal (a : A)
| Throw (e : Error).
Arguments Normal {A} a.
Arguments Throw {A} e.

(** A computation over a mutable state [S] that either completes
    normally or throws. *)
Definition M (S A : Type) : Type := S -> Completion A * S.

Definition ret {S A} (a : A) : M S A := fun s => (Normal a, s).
Definition throw {S A} (e : Error) : M S A := fun s => (Throw e, s).
Definition bind {S A B} (m : M S A) (k : A -> M S B) : M S B :=
  fun s => match m s with
           | (Normal a, s') => k a s'
           | (Throw e, s') => (Throw e, s')
           end.
Definition get {S} : M S S := fun s => (Normal s, s).
Definition gets {S A} (f : S -> A) : M S A := fun s => (Normal (f s), s).
Definition modify {S} (f : S -> S) : M S unit := fun s => (Normal tt, f s).

(** Member access [o.f]: a [TypeError] when [o] is [null]. *)
Definition deref {S A} (o : option A) : M S A :=
  match o with
  | Some a => ret a
  | None => throw TypeError
  end.

(** [try { body } catch { handler }]. *)
Definition try_catch {S A} (body : M S A) (handler : Error -> M S A) : M S A :=
  fun s => match body s with
           | (Normal a, s') => (Normal a, s')
           | (Throw e, s') => handler e s'
           end.

(** Truthiness of the values the program tests. *)
Definition truthy_N (n : N) : bool := negb (N.eqb n 0).
Definition truthy_string (s : string) : bool := negb (String.eqb s "").
Definition truthy_ref {A} (o : option A) : bool :=
  match o with Some _ => true | None => false end.

(** [Math.round]: the nearest integer, halves towards plus infinity. *)
Definition Math_round (q : Q) : Z := Qfloor (q + (1 # 2)).

(** [Math.floor(a / b)] on integer operands with [0 < b]. *)
Definition Math_floor_div (a b : Z) : Z := Z.div a b.

End Js.

Declare Scope js_scope.
Delimit Scope js_scope with js.
Notation "x <- c ;; k" := (Js.bind c (fun x => k))
  (at level 90, c at next level, right associativity) : js_scope.
Notation "c ;;; k" := (Js.bind c (fun _ => k))
  (at level 90, right associativity) : js_scope.

(** ** Shared data: detections and media objects *)

(** [interface RiskDetection], declared alike in every source file. *)
Record RiskDetection := {
  risk_id : string;
  risk_type : string;
  confidence : Q;
  x : Q;
  y : Q;
  width : Q;
  height : Q;
}.

(** A [MediaStream], by identity. *)
Definition MediaStream := nat.

(** A decoded picture, by identity. *)
Definition Frame := nat.

Record HTMLVideoElement := {
  videoWidth : N;
  videoHeight : N;
  currentFrame : Frame;
  srcObject : option MediaStream;
}.

(** What a canvas holds after [drawImage(source, dx, dy, dw, dh)]. *)
Record Drawing := {
  drawn_frame : Frame;
  dx : N; dy : N; dw : N; dh : N;
}.

Record HTMLCanvasElement := {
  canvas_width : N;
  canvas_height : N;
  (** whether [getContext('2d')] yields a context for this canvas *)
  context2d : bool;
  bitmap : option Drawing;
}.

Definition set_srcObject (o : option MediaStream) (v : HTMLVideoElement) : HTMLVideoElement :=
  {| videoWidth := videoWidth v; videoHeight := videoHeight v;
     currentFrame := currentFrame v; srcObject := o |}.

(** Assigning [canvas.width] or [canvas.height] clears the bitmap. *)
Definition set_canvas_width (w : N) (c : HTMLCanvasElement) : HTMLCanvasElement :=
  {| canvas_width := w; canvas_height := canvas_height c;
     context2d := context2d c; bitmap := None |}.
Definition set_canvas_height (h : N) (c : HTMLCanvasElement) : HTMLCanvasElement :=
  {| canvas_width := canvas_width c; canvas_height := h;
     context2d := context2d c; bitmap := None |}.
Definition drawImage (v : HTMLVideoElement) (x0 y0 w h : N) (c : HTMLCanvasElement)
  : HTMLCanvasElement :=
  {| canvas_width := canvas_width c; canvas_height := canvas_height c;
     context2d := context2d c;
     bitmap := Some {| drawn_frame := currentFrame v; dx := x0; dy := y0; dw := w; dh := h |} |}.

(** A session description: [{ type, sdp }]. *)
Record RTCSessionDescription := {
  sd_type : string;
  sdp : string;
}.

(** ** The browser

    What the program cannot decide by itself: whether a canvas made by
    [document.createElement] can give a 2D context, the encoder behind
    [canvas.toDataURL], the result of [createSessionDescription] on a peer
    connection ([None]: the call throws) and the container types
    [MediaRecorder] accepts. *)
Record Browser := {
  platform_context2d : bool;
  toDataURL : HTMLCanvasElement -> string -> Q -> string;
  createSessionDescription : string -> string -> option RTCSessionDescription;
  isTypeSupported : string -> bool;
}.

(** ** The frame capturer *)

(** The refs [captureFrame] works on.  [LiveStream] and [CameraFeed] both
    declare [videoRef] and [canvasRef] and carry the same function body. *)
Record CaptureRefs := {
  videoRef : option HTMLVideoElement;
  canvasRef : option HTMLCanvasElement;
}.

Definition set_videoRef (v : option HTMLVideoElement) (r : CaptureRefs) : CaptureRefs :=
  {| videoRef := v; canvasRef := canvasRef r |}.
Definition set_canvasRef (c : option HTMLCanvasElement) (r : CaptureRefs) : CaptureRefs :=
  {| videoRef := videoRef r; canvasRef := c |}.

Section Capture.

Variable B : Browser.

Definition createElement_canvas : HTMLCanvasElement :=
  {| canvas_width := 300; canvas_height := 150;
     context2d := platform_context2d B; bitmap := None |}.

Local Open Scope js_scope.

(** [canvasRef.current.f = ...]: update the canvas behind the ref. *)
Definition update_canvas (f : HTMLCanvasElement -> HTMLCanvasElement) : Js.M CaptureRefs unit :=
  cur <- Js.gets canvasRef ;;
  canvas <- Js.deref cur ;;
  Js.modify (set_canvasRef (Some (f canvas))).

(** [captureFrame] of [useImperativeHandle]. *)
Definition captureFrame : Js.M CaptureRefs (option string) :=
  (* if (!videoRef.current || !videoRef.current.videoWidth) return null; *)
  v <- Js.gets videoRef ;;
  no_frame <- (if negb (Js.truthy_ref v) then Js.ret true
               else (video <- Js.deref v ;; Js.ret (negb (Js.truthy_N (videoWidth video))))) ;;
  if no_frame : bool then Js.ret None else
  (* if (!canvasRef.current) canvasRef.current = document.createElement('canvas'); *)
  c <- Js.gets canvasRef ;;
  (if negb (Js.truthy_ref c)
   then Js.modify (set_canvasRef (Some createElement_canvas))
   else Js.ret tt) ;;;
  (* const video = videoRef.current; const canvas = canvasRef.current; *)
  v <- Js.gets videoRef ;;
  video <- Js.deref v ;;
  (* canvas.width = video.videoWidth; canvas.height = video.videoHeight; *)
  update_canvas (set_canvas_width (videoWidth video)) ;;;
  update_canvas (set_canvas_height (videoHeight video)) ;;;
  (* const ctx = canvas.getContext('2d'); if (!ctx) return null; *)
  c <- Js.gets canvasRef ;;
  canvas <- Js.deref c ;;
  if negb (context2d canvas) then Js.ret None else
  (* ctx.drawImage(video, 0, 0, canvas.width, canvas.height); *)
  update_canvas (drawImage video 0 0 (canvas_width canvas) (canvas_height canvas)) ;;;
  (* return canvas.toDataURL('image/jpeg', 0.95); *)
  c <- Js.gets canvasRef ;;
  canvas <- Js.deref c ;;
  Js.ret (Some (toDataURL B canvas "image/jpeg" (95 # 100))).

End Capture.

(** ** Detection overlays *)

(** One overlay [motion.div]: the inline style (lengths in percent of the
    containing viewport), the scale the animation settles at, and the
    badge text. *)
Record OverlayBox := {
  key : string;
  left : Q;
  top : Q;
  box_width : Q;
  box_height : Q;
  style_scale : option Q;
  transformOrigin : option (Q * Q);
  animate_scale : Q;
  label : string;
}.

(** [{risk.type} ({Math.round(risk.confidence)}%)]. *)
Definition overlay_label (risk : RiskDetection) : string :=
  (risk_type risk ++ " ("
   ++ NilZero.string_of_int (Z.to_int (Js.Math_round (confidence risk))) ++ "%)")%string.

(** ** The live-stream component: WHEP negotiation *)

Module LiveStream.

Inductive ConnectionStatus := connecting | connected | error.

Inductive Direction := sendrecv | sendonly | recvonly | inactive.

(** An [RTCPeerConnection] object.  [configuration] is the constructor's
    argument ([None] for [new RTCPeerConnection()]); [ontrack] names the
    run of the effect whose closure was installed as handler. *)
Record RTCPeerConnection := {
  configuration : option (list string);
  closed : bool;
  ontrack : option nat;
  transceivers : list (string * Direction);
  localDescription : option RTCSessionDescription;
  remoteDescription : option RTCSessionDescription;
}.

Definition new_RTCPeerConnection (cfg : option (list string)) : RTCPeerConnection :=
  {| configuration := cfg; closed := false; ontrack := None; transceivers := [];
     localDescription := None; remoteDescription := None |}.

Definition close (p : RTCPeerConnection) : RTCPeerConnection :=
  {| configuration := configuration p; closed := true; ontrack := ontrack p;
     transceivers := transceivers p; localDescription := localDescription p;
     remoteDescription := remoteDescription p |}.
Definition set_ontrack (e : nat) (p : RTCPeerConnection) : RTCPeerConnection :=
  {| configuration := configuration p; closed := closed p; ontrack := Some e;
     transceivers := transceivers p; localDescription := localDescription p;
     remoteDescription := remoteDescription p |}.
Definition addTransceiver (kind : string) (d : Direction) (p : RTCPeerConnection)
  : RTCPeerConnection :=
  {| configuration := configuration p; closed := closed p; ontrack := ontrack p;
     transceivers := transceivers p ++ [(kind, d)];
     localDescription := localDescription p;
     remoteDescription := remoteDescription p |}.
Definition setLocalDescription (d : RTCSessionDescription) (p : RTCPeerConnection)
  : RTCPeerConnection :=
  {| configuration := configuration p; closed := closed p; ontrack := ontrack p;
     transceivers := transceivers p; localDescription := Some d;
     remoteDescription := remoteDescription p |}.
Definition setRemoteDescription (d : RTCSessionDescription) (p : RTCPeerConnection)
  : RTCPeerConnection :=
  {| configuration := configuration p; closed := closed p; ontrack := ontrack p;
     transceivers := transceivers p; localDescription := localDescription p;
     remoteDescription := Some d |}.

(** A [fetch] call and the response it resolves to. *)
Record Request := {
  req_url : string;
  req_method : string;
  req_body : string;
  req_headers : list (string * string);
}.
Record Response := {
  ok : bool;
  statusText : string;
  body : string;
}.

(** The state variables and refs of one instance of the component,
    with the [streamUrl] prop it was last rendered with. *)
Record Component := {
  streamUrl : string;
  zoomLevel : Z;
  connectionStatus : ConnectionStatus;
  errorMessage : option string;
  refs : CaptureRefs;
  pcRef : option nat;
  streamRef : option MediaStream;
}.

Definition set_zoomLevel (z : Z) (c : Component) : Component :=
  {| streamUrl := streamUrl c; zoomLevel := z; connectionStatus := connectionStatus c;
     errorMessage := errorMessage c; refs := refs c; pcRef := pcRef c;
     streamRef := streamRef c |}.
Definition set_streamUrl (u : string) (c : Component) : Component :=
  {| streamUrl := u; zoomLevel := zoomLevel c; connectionStatus := connectionStatus c;
     errorMessage := errorMessage c; refs := refs c; pcRef := pcRef c;
     streamRef := streamRef c |}.
Definition setConnectionStatus (s : ConnectionStatus) (c : Component) : Component :=
  {| streamUrl := streamUrl c; zoomLevel := zoomLevel c; connectionStatus := s;
     errorMessage := errorMessage c; refs := refs c; pcRef := pcRef c;
     streamRef := streamRef c |}.
Definition setErrorMessage (m : option string) (c : Component) : Component :=
  {| streamUrl := streamUrl c; zoomLevel := zoomLevel c; connectionStatus := connectionStatus c;
     errorMessage := m; refs := refs c; pcRef := pcRef c; streamRef := streamRef c |}.
Definition set_refs (r : CaptureRefs) (c : Component) : Component :=
  {| streamUrl := streamUrl c; zoomLevel := zoomLevel c; connectionStatus := connectionStatus c;
     errorMessage := errorMessage c; refs := r; pcRef := pcRef c; streamRef := streamRef c |}.
Definition set_pcRef (p : option nat) (c : Component) : Component :=
  {| streamUrl := streamUrl c; zoomLevel := zoomLevel c; connectionStatus := connectionStatus c;
     errorMessage := errorMessage c; refs := refs c; pcRef := p; streamRef := streamRef c |}.
Definition set_streamRef (s : option MediaStream) (c : Component) : Component :=
  {| streamUrl := streamUrl c; zoomLevel := zoomLevel c; connectionStatus := connectionStatus c;
     errorMessage := errorMessage c; refs := refs c; pcRef := pcRef c; streamRef := s |}.

(** [useState] and [useRef] initial values; [video] is the element React
    attaches to [videoRef] before the effects run. *)
Definition initial (url : string) (video : option HTMLVideoElement) : Component :=
  {| streamUrl := url; zoomLevel := 1; connectionStatus := connecting;
     errorMessage := None;
     refs := {| videoRef := video; canvasRef := None |};
     pcRef := None; streamRef := None |}.

(** The imperative handle: [getStream: () => streamRef.current]. *)
Definition getStream (c : Component) : option MediaStream := streamRef c.

(** The imperative handle: [captureFrame], on the component's refs. *)
Definition captureFrame (B : Browser) (c : Component) : Js.Completion (option string) * Component :=
  let (r, refs') := captureFrame B (refs c) in (r, set_refs refs' c).

Definition toggleZoom (c : Component) : Component :=
  set_zoomLevel (if Z.eqb (zoomLevel c) 1 then 2 else 1) c.
Definition resetToOriginal (c : Component) : Component := set_zoomLevel 1 c.

(** One run of the [useEffect] callback: the instance it belongs to and
    its [isMounted] variable. *)
Record Effect := {
  eff_instance : nat;
  isMounted : bool;
}.

(** Where an invocation of [startStream] is suspended. *)
Inductive Await :=
| AwaitCreateOffer
| AwaitSetLocalDescription (offer : RTCSessionDescription)
| AwaitFetch
| AwaitText (response : Response)
| AwaitSetRemoteDescription (answer : RTCSessionDescription)
| Finished.

(** An invocation of [startStream]: the effect run whose [isMounted] it
    closes over, the [streamUrl] of that render, its local [pc]. *)
Record Task := {
  task_effect : nat;
  task_url : string;
  task_pc : nat;
  task_at : Await;
}.

Definition set_task_at (a : Await) (t : Task) : Task :=
  {| task_effect := task_effect t; task_url := task_url t; task_pc := task_pc t;
     task_at := a |}.
Arguments set_task_at a !t /.

(** The page: the live component instance, every peer connection ever
    constructed, every run of the effect, every invocation of
    [startStream], and the [fetch] calls and [console.error] lines so
    far (oldest first). *)
Record World := {
  mounted : bool;
  instance : nat;
  component : Component;
  current_effect : option nat;
  peers : list RTCPeerConnection;
  effects : list Effect;
  tasks : list Task;
  requests : list Request;
  console : list string;
}.

Definition on_component (f : Component -> Component) (w : World) : World :=
  {| mounted := mounted w; instance := instance w; component := f (component w);
     current_effect := current_effect w; peers := peers w; effects := effects w;
     tasks := tasks w; requests := requests w; console := console w |}.
Definition on_peers (f : list RTCPeerConnection -> list RTCPeerConnection) (w : World) : World :=
  {| mounted := mounted w; instance := instance w; component := component w;
     current_effect := current_effect w; peers := f (peers w); effects := effects w;
     tasks := tasks w; requests := requests w; console := console w |}.
Definition on_effects (f : list Effect -> list Effect) (w : World) : World :=
  {| mounted := mounted w; instance := instance w; component := component w;
     current_effect := current_effect w; peers := peers w; effects := f (effects w);
     tasks := tasks w; requests := requests w; console := console w |}.
Definition on_tasks (f : list Task -> list Task) (w : World) : World :=
  {| mounted := mounted w; instance := instance w; component := component w;
     current_effect := current_effect w; peers := peers w; effects := effects w;
     tasks := f (tasks w); requests := requests w; console := console w |}.
Definition on_requests (f : list Request -> list Request) (w : World) : World :=
  {| mounted := mounted w; instance := instance w; component := component w;
     current_effect := current_effect w; peers := peers w; effects := effects w;
     tasks := tasks w; requests := f (requests w); console := console w |}.
Definition console_error (line : string) (w : World) : World :=
  {| mounted := mounted w; instance := instance w; component := component w;
     current_effect := current_effect w; peers := peers w; effects := effects w;
     tasks := tasks w; requests := requests w; console := console w ++ [line] |}.
Definition set_current_effect (e : option nat) (w : World) : World :=
  {| mounted := mounted w; instance := instance w; component := component w;
     current_effect := e; peers := peers w; effects := effects w;
     tasks := tasks w; requests := requests w; console := console w |}.
Definition set_mounted (m : bool) (i : nat) (w : World) : World :=
  {| mounted := m; instance := i; component := component w;
     current_effect := current_effect w; peers := peers w; effects := effects w;
     tasks := tasks w; requests := requests w; console := console w |}.

Arguments on_component f !w /.
Arguments on_peers f !w /.
Arguments on_effects f !w /.
Arguments on_tasks f !w /.
Arguments on_requests f !w /.
Arguments console_error line !w /.
Arguments set_current_effect e !w /.
Arguments set_mounted m i !w /.
Arguments set_zoomLevel z !c /.
Arguments set_streamUrl u !c /.
Arguments setConnectionStatus s !c /.
Arguments setErrorMessage m !c /.
Arguments set_refs r !c /.
Arguments set_pcRef p !c /.
Arguments set_streamRef s !c /.

(** A page on which the component has not been mounted yet. *)
Definition blank : World :=
  {| mounted := false; instance := 0; component := initial "" None;
     current_effect := None; peers := []; effects := []; tasks := [];
     requests := []; console := [] |}.

(** [pc.f(...)] on the peer connection with identity [p]. *)
Definition on_peer (p : nat) (f : RTCPeerConnection -> RTCPeerConnection) (w : World) : World :=
  on_peers (alter f p) w.
Arguments on_peer p f !w /.

Definition effect_isMounted (e : nat) (w : World) : bool :=
  match effects w !! e with
  | Some eff => isMounted eff
  | None => false
  end.

Definition stun_server : string := "stun:stun.l.google.com:19302".
Definition failure_message : string := "Cannot connect to Camera. Check Raspberry Pi.".

(** [startStream], from its call in the effect run [e] up to its first
    [await]. *)
Definition startStream (e : nat) (w : World) : World :=
  let url := streamUrl (component w) in
  (* if (!streamUrl) return; *)
  if negb (Js.truthy_string url) then w else
  let w := on_component (setConnectionStatus connecting) w in
  let w := on_component (setErrorMessage None) w in
  (* if (pcRef.current) pcRef.current.close(); *)
  let w := match pcRef (component w) with
           | Some old => on_peer old close w
           | None => w
           end in
  (* const pc = new RTCPeerConnection({ iceServers: [...] }); pcRef.current = pc; *)
  let pc := length (peers w) in
  let w := on_peers (fun ps => ps ++ [new_RTCPeerConnection (Some [stun_server])]) w in
  let w := on_component (set_pcRef (Some pc)) w in
  (* pc.ontrack = (event) => { ... }; *)
  let w := on_peer pc (set_ontrack e) w in
  (* pc.addTransceiver('video', { direction: 'recvonly' }); *)
  let w := on_peer pc (addTransceiver "video" recvonly) w in
  (* const offer = await pc.createOffer(); *)
  on_tasks (fun ts => ts ++ [{| task_effect := e; task_url := url; task_pc := pc;
                                task_at := AwaitCreateOffer |}]) w.

(** The [catch] block of [startStream], in task [t]. *)
Definition catch (t : nat) (task : Task) (err : Js.Error) (w : World) : World :=
  let w := console_error "WHEP Error:" w in
  let w := if effect_isMounted (task_effect task) w
           then on_component (setErrorMessage (Some failure_message))
                  (on_component (setConnectionStatus error) w)
           else w in
  on_tasks (alter (set_task_at Finished) t) w.

(** What an awaited promise settles to: a rejection, a fulfilment
    without a value of interest ([response.text()] gives the body of the
    response it is called on), the offer, the response. *)
Inductive Reply :=
| Rejected (err : Js.Error)
| Fulfilled
| OfferCreated (offer : RTCSessionDescription)
| Responded (response : Response).

Section Negotiation.

Variable B : Browser.

(** [startStream] resumed at its pending [await] with the value the
    promise settled to; a reply that is not one the pending promise
    can give is not an event of the program and changes nothing. *)
Definition resume (t : nat) (r : Reply) (w : World) : World :=
  match tasks w !! t with
  | None => w
  | Some task =>
      let goto a w := on_tasks (alter (set_task_at a) t) w in
      match task_at task, r with
      | Finished, _ => w
      | _, Rejected err => catch t task err w
      | AwaitCreateOffer, OfferCreated offer =>
          (* await pc.setLocalDescription(offer); *)
          goto (AwaitSetLocalDescription offer) w
      | AwaitSetLocalDescription offer, Fulfilled =>
          let w := on_peer (task_pc task) (setLocalDescription offer) w in
          (* const response = await fetch(streamUrl, { method, body, headers }); *)
          let w := on_requests (fun rs => rs ++
                     [{| req_url := task_url task; req_method := "POST";
                         req_body := sdp offer;
                         req_headers := [("Content-Type", "application/sdp")] |}]) w in
          goto AwaitFetch w
      | AwaitFetch, Responded response =>
          (* if (!response.ok) throw new Error(`Connection failed: ${...}`); *)
          if negb (ok response)
          then catch t task
                 (Js.ThrownError ("Connection failed: " ++ statusText response)%string) w
          else (* const answerSdp = await response.text(); *)
               goto (AwaitText response) w
      | AwaitText response, Fulfilled =>
          let answerSdp := body response in
          (* new RTCPeerConnection().createSessionDescription({ type, sdp }) *)
          let w := on_peers (fun ps => ps ++ [new_RTCPeerConnection None]) w in
          match createSessionDescription B "answer" answerSdp with
          | None => catch t task Js.TypeError w
          | Some answer =>
              (* await pc.setRemoteDescription(...); *)
              goto (AwaitSetRemoteDescription answer) w
          end
      | AwaitSetRemoteDescription answer, Fulfilled =>
          let w := on_peer (task_pc task) (setRemoteDescription answer) w in
          goto Finished w
      | _, _ => w
      end
  end.

End Negotiation.

(** The cleanup function returned by the effect run [e]. *)
Definition cleanup (e : nat) (w : World) : World :=
  (* isMounted = false; *)
  let w := on_effects (alter (fun eff => {| eff_instance := eff_instance eff;
                                            isMounted := false |}) e) w in
  (* if (pcRef.current) pcRef.current.close(); *)
  let w := match pcRef (component w) with
           | Some p => on_peer p close w
           | None => w
           end in
  (* if (videoRef.current) videoRef.current.srcObject = null; *)
  match videoRef (refs (component w)) with
  | Some video =>
      on_component (fun c => set_refs (set_videoRef (Some (set_srcObject None video)) (refs c)) c) w
  | None => w
  end.

(** The effect callback: [let isMounted = true; ...; startStream();]. *)
Definition run_effect (w : World) : World :=
  let e := length (effects w) in
  let w := on_effects (fun es => es ++ [{| eff_instance := instance w; isMounted := true |}]) w in
  let w := set_current_effect (Some e) w in
  startStream e w.

Definition run_cleanup (w : World) : World :=
  match current_effect w with
  | Some e => set_current_effect None (cleanup e w)
  | None => w
  end.

(** The [pc.ontrack] handler installed by effect run [e]. *)
Definition ontrack_handler (e : nat) (streams : list MediaStream) (w : World) : World :=
  (* if (videoRef.current && event.streams[0]) { ... } *)
  match videoRef (refs (component w)), streams with
  | Some video, s :: _ =>
      let w := on_component
                 (fun c => set_refs (set_videoRef (Some (set_srcObject (Some s) video)) (refs c)) c) w in
      let w := on_component (set_streamRef (Some s)) w in
      if effect_isMounted e w then on_component (setConnectionStatus connected) w else w
  | _, _ => w
  end.

(** [connectionStatus !== 'connected']. *)
Definition not_connected (c : Component) : bool :=
  match connectionStatus c with connected => false | _ => true end.

(** What happens to the page. *)
Inductive Event :=
| Mount (url : string) (video : option HTMLVideoElement)
| SetStreamUrl (url : string)
| Unmount
| Resume (task : nat) (reply : Reply)
| Track (pc : nat) (streams : list MediaStream)
| ClickZoom
| ClickReset.

Section Page.

Variable B : Browser.

(** One event.  A render with an unchanged [streamUrl] leaves the
    effect alone (its dependency list is [[streamUrl]]); a closed peer
    connection fires no [track] event; the refs a handler of a
    discarded instance would write are not those of the live one.  At
    the unmount React detaches the video element from [videoRef] before
    it runs the cleanup of the effect.  A click reaches its handler only
    through a button that is rendered and not disabled: the zoom button
    is disabled unless the status is [connected], the second Reset
    button is rendered only while [zoomLevel > 1]. *)
Definition step (w : World) (ev : Event) : World :=
  match ev with
  | Mount url video =>
      if mounted w then w else
      let w := set_mounted true (S (instance w)) w in
      let w := on_component (fun _ => initial url video) w in
      run_effect w
  | SetStreamUrl url =>
      if negb (mounted w) then w else
      if String.eqb url (streamUrl (component w)) then w else
      let w := on_component (set_streamUrl url) w in
      run_effect (run_cleanup w)
  | Unmount =>
      if negb (mounted w) then w else
      let w := on_component (fun c => set_refs (set_videoRef None (refs c)) c) w in
      set_mounted false (instance w) (run_cleanup w)
  | Resume t r => resume B t r w
  | Track pc streams =>
      match peers w !! pc with
      | Some p =>
          match closed p, ontrack p with
          | false, Some e =>
              match effects w !! e with
              | Some eff =>
                  if Nat.eqb (eff_instance eff) (instance w)
                  then ontrack_handler e streams w
                  else w
              | None => w
              end
          | _, _ => w
          end
      | None => w
      end
  | ClickZoom =>
      if mounted w && negb (not_connected (component w))
      then on_component toggleZoom w else w
  | ClickReset =>
      if mounted w && Z.ltb 1 (zoomLevel (component w))
      then on_component resetToOriginal w else w
  end.

Definition run (w : World) (evs : list Event) : World := fold_left step evs w.

End Page.

(** Peer connections that are not closed. *)
Definition is_open (w : World) (p : nat) : bool :=
  match peers w !! p with
  | Some pc => negb (closed pc)
  | None => false
  end.

Definition open_connections (w : World) : list nat :=
  List.filter (is_open w) (seq 0 (length (peers w))).

(** *** What the component renders *)

Inductive Action := Reload | ToggleZoom | ResetZoom | Capture | ToggleRecording.

Inductive Node :=
| Spinner
| OfflineIcon
| Paragraph (text : string)
| Button (caption : string) (onClick : Action) (disabled : bool).

(** The loading / error layer over the video. *)
Definition render_status (c : Component) : list Node :=
  match connectionStatus c with
  | connected => []
  | connecting => [Spinner; Paragraph "Connecting to SafeSight Node..."]
  | error =>
      [OfflineIcon;
       Paragraph (match errorMessage c with
                  | Some m => if Js.truthy_string m then m else "Stream Offline"
                  | None => "Stream Offline"
                  end);
       Button "Retry Connection" Reload false]
  end.

(** The controls toolbar. *)
Definition render_toolbar (isRecording : bool) (c : Component) : list Node :=
  [Button (if Z.eqb (zoomLevel c) 1 then "Zoom" else "Reset") ToggleZoom (not_connected c)]
  ++ (if Z.ltb 1 (zoomLevel c) then [Button "Reset" ResetZoom false] else [])
  ++ [Button "Snapshot" Capture (not_connected c);
      Button (if isRecording then "Stop Recording" else "Record Stream")
        ToggleRecording (not_connected c)].

Definition render (isRecording : bool) (c : Component) : list Node :=
  render_status c ++ render_toolbar isRecording c.

(** [connectionStatus === 'connected' && detectedRisks.map(...)]; the
    component's [zoomLevel] is in scope and is not used. *)
Definition render_overlays (c : Component) (detectedRisks : list RiskDetection)
  : list OverlayBox :=
  match connectionStatus c with
  | connected =>
      map (fun risk =>
             {| key := risk_id risk;
                left := x risk; top := y risk;
                box_width := width risk; box_height := height risk;
                style_scale := None; transformOrigin := None;
                animate_scale := 1;
                label := overlay_label risk |}) detectedRisks
  | _ => []
  end.

Definition is_retry (n : Node) : bool :=
  match n with
  | Button _ Reload _ => true
  | _ => false
  end.

Definition retry_affordances (ns : list Node) : list Node := List.filter is_retry ns.

End LiveStream.

Module MediaViewer.

(** [media.risks.map(...)], with [transform: scale(zoom)],
    [transformOrigin: '0 0'] and [animate={{ scale: zoom }}]. *)
Definition render_overlays (zoom : Q) (risks : list RiskDetection) : list OverlayBox :=
  map (fun risk =>
         {| key := risk_id risk;
            left := x risk; top := y risk;
            box_width := width risk; box_height := height risk;
            style_scale := Some zoom; transformOrigin := Some (0%Q, 0%Q);
            animate_scale := zoom;
            label := overlay_label risk |}) risks.

Definition toggleZoom (zoom : Q) : Q := if Qeq_bool zoom 1 then 2 else 1.

End MediaViewer.





(** ** The local-camera variant *)

Module CameraFeed.

Record Component := {
  zoomLevel : Z;
  cameraError : option string;
  refs : CaptureRefs;
  streamRef : option MediaStream;
}.

Definition set_refs (r : CaptureRefs) (c : Component) : Component :=
  {| zoomLevel := zoomLevel c; cameraError := cameraError c; refs := r;
     streamRef := streamRef c |}.

Definition set_zoomLevel (z : Z) (c : Component) : Component :=
  {| zoomLevel := z; cameraError := cameraError c; refs := refs c;
     streamRef := streamRef c |}.

Definition getStream (c : Component) : option MediaStream := streamRef c.

Definition captureFrame (B : Browser) (c : Component) : Js.Completion (option string) * Component :=
  let (r, refs') := captureFrame B (refs c) in (r, set_refs refs' c).

End CameraFeed.

(** ** The host: recording and capture handlers of [App] *)

Module App.

Record CapturedImage := {
  ci_id : string;
  ci_timestamp : Z;
  imageUrl : string;
  ci_risks : list RiskDetection;
}.

(** [videoUrl] is the object URL, the index of its blob in the page's
    registry; [filename] keeps the instant the name is printed from. *)
Record RecordedVideo := {
  rv_id : string;
  rv_timestamp : Z;
  thumbnailUrl : string;
  videoUrl : nat;
  duration : Z;
  risks : list RiskDetection;
  filename : Z;
}.

Record Blob := {
  blob_data : list Byte.byte;
  blob_type : string;
}.

Definition size (b : Blob) : nat := length (blob_data b).

(** [new Blob(parts, { type })]: the parts' bytes, in order. *)
Definition new_Blob (parts : list Blob) (type : string) : Blob :=
  {| blob_data := concat (map blob_data parts); blob_type := type |}.

Inductive RecordingState := inactive | recording | paused.

(** The [onstop] closure: the [detectedRisks] of the render in which
    [handleToggleRecording] created it. *)
Record OnStop := {
  captured_detectedRisks : list RiskDetection;
}.

Record MediaRecorder := {
  mr_stream : MediaStream;
  mimeType : string;
  state : RecordingState;
  timeslice : option Z;
  ondataavailable : bool;
  onstop : option OnStop;
}.

Definition new_MediaRecorder (stream : MediaStream) (mime : string) : MediaRecorder :=
  {| mr_stream := stream; mimeType := mime; state := inactive; timeslice := None;
     ondataavailable := false; onstop := None |}.
Definition set_ondataavailable (r : MediaRecorder) : MediaRecorder :=
  {| mr_stream := mr_stream r; mimeType := mimeType r; state := state r;
     timeslice := timeslice r; ondataavailable := true; onstop := onstop r |}.
Definition set_onstop (k : OnStop) (r : MediaRecorder) : MediaRecorder :=
  {| mr_stream := mr_stream r; mimeType := mimeType r; state := state r;
     timeslice := timeslice r; ondataavailable := ondataavailable r; onstop := Some k |}.
Definition start (ms : Z) (r : MediaRecorder) : MediaRecorder :=
  {| mr_stream := mr_stream r; mimeType := mimeType r; state := recording;
     timeslice := Some ms; ondataavailable := ondataavailable r; onstop := onstop r |}.
Definition stop (r : MediaRecorder) : MediaRecorder :=
  {| mr_stream := mr_stream r; mimeType := mimeType r; state := inactive;
     timeslice := timeslice r; ondataavailable := ondataavailable r; onstop := onstop r |}.

Inductive ToastLevel := toast_error | toast_success.
Record Toast := {
  level : ToastLevel;
  title : string;
  description : string;
}.

(** The state variables and refs of [App] that the handlers touch, the
    media recorders and object URLs of the page, the toasts shown and
    the clock [Date.now()] reads, in milliseconds. *)
Record State := {
  isRecording : bool;
  detectedRisks : list RiskDetection;
  capturedImages : list CapturedImage;
  recordedVideos : list RecordedVideo;
  liveStreamRef : option LiveStream.Component;
  mediaRecorderRef : option nat;
  recordedChunksRef : list Blob;
  recordingStartTimeRef : Z;
  recorders : list MediaRecorder;
  objectURLs : list Blob;
  toasts : list Toast;
  console : list string;
  now : Z;
}.

Definition set_isRecording (v : bool) (s : State) : State :=
  {| isRecording := v; detectedRisks := detectedRisks s;
     capturedImages := capturedImages s; recordedVideos := recordedVideos s;
     liveStreamRef := liveStreamRef s; mediaRecorderRef := mediaRecorderRef s;
     recordedChunksRef := recordedChunksRef s;
     recordingStartTimeRef := recordingStartTimeRef s;
     recorders := recorders s; objectURLs := objectURLs s; toasts := toasts s;
     console := console s; now := now s |}.
Definition set_detectedRisks (v : list RiskDetection) (s : State) : State :=
  {| isRecording := isRecording s; detectedRisks := v;
     capturedImages := capturedImages s; recordedVideos := recordedVideos s;
     liveStreamRef := liveStreamRef s; mediaRecorderRef := mediaRecorderRef s;
     recordedChunksRef := recordedChunksRef s;
     recordingStartTimeRef := recordingStartTimeRef s;
     recorders := recorders s; objectURLs := objectURLs s; toasts := toasts s;
     console := console s; now := now s |}.
Definition set_capturedImages (v : list CapturedImage) (s : State) : State :=
  {| isRecording := isRecording s; detectedRisks := detectedRisks s;
     capturedImages := v; recordedVideos := recordedVideos s;
     liveStreamRef := liveStreamRef s; mediaRecorderRef := mediaRecorderRef s;
     recordedChunksRef := recordedChunksRef s;
     recordingStartTimeRef := recordingStartTimeRef s;
     recorders := recorders s; objectURLs := objectURLs s; toasts := toasts s;
     console := console s; now := now s |}.
Definition set_recordedVideos (v : list RecordedVideo) (s : State) : State :=
  {| isRecording := isRecording s; detectedRisks := detectedRisks s;
     capturedImages := capturedImages s; recordedVideos := v;
     liveStreamRef := liveStreamRef s; mediaRecorderRef := mediaRecorderRef s;
     recordedChunksRef := recordedChunksRef s;
     recordingStartTimeRef := recordingStartTimeRef s;
     recorders := recorders s; objectURLs := objectURLs s; toasts := toasts s;
     console := console s; now := now s |}.
Definition set_liveStreamRef (v : option LiveStream.Component) (s : State) : State :=
  {| isRecording := isRecording s; detectedRisks := detectedRisks s;
     capturedImages := capturedImages s; recordedVideos := recordedVideos s;
     liveStreamRef := v; mediaRecorderRef := mediaRecorderRef s;
     recordedChunksRef := recordedChunksRef s;
     recordingStartTimeRef := recordingStartTimeRef s;
     recorders := recorders s; objectURLs := objectURLs s; toasts := toasts s;
     console := console s; now := now s |}.
Definition set_mediaRecorderRef (v : option nat) (s : State) : State :=
  {| isRecording := isRecording s; detectedRisks := detectedRisks s;
     capturedImages := capturedImages s; recordedVideos := recordedVideos s;
     liveStreamRef := liveStreamRef s; mediaRecorderRef := v;
     recordedChunksRef := recordedChunksRef s;
     recordingStartTimeRef := recordingStartTimeRef s;
     recorders := recorders s; objectURLs := objectURLs s; toasts := toasts s;
     console := console s; now := now s |}.
Definition set_recordedChunksRef (v : list Blob) (s : State) : State :=
  {| isRecording := isRecording s; detectedRisks := detectedRisks s;
     capturedImages := capturedImages s; recordedVideos := recordedVideos s;
     liveStreamRef := liveStreamRef s; mediaRecorderRef := mediaRecorderRef s;
     recordedChunksRef := v; recordingStartTimeRef := recordingStartTimeRef s;
     recorders := recorders s; objectURLs := objectURLs s; toasts := toasts s;
     console := console s; now := now s |}.
Definition set_recordingStartTimeRef (v : Z) (s : State) : State :=
  {| isRecording := isRecording s; detectedRisks := detectedRisks s;
     capturedImages := capturedImages s; recordedVideos := recordedVideos s;
     liveStreamRef := liveStreamRef s; mediaRecorderRef := mediaRecorderRef s;
     recordedChunksRef := recordedChunksRef s; recordingStartTimeRef := v;
     recorders := recorders s; objectURLs := objectURLs s; toasts := toasts s;
     console := console s; now := now s |}.
Definition set_recorders (v : list MediaRecorder) (s : State) : State :=
  {| isRecording := isRecording s; detectedRisks := detectedRisks s;
     capturedImages := capturedImages s; recordedVideos := recordedVideos s;
     liveStreamRef := liveStreamRef s; mediaRecorderRef := mediaRecorderRef s;
     recordedChunksRef := recordedChunksRef s;
     recordingStartTimeRef := recordingStartTimeRef s; recorders := v;
     objectURLs := objectURLs s; toasts := toasts s; console := console s;
     now := now s |}.
Definition set_objectURLs (v : list Blob) (s : State) : State :=
  {| isRecording := isRecording s; detectedRisks := detectedRisks s;
     capturedImages := capturedImages s; recordedVideos := recordedVideos s;
     liveStreamRef := liveStreamRef s; mediaRecorderRef := mediaRecorderRef s;
     recordedChunksRef := recordedChunksRef s;
     recordingStartTimeRef := recordingStartTimeRef s;
     recorders := recorders s; objectURLs := v; toasts := toasts s;
     console := console s; now := now s |}.
Definition set_toasts (v : list Toast) (s : State) : State :=
  {| isRecording := isRecording s; detectedRisks := detectedRisks s;
     capturedImages := capturedImages s; recordedVideos := recordedVideos s;
     liveStreamRef := liveStreamRef s; mediaRecorderRef := mediaRecorderRef s;
     recordedChunksRef := recordedChunksRef s;
     recordingStartTimeRef := recordingStartTimeRef s;
     recorders := recorders s; objectURLs := objectURLs s; toasts := v;
     console := console s; now := now s |}.
Definition set_console (v : list string) (s : State) : State :=
  {| isRecording := isRecording s; detectedRisks := detectedRisks s;
     capturedImages := capturedImages s; recordedVideos := recordedVideos s;
     liveStreamRef := liveStreamRef s; mediaRecorderRef := mediaRecorderRef s;
     recordedChunksRef := recordedChunksRef s;
     recordingStartTimeRef := recordingStartTimeRef s;
     recorders := recorders s; objectURLs := objectURLs s; toasts := toasts s;
     console := v; now := now s |}.
Definition set_now (v : Z) (s : State) : State :=
  {| isRecording := isRecording s; detectedRisks := detectedRisks s;
     capturedImages := capturedImages s; recordedVideos := recordedVideos s;
     liveStreamRef := liveStreamRef s; mediaRecorderRef := mediaRecorderRef s;
     recordedChunksRef := recordedChunksRef s;
     recordingStartTimeRef := recordingStartTimeRef s;
     recorders := recorders s; objectURLs := objectURLs s; toasts := toasts s;
     console := console s; now := v |}.

Arguments set_isRecording v !s /.
Arguments set_detectedRisks v !s /.
Arguments set_capturedImages v !s /.
Arguments set_recordedVideos v !s /.
Arguments set_liveStreamRef v !s /.
Arguments set_mediaRecorderRef v !s /.
Arguments set_recordedChunksRef v !s /.
Arguments set_recordingStartTimeRef v !s /.
Arguments set_recorders v !s /.
Arguments set_objectURLs v !s /.
Arguments set_toasts v !s /.
Arguments set_console v !s /.
Arguments set_now v !s /.

(** [useState] and [useRef] initial values, at clock [t]. *)
Definition initial (t : Z) : State :=
  {| isRecording := false; detectedRisks := []; capturedImages := [];
     recordedVideos := []; liveStreamRef := None; mediaRecorderRef := None;
     recordedChunksRef := []; recordingStartTimeRef := 0; recorders := [];
     objectURLs := []; toasts := []; console := []; now := t |}.

Definition toast (l : ToastLevel) (t d : string) : Js.M State unit :=
  Js.modify (fun s => set_toasts (toasts s ++ [{| level := l; title := t; description := d |}]) s).

Definition string_of_nat (n : nat) : string := NilZero.string_of_uint (Nat.to_uint n).
Definition string_of_Z (z : Z) : string := NilZero.string_of_int (Z.to_int z).

(** The values of a render that the handlers defined in it close over. *)
Record Render := {
  r_isRecording : bool;
  r_detectedRisks : list RiskDetection;
}.

Definition render (s : State) : Render :=
  {| r_isRecording := isRecording s; r_detectedRisks := detectedRisks s |}.

Section Handlers.

Variable B : Browser.

Local Open Scope js_scope.

(** [liveStreamRef.current?.captureFrame()]. *)
Definition child_captureFrame : Js.M State (option string) :=
  fun s => match liveStreamRef s with
           | None => (Js.Normal None, s)
           | Some child =>
               let (r, child') := LiveStream.captureFrame B child in
               (r, set_liveStreamRef (Some child') s)
           end.

(** [mediaRecorder.ondataavailable]. *)
Definition ondataavailable_handler (data : Blob) : Js.M State unit :=
  (* if (event.data.size > 0) recordedChunksRef.current.push(event.data); *)
  if Nat.ltb 0 (size data)
  then Js.modify (fun s => set_recordedChunksRef (recordedChunksRef s ++ [data]) s)
  else Js.ret tt.

(** [mediaRecorder.onstop], the closure [k]. *)
Definition onstop_handler (k : OnStop) : Js.M State unit :=
  (* const blob = new Blob(recordedChunksRef.current, { type: 'video/webm' }); *)
  chunks <- Js.gets recordedChunksRef ;;
  let blob := new_Blob chunks "video/webm" in
  (* const videoUrl = URL.createObjectURL(blob); *)
  urls <- Js.gets objectURLs ;;
  let videoUrl := length urls in
  Js.modify (set_objectURLs (urls ++ [blob])) ;;;
  (* const duration = Math.floor((Date.now() - recordingStartTimeRef.current) / 1000); *)
  t <- Js.gets now ;;
  t0 <- Js.gets recordingStartTimeRef ;;
  let duration := Js.Math_floor_div (t - t0) 1000 in
  (* const thumbnailUrl = liveStreamRef.current?.captureFrame() || ''; *)
  frame <- child_captureFrame ;;
  let thumbnailUrl := match frame with
                      | Some url => if Js.truthy_string url then url else ""
                      | None => ""
                      end in
  let newVideo :=
    {| rv_id := ("video-" ++ string_of_Z t)%string; rv_timestamp := t;
       thumbnailUrl := thumbnailUrl; videoUrl := videoUrl; duration := duration;
       risks := captured_detectedRisks k; filename := t |} in
  (* setRecordedVideos((prev) => [newVideo, ...prev.slice(0, 4)]); *)
  Js.modify (fun s => set_recordedVideos (newVideo :: firstn 4 (recordedVideos s)) s) ;;;
  toast toast_success "Recording stopped"
    ("Video saved with " ++ string_of_nat (length (captured_detectedRisks k))
     ++ " risk events recorded")%string.

Definition on_recorder (r : nat) (f : MediaRecorder -> MediaRecorder) : Js.M State unit :=
  Js.modify (fun s => set_recorders (alter f r (recorders s)) s).

Definition webm_vp9 : string := "video/webm;codecs=vp9".

(** [new MediaRecorder(stream, { mimeType })]: throws when the browser
    does not support the type. *)
Definition construct_MediaRecorder (stream : MediaStream) (mime : string) : Js.M State nat :=
  if isTypeSupported B mime
  then rs <- Js.gets recorders ;;
       Js.modify (set_recorders (rs ++ [new_MediaRecorder stream mime])) ;;;
       Js.ret (length rs)
  else Js.throw (Js.DomError "NotSupportedError").

(** [handleToggleRecording], as defined in the render [r]. *)
Definition handleToggleRecording (r : Render) : Js.M State unit :=
  (* const wasRecording = isRecording; setIsRecording(!isRecording); *)
  let wasRecording := r_isRecording r in
  Js.modify (set_isRecording (negb (r_isRecording r))) ;;;
  if wasRecording then
    (* if (mediaRecorderRef.current && mediaRecorderRef.current.state !== 'inactive')
         mediaRecorderRef.current.stop(); *)
    ref <- Js.gets mediaRecorderRef ;;
    rs <- Js.gets recorders ;;
    match ref with
    | Some rec =>
        match rs !! rec with
        | Some mr => match state mr with
                     | inactive => Js.ret tt
                     | _ => on_recorder rec stop
                     end
        | None => Js.ret tt
        end
    | None => Js.ret tt
    end
  else
    (* const stream = liveStreamRef.current?.getStream(); *)
    child <- Js.gets liveStreamRef ;;
    match child ≫= LiveStream.getStream with
    | None =>
        (* if (!stream) { toast.error(...); setIsRecording(false); return; } *)
        toast toast_error "Stream not ready" "Waiting for connection to Raspberry Pi..." ;;;
        Js.modify (set_isRecording false)
    | Some stream =>
        Js.try_catch
          ((* recordedChunksRef.current = []; recordingStartTimeRef.current = Date.now(); *)
           Js.modify (set_recordedChunksRef []) ;;;
           t <- Js.gets now ;;
           Js.modify (set_recordingStartTimeRef t) ;;;
           mediaRecorder <- construct_MediaRecorder stream webm_vp9 ;;
           on_recorder mediaRecorder set_ondataavailable ;;;
           on_recorder mediaRecorder
             (set_onstop {| captured_detectedRisks := r_detectedRisks r |}) ;;;
           (* mediaRecorderRef.current = mediaRecorder; mediaRecorder.start(1000); *)
           Js.modify (set_mediaRecorderRef (Some mediaRecorder)) ;;;
           on_recorder mediaRecorder (start 1000) ;;;
           toast toast_success "Recording started" "Video recording has begun")
          (fun _ =>
             Js.modify (fun s => set_console (console s ++ ["Error starting recording:"]) s) ;;;
             toast toast_error "Recording failed"
               "Unable to start video recording (Browser permission issue?)" ;;;
             Js.modify (set_isRecording false))
    end.

(** [handleCapture], as defined in the render [r]. *)
Definition handleCapture (r : Render) : Js.M State unit :=
  imageUrl <- child_captureFrame ;;
  match imageUrl with
  | Some url =>
      if Js.truthy_string url then
        t <- Js.gets now ;;
        let newCapture :=
          {| ci_id := ("capture-" ++ string_of_Z t)%string; ci_timestamp := t;
             imageUrl := url; ci_risks := r_detectedRisks r |} in
        Js.modify (fun s => set_capturedImages (newCapture :: firstn 4 (capturedImages s)) s) ;;;
        toast toast_success "Screenshot captured"
          ("Image saved with " ++ string_of_nat (length (r_detectedRisks r))
           ++ " detected risks")%string
      else toast toast_error "Capture failed" "Stream not ready for capture"
  | None => toast toast_error "Capture failed" "Stream not ready for capture"
  end.

(** What happens to the host. *)
Inductive Event :=
| ClickToggleRecording
| ClickCapture
| Detections (risks : list RiskDetection)
| Child (child : option LiveStream.Component)
| Advance (ms : N)
| DataAvailable (recorder : nat) (data : Blob)
| Stopped (recorder : nat).

(** One event.  A click runs the handler of the latest render; a
    recorder event runs the handler installed on that recorder; the
    state an event handler leaves is kept also when it throws. *)
Definition step (s : State) (ev : Event) : State :=
  match ev with
  | ClickToggleRecording => snd (handleToggleRecording (render s) s)
  | ClickCapture => snd (handleCapture (render s) s)
  | Detections rs => set_detectedRisks rs s
  | Child c => set_liveStreamRef c s
  | Advance ms => set_now (now s + Z.of_N ms) s
  | DataAvailable rec data =>
      match recorders s !! rec with
      | Some mr => if ondataavailable mr then snd (ondataavailable_handler data s) else s
      | None => s
      end
  | Stopped rec =>
      match recorders s !! rec with
      | Some mr => match onstop mr with
                   | Some k => snd (onstop_handler k s)
                   | None => s
                   end
      | None => s
      end
  end.

Definition run (s : State) (evs : list Event) : State := fold_left step evs s.

End Handlers.

End App.

(** ** Vocabulary of the statements *)

(** The canvas [captureFrame] draws on: the one behind [canvasRef], or the
    one it creates when the ref is still empty. *)
Definition capture_canvas (B : Browser) (r : CaptureRefs) : HTMLCanvasElement :=
  match canvasRef r with
  | Some c => c
  | None => createElement_canvas B
  end.

(** The canvas after a capture of the video [v]: sized to the intrinsic
    dimensions, holding the current frame drawn over its whole surface. *)
Definition captured (v : HTMLVideoElement) : HTMLCanvasElement :=
  {| canvas_width := videoWidth v; canvas_height := videoHeight v; context2d := true;
     bitmap := Some {| drawn_frame := currentFrame v; dx := 0; dy := 0;
                       dw := videoWidth v; dh := videoHeight v |} |}.

(** [res] is the normal return of a still of the video [v]: the non-empty
    text the encoder gives for a canvas of the video's intrinsic size
    holding its current frame, as JPEG at quality 0.95. *)
Definition returns_frame_of (B : Browser) (v : HTMLVideoElement)
    (res : Js.Completion (option string)) : Prop :=
  exists url, res = Js.Normal (Some url) /\ url <> ""
              /\ url = toDataURL B (captured v) "image/jpeg" (95 # 100).


(** The peer connection [startStream] sets up in effect run [e], as it is
    when the offer is requested. *)
Definition fresh_pc (e : nat) : LiveStream.RTCPeerConnection :=
  {| LiveStream.configuration := Some [LiveStream.stun_server];
     LiveStream.closed := false;
     LiveStream.ontrack := Some e;
     LiveStream.transceivers := [("video", LiveStream.recvonly)];
     LiveStream.localDescription := None;
     LiveStream.remoteDescription := None |}.

(** The peer connections of the page once the one behind [pcRef] is closed. *)
Definition close_current (w : LiveStream.World) : list LiveStream.RTCPeerConnection :=
  match LiveStream.pcRef (LiveStream.component w) with
  | Some old => alter LiveStream.close old (LiveStream.peers w)
  | None => LiveStream.peers w
  end.

(** The [fetch] call of a negotiation: one POST of the offer's SDP text. *)
Definition whep_post (url : string) (offer : RTCSessionDescription) : LiveStream.Request :=
  {| LiveStream.req_url := url; LiveStream.req_method := "POST";
     LiveStream.req_body := sdp offer;
     LiveStream.req_headers := [("Content-Type", "application/sdp")] |}.

(** The resumption of [task] with reply [r] is a failure of the
    negotiation: an awaited promise rejects, the response is not a
    success, or the answer description cannot be made. *)
Definition fails (B : Browser) (task : LiveStream.Task) (r : LiveStream.Reply) : Prop :=
  match LiveStream.task_at task, r with
  | LiveStream.Finished, _ => False
  | _, LiveStream.Rejected _ => True
  | LiveStream.AwaitFetch, LiveStream.Responded response => LiveStream.ok response = false
  | LiveStream.AwaitText response, LiveStream.Fulfilled =>
      createSessionDescription B "answer" (LiveStream.body response) = None
  | _, _ => False
  end.

(** A peer connection the component negotiates with (it was constructed
    with the ICE configuration, by [startStream]) and that is not closed. *)
Definition negotiating (pc : LiveStream.RTCPeerConnection) : bool :=
  negb (LiveStream.closed pc)
  && match LiveStream.configuration pc with Some _ => true | None => false end.

(** Every open peer connection made by [startStream] is the one behind
    [pcRef] of the mounted component, and a mounted component has an
    effect run whose cleanup is pending. *)
Definition one_session (w : LiveStream.World) : Prop :=
  (forall p pc, LiveStream.peers w !! p = Some pc -> negotiating pc = true ->
                LiveStream.mounted w = true
                /\ LiveStream.pcRef (LiveStream.component w) = Some p)
  /\ (LiveStream.mounted w = true -> LiveStream.current_effect w <> None).

(** No connection made by [startStream] is open. *)
Definition quiet (w : LiveStream.World) : Prop :=
  forall p pc, LiveStream.peers w !! p = Some pc -> negotiating pc = false.

Definition not_ready_toast : App.Toast :=
  {| App.level := App.toast_error; App.title := "Stream not ready";
     App.description := "Waiting for connection to Raspberry Pi..." |}.

(** The recorder [handleToggleRecording] leaves behind [mediaRecorderRef]
    when it starts a recording of [stream] in a render whose detections
    are [risks]. *)
Definition started_recorder (stream : MediaStream) (risks : list RiskDetection)
  : App.MediaRecorder :=
  {| App.mr_stream := stream; App.mimeType := App.webm_vp9; App.state := App.recording;
     App.timeslice := Some 1000%Z; App.ondataavailable := true;
     App.onstop := Some {| App.captured_detectedRisks := risks |} |}.

(** The artifact [onstop] makes in state [s] from the closure [k], with
    the thumbnail it got. *)
Definition stop_artifact (s : App.State) (k : App.OnStop) (thumbnail : string)
  : App.RecordedVideo :=
  {| App.rv_id := ("video-" ++ App.string_of_Z (App.now s))%string;
     App.rv_timestamp := App.now s;
     App.thumbnailUrl := thumbnail;
     App.videoUrl := length (App.objectURLs s);
     App.duration := (App.now s - App.recordingStartTimeRef s) / 1000;
     App.risks := App.captured_detectedRisks k;
     App.filename := App.now s |}.

(** ** Browsers and sample data *)

(** A browser that supports everything the program asks for. *)
Definition full_browser : Browser :=
  {| platform_context2d := true;
     toDataURL := fun c type _ =>
       ("data:" ++ type ++ ";" ++ NilZero.string_of_uint (N.to_uint (canvas_width c))
        ++ "x" ++ NilZero.string_of_uint (N.to_uint (canvas_height c)))%string;
     createSessionDescription := fun type text => Some {| sd_type := type; sdp := text |};
     isTypeSupported := fun _ => true |}.

(** A browser that cannot give a 2D drawing context. *)
Definition contextless_browser : Browser :=
  {| platform_context2d := false;
     toDataURL := toDataURL full_browser;
     createSessionDescription := createSessionDescription full_browser;
     isTypeSupported := isTypeSupported full_browser |}.

(** A browser without [createSessionDescription] on peer connections:
    the call throws a [TypeError]. *)
Definition standard_browser : Browser :=
  {| platform_context2d := true;
     toDataURL := toDataURL full_browser;
     createSessionDescription := fun _ _ => None;
     isTypeSupported := isTypeSupported full_browser |}.

(** A video element showing a decoded 640 by 480 frame, and one that has
    not decoded any. *)
Definition sample_video : HTMLVideoElement :=
  {| videoWidth := 640; videoHeight := 480; currentFrame := 7; srcObject := Some 1%nat |}.

Definition blank_video : HTMLVideoElement :=
  {| videoWidth := 0; videoHeight := 0; currentFrame := 0; srcObject := None |}.

Definition sample_refs : CaptureRefs :=
  {| videoRef := Some sample_video; canvasRef := None |}.

(** The endpoint configured in [App], and another one. *)
Definition whep_url : string := "http://192.168.1.92:8889/pi-cam-hires/whep".
Definition other_url : string := "http://192.168.1.50:8889/pi-cam/whep".

Definition sample_stream : LiveStream.Component :=
  LiveStream.initial whep_url (Some sample_video).

Definition sample_feed : CameraFeed.Component :=
  {| CameraFeed.zoomLevel := 1; CameraFeed.cameraError := None;
     CameraFeed.refs := sample_refs; CameraFeed.streamRef := None |}.

Definition sample_risk : RiskDetection :=
  {| risk_id := "risk-0"; risk_type := "Fire Hazard"; confidence := 175 # 2;
     x := 10; y := 20; width := 30; height := 40 |}.

Definition other_risk : RiskDetection :=
  {| risk_id := "risk-1"; risk_type := "Slippery Floor"; confidence := 64;
     x := 55; y := 35; width := 12; height := 18 |}.


(** A connected live stream showing [sample_video], exposing stream 5. *)
Definition live_child : LiveStream.Component :=
  LiveStream.set_streamRef (Some 5%nat)
    (LiveStream.setConnectionStatus LiveStream.connected sample_stream).

Definition sample_offer : RTCSessionDescription :=
  {| sd_type := "offer"; sdp := "v=0 o=- 1 IN IP4 127.0.0.1 a=recvonly" |}.

Definition created : LiveStream.Response :=
  {| LiveStream.ok := true; LiveStream.statusText := "Created";
     LiveStream.body := "v=0 o=- 2 IN IP4 192.168.1.92 a=sendonly" |}.

Definition unavailable : LiveStream.Response :=
  {| LiveStream.ok := false; LiveStream.statusText := "Service Unavailable";
     LiveStream.body := "" |}.

(** Mount, then the offer is created and set, and the POST is sent. *)
Definition offer_sent : list LiveStream.Event :=
  [LiveStream.Mount whep_url (Some blank_video);
   LiveStream.Resume 0 (LiveStream.OfferCreated sample_offer);
   LiveStream.Resume 0 LiveStream.Fulfilled].

(** ... then the gateway answers 201 and the body is read. *)
Definition answer_read : list LiveStream.Event :=
  offer_sent ++
  [LiveStream.Resume 0 (LiveStream.Responded created);
   LiveStream.Resume 0 LiveStream.Fulfilled].

(** ... then the answer is applied and the gateway's track arrives. *)
Definition streaming : list LiveStream.Event :=
  answer_read ++
  [LiveStream.Resume 0 LiveStream.Fulfilled;
   LiveStream.Track 0 [5%nat]].

(** The page at the moment the effect of a freshly mounted component
    runs. *)
Definition mounting : LiveStream.World :=
  LiveStream.on_component (fun _ => LiveStream.initial whep_url (Some blank_video))
    (LiveStream.set_mounted true 1 LiveStream.blank).

Definition empty_blob : App.Blob := {| App.blob_data := []; App.blob_type := "video/webm" |}.

Definition chunk (b : Byte.byte) : App.Blob :=
  {| App.blob_data := [b; b]; App.blob_type := "video/webm;codecs=vp9" |}.

(** The host with a connected live stream mounted. *)
Definition ready_host : App.State :=
  App.set_liveStreamRef (Some live_child) (App.initial 0).

(** A recording of 5.4 seconds during which the detections change. *)
Definition overlays_change_while_recording : list App.Event :=
  [App.Detections [sample_risk];
   App.ClickToggleRecording;
   App.Advance 5400;
   App.DataAvailable 0 (chunk Byte.x01);
   App.Detections [other_risk];
   App.ClickToggleRecording;
   App.DataAvailable 0 empty_blob;
   App.Stopped 0].

(** ** The risk feed of [App]: mock risks, overlays, alert level *)

Module Dashboard.

Local Open Scope js_scope.

Inductive Severity := low | medium | high | critical.
Inductive RiskStatus := active | tracking.

Definition severity_eqb (a b : Severity) : bool :=
  match a, b with
  | low, low | medium, medium | high, high | critical, critical => true
  | _, _ => false
  end.

(** The string a severity is in the program. *)
Definition severity_name (s : Severity) : string :=
  match s with
  | low => "low"
  | medium => "medium"
  | high => "high"
  | critical => "critical"
  end.

Record Risk := {
  id : string;
  type : string;
  severity : Severity;
  risk_confidence : Z;
  description : string;
  timestamp : Z;
  status : RiskStatus;
}.

(** What the generators read of the world: the numbers [Math.random()]
    returns, in the order of the calls, and the readings of [Date.now()],
    in milliseconds.  The random numbers and what is computed from them
    are rationals; the rounding of the double operations is not
    modelled. *)
Record Env := {
  random : nat -> Q;
  random_calls : nat;
  clock : nat -> Z;
  clock_calls : nat;
}.

Definition Math_random : Js.M Env Q :=
  fun e => (Js.Normal (random e (random_calls e)),
            {| random := random e; random_calls := S (random_calls e);
               clock := clock e; clock_calls := clock_calls e |}).

Definition Date_now : Js.M Env Z :=
  fun e => (Js.Normal (clock e (clock_calls e)),
            {| random := random e; random_calls := random_calls e;
               clock := clock e; clock_calls := S (clock_calls e) |}).

(** [Math.floor]. *)
Definition Math_floor (q : Q) : Z := Qfloor q.

(** [new Date(t)]: the time value is [t] with its fraction dropped. *)
Definition new_Date (t : Q) : Z := if Qle_bool 0 t then Qfloor t else Qceiling t.

(** [a[i]] where the program casts the result to the element type; [d]
    stands for [undefined]. *)
Definition item {A} (d : A) (a : list A) (i : Z) : A :=
  if Z.ltb i 0 then d else nth (Z.to_nat i) a d.

(** [Array.from({ length: n }, (_, i) => f(i))], from index [i]. *)
Fixpoint Array_from {S A} (n : nat) (i : nat) (f : nat -> Js.M S A) : Js.M S (list A) :=
  match n with
  | O => Js.ret []
  | Datatypes.S n' =>
      a <- f i ;;
      rest <- Array_from n' (Datatypes.S i) f ;;
      Js.ret (a :: rest)
  end.

(** [a.map(f)] for a callback with effects. *)
Fixpoint Array_map {S A B} (f : A -> Js.M S B) (a : list A) : Js.M S (list B) :=
  match a with
  | [] => Js.ret []
  | v :: a' =>
      b <- f v ;;
      rest <- Array_map f a' ;;
      Js.ret (b :: rest)
  end.

Definition riskTypes : list string :=
  ["Violence/Abuse"; "Fire Hazard"; "Sharp Object Detected"; "Slippery Floor";
   "Signs of Passing Out"].

Definition descriptions : list string :=
  ["Person detected showing signs of abuse";
   "Fire hazard detected in proximity";
   "Person close to sharp object";
   "Person in possible slip or fall accident";
   "Person is showing signs of passing out"].

Definition string_of_nat (n : nat) : string := NilZero.string_of_uint (Nat.to_uint n).

(** The callback of [generateMockRisks], at index [i]. *)
Definition mock_risk (i : nat) : Js.M Env Risk :=
  r_type <- Math_random ;;
  r_severity <- Math_random ;;
  r_confidence <- Math_random ;;
  r_description <- Math_random ;;
  now <- Date_now ;;
  r_age <- Math_random ;;
  r_status <- Math_random ;;
  Js.ret
    {| id := ("risk-" ++ string_of_nat i)%string;
       type := item "undefined" riskTypes
                 (Math_floor (r_type * inject_Z (Z.of_nat (length riskTypes))));
       severity := item low [low; medium; high; critical] (Math_floor (r_severity * 4));
       risk_confidence := Math_floor (r_confidence * 40) + 60;
       description := item "undefined" descriptions
                        (Math_floor (r_description * inject_Z (Z.of_nat (length descriptions))));
       timestamp := new_Date (inject_Z now - r_age * 3600000);
       status := item active [active; tracking] (Math_floor (r_status * 2)) |}.

Definition generateMockRisks : Js.M Env (list Risk) :=
  r_length <- Math_random ;;
  Array_from (Z.to_nat (Math_floor (r_length * 4))) 0 mock_risk.

(** The callback of [generateDetectedRisks]. *)
Definition detection (risk : Risk) : Js.M Env RiskDetection :=
  r_x <- Math_random ;;
  r_y <- Math_random ;;
  r_width <- Math_random ;;
  r_height <- Math_random ;;
  Js.ret (Build_RiskDetection (id risk) (type risk) (inject_Z (risk_confidence risk))
            (r_x * 60 + 10) (r_y * 60 + 10) (r_width * 15 + 10) (r_height * 15 + 10)).

Definition generateDetectedRisks (activeRisks : list Risk) : Js.M Env (list RiskDetection) :=
  Array_map detection activeRisks.

(** [alertLevel], of a render whose risks are [currentRisks]. *)
Definition alertLevel (currentRisks : list Risk) : string :=
  if existsb (fun r => severity_eqb (severity r) critical) currentRisks then "critical"
  else if existsb (fun r => severity_eqb (severity r) high) currentRisks then "high"
  else if existsb (fun r => severity_eqb (severity r) medium) currentRisks then "elevated"
  else "normal".

Record Toast := {
  title : string;
  toast_description : string;
  duration : Z;
}.

(** The state of [App] the risk feed touches, with the world it reads. *)
Record State := {
  currentRisks : list Risk;
  detectedRisks : list RiskDetection;
  totalDetections : Z;
  env : Env;
  toasts : list Toast;
}.

Definition setCurrentRisks (v : list Risk) (s : State) : State :=
  {| currentRisks := v; detectedRisks := detectedRisks s;
     totalDetections := totalDetections s; env := env s; toasts := toasts s |}.
Definition setDetectedRisks (v : list RiskDetection) (s : State) : State :=
  {| currentRisks := currentRisks s; detectedRisks := v;
     totalDetections := totalDetections s; env := env s; toasts := toasts s |}.
Definition setTotalDetections (f : Z -> Z) (s : State) : State :=
  {| currentRisks := currentRisks s; detectedRisks := detectedRisks s;
     totalDetections := f (totalDetections s); env := env s; toasts := toasts s |}.
Definition set_env (v : Env) (s : State) : State :=
  {| currentRisks := currentRisks s; detectedRisks := detectedRisks s;
     totalDetections := totalDetections s; env := v; toasts := toasts s |}.
Definition toast_error (t : Toast) (s : State) : State :=
  {| currentRisks := currentRisks s; detectedRisks := detectedRisks s;
     totalDetections := totalDetections s; env := env s; toasts := toasts s ++ [t] |}.

Arguments setCurrentRisks v !s /.
Arguments setDetectedRisks v !s /.
Arguments setTotalDetections f !s /.
Arguments set_env v !s /.
Arguments toast_error t !s /.

(** [useState] initial values, in the world [e]. *)
Definition initial (e : Env) : State :=
  {| currentRisks := []; detectedRisks := []; totalDetections := 147; env := e;
     toasts := [] |}.

(** A computation on the world, run in the state of the component. *)
Definition in_env {A} (m : Js.M Env A) : Js.M State A :=
  fun s => let (r, e) := m (env s) in (r, set_env e s).

(** The double [0.3]. *)
Definition double_0_3 : Q := 5404319552844595 # 18014398509481984.

(** New risks and their overlays: the start of the interval callback and
    the tail of the first effect. *)
Definition refresh : Js.M State unit :=
  newRisks <- in_env generateMockRisks ;;
  Js.modify (setCurrentRisks newRisks) ;;;
  detections <- in_env (generateDetectedRisks newRisks) ;;
  Js.modify (setDetectedRisks detections).

(** The callback of [setInterval]. *)
Definition on_interval : Js.M State unit :=
  refresh ;;;
  r <- in_env Math_random ;;
  if negb (Qle_bool double_0_3 r)
  then Js.modify (setTotalDetections (fun prev => (prev + 1)%Z))
  else Js.ret tt.

(** [s.toUpperCase()] on a string of ASCII letters. *)
Definition toUpperCase_ascii (c : Ascii.ascii) : Ascii.ascii :=
  let n := Ascii.nat_of_ascii c in
  if (Nat.leb 97 n && Nat.leb n 122)%bool then Ascii.ascii_of_nat (n - 32) else c.

Fixpoint toUpperCase (s : string) : string :=
  match s with
  | EmptyString => EmptyString
  | String c s' => String (toUpperCase_ascii c) (toUpperCase s')
  end.

Definition is_high_severity (r : Risk) : bool :=
  severity_eqb (severity r) high || severity_eqb (severity r) critical.

(** The effect on [currentRisks], in a render whose risks are
    [currentRisks]. *)
Definition toast_effect (currentRisks : list Risk) : Js.M State unit :=
  let highSeverityRisks := List.filter is_high_severity currentRisks in
  if Nat.ltb 0 (length highSeverityRisks) then
    latestRisk <- Js.deref (highSeverityRisks !! 0%nat) ;;
    Js.modify (toast_error
                 {| title := (toUpperCase (severity_name (severity latestRisk))
                              ++ " RISK: " ++ type latestRisk)%string;
                    toast_description := description latestRisk;
                    duration := 5000 |})
  else Js.ret tt.

(** The mount, in the world [e], with the renders that follow it.  The
    effects of the first render run in order, the second one on the risks
    of that render, which are none; the render after the change of
    [currentRisks] runs the toast effect on the new risks. *)
Definition mount (e : Env) : State :=
  let s := snd (refresh (initial e)) in
  let s := snd (toast_effect [] s) in
  snd (toast_effect (currentRisks s) s).

(** One firing of the interval, with the render that follows it. *)
Definition tick (s : State) : State :=
  let s := snd (on_interval s) in
  snd (toast_effect (currentRisks s) s).

(** The risk feed after [n] firings of the interval. *)
Definition after (e : Env) (n : nat) : State := Nat.iter n tick (mount e).

End Dashboard.

(** A whole number that a double holds exactly: below 2^53 in absolute
    value.  On such a number [n] and for [b] one of 24, 60 and 3600 the
    program's [Math.floor(n / b)] is the quotient of the integers: the
    double nearest to [n / b] cannot reach the next whole number, which
    is at least [1 / b] away, more than half a unit in the last place of
    any double below [2^53 / b].  [n % b] is exact and has the sign of
    [n], and a whole number of this size prints as its decimal
    numeral. *)
Definition safe_integer (n : Z) : bool := Z.ltb (Z.abs n) (2 ^ 53).

(** ** The system overview ([SystemOverview.tsx]) *)

Module SystemOverview.

Definition default_color : string := "text-gray-400 bg-gray-900/20".

Definition getAlertColor (level : string) : string :=
  if String.eqb level "normal" then "text-green-400 bg-green-900/20"
  else if String.eqb level "elevated" then "text-yellow-400 bg-yellow-900/20"
  else if String.eqb level "high" then "text-orange-400 bg-orange-900/20"
  else if String.eqb level "critical" then "text-red-400 bg-red-900/20"
  else default_color.

(** [formatUptime], on a whole number of hours that a double holds
    exactly: [Math.floor(hours / 24)] and the remainder [hours % 24],
    which has the sign of [hours].  The program computes on doubles; the
    text it gives for other numbers is not modelled ([None]). *)
Definition formatUptime (hours : Z) : option string :=
  if safe_integer hours then
    let days := Js.Math_floor_div hours 24 in
    let remainingHours := Z.rem hours 24 in
    Some (App.string_of_Z days ++ "d " ++ App.string_of_Z remainingHours ++ "h")%string
  else None.

End SystemOverview.

(** ** The risk history ([RiskHistory.tsx]) *)

Module RiskHistory.

Inductive Status := resolved | escalated | false_positive.

Record HistoricalRisk := {
  id : string;
  type : string;
  severity : Dashboard.Severity;
  confidence : Z;
  description : string;
  timestamp : Z;
  duration : Z;
  status : Status;
  location : string;
}.

(** The state of the filters. *)
Record Component := {
  searchTerm : string;
  severityFilter : string;
  timeFilter : string;
}.

Definition initial : Component :=
  {| searchTerm := ""; severityFilter := "all"; timeFilter := "24h" |}.

Definition setSearchTerm (v : string) (c : Component) : Component :=
  {| searchTerm := v; severityFilter := severityFilter c; timeFilter := timeFilter c |}.
Definition setSeverityFilter (v : string) (c : Component) : Component :=
  {| searchTerm := searchTerm c; severityFilter := v; timeFilter := timeFilter c |}.
Definition setTimeFilter (v : string) (c : Component) : Component :=
  {| searchTerm := searchTerm c; severityFilter := severityFilter c; timeFilter := v |}.

(** [s.includes(sub)]: [sub] occurs in [s]. *)
Fixpoint includes (s sub : string) : bool :=
  String.prefix sub s
  || match s with
     | EmptyString => false
     | String _ s' => includes s' sub
     end.

Section Filter.

(** [String.prototype.toLowerCase], which depends on the Unicode tables
    of the engine. *)
Variable toLowerCase : string -> string.

(** The callback of [historicalRisks.filter], when [new Date()] reads
    [now]. *)
Definition matches (c : Component) (now : Z) (risk : HistoricalRisk) : bool :=
  let matchesSearch :=
    includes (toLowerCase (type risk)) (toLowerCase (searchTerm c))
    || includes (toLowerCase (description risk)) (toLowerCase (searchTerm c)) in
  let matchesSeverity :=
    String.eqb (severityFilter c) "all"
    || String.eqb (Dashboard.severity_name (severity risk)) (severityFilter c) in
  let matchesTime :=
    if String.eqb (timeFilter c) "1h" then Z.leb (now - timestamp risk) (60 * 60 * 1000)
    else if String.eqb (timeFilter c) "24h" then Z.leb (now - timestamp risk) (24 * 60 * 60 * 1000)
    else if String.eqb (timeFilter c) "7d" then Z.leb (now - timestamp risk) (7 * 24 * 60 * 60 * 1000)
    else true in
  matchesSearch && matchesSeverity && matchesTime.

(** [historicalRisks.filter(...)]: the callback reads the clock once for
    each element; [clock i] is the reading at the element of index [i]. *)
Fixpoint filter_from (c : Component) (clock : nat -> Z) (i : nat)
    (risks : list HistoricalRisk) : list HistoricalRisk :=
  match risks with
  | [] => []
  | risk :: rest =>
      if matches c (clock i) risk
      then risk :: filter_from c clock (S i) rest
      else filter_from c clock (S i) rest
  end.

Definition filteredRisks (c : Component) (clock : nat -> Z)
    (historicalRisks : list HistoricalRisk) : list HistoricalRisk :=
  filter_from c clock 0 historicalRisks.

End Filter.

(** The summary line: Found, High Risk, Resolved. *)
Definition found (filtered : list HistoricalRisk) : nat := length filtered.

Definition high_risk (filtered : list HistoricalRisk) : nat :=
  length (List.filter
            (fun r => Dashboard.severity_eqb (severity r) Dashboard.critical
                      || Dashboard.severity_eqb (severity r) Dashboard.high) filtered).

Definition resolved_count (filtered : list HistoricalRisk) : nat :=
  length (List.filter (fun r => match status r with resolved => true | _ => false end)
            filtered).

(** [formatDuration], on a whole number of seconds that a double holds
    exactly.  The program computes on doubles; the text it gives for
    other numbers is not modelled ([None]). *)
Definition formatDuration (seconds : Z) : option string :=
  if safe_integer seconds then
    if Z.ltb seconds 60 then Some (App.string_of_Z seconds ++ "s")%string
    else if Z.ltb seconds 3600
    then Some (App.string_of_Z (Js.Math_floor_div seconds 60) ++ "m")%string
    else Some (App.string_of_Z (Js.Math_floor_div seconds 3600) ++ "h "
               ++ App.string_of_Z (Js.Math_floor_div (Z.rem seconds 3600) 60) ++ "m")%string
  else None.

End RiskHistory.

(** ** The camera of [CameraFeed]: request, preview, release *)

Module Camera.

Definition setCameraError (m : option string) (c : CameraFeed.Component)
  : CameraFeed.Component :=
  {| CameraFeed.zoomLevel := CameraFeed.zoomLevel c; CameraFeed.cameraError := m;
     CameraFeed.refs := CameraFeed.refs c; CameraFeed.streamRef := CameraFeed.streamRef c |}.
Definition set_streamRef (s : option MediaStream) (c : CameraFeed.Component)
  : CameraFeed.Component :=
  {| CameraFeed.zoomLevel := CameraFeed.zoomLevel c;
     CameraFeed.cameraError := CameraFeed.cameraError c;
     CameraFeed.refs := CameraFeed.refs c; CameraFeed.streamRef := s |}.

(** [useState] and [useRef] initial values; [video] is the element React
    attaches to [videoRef] when it renders the preview. *)
Definition initial (video : option HTMLVideoElement) : CameraFeed.Component :=
  {| CameraFeed.zoomLevel := 1; CameraFeed.cameraError := None;
     CameraFeed.refs := {| videoRef := video; canvasRef := None |};
     CameraFeed.streamRef := None |}.

Definition toggleZoom (c : CameraFeed.Component) : CameraFeed.Component :=
  CameraFeed.set_zoomLevel (if Z.eqb (CameraFeed.zoomLevel c) 1 then 2 else 1) c.
Definition resetToOriginal (c : CameraFeed.Component) : CameraFeed.Component :=
  CameraFeed.set_zoomLevel 1 c.

(** The call of [getUserMedia] of the one effect run. *)
Inductive Request := NotAsked | Pending | Settled.

(** The component in its page: whether it is mounted, its request for
    the camera, the streams whose tracks have been stopped, and the
    console. *)
Record World := {
  mounted : bool;
  component : CameraFeed.Component;
  request : Request;
  stopped : list MediaStream;
  console : list string;
}.

Definition on_component (f : CameraFeed.Component -> CameraFeed.Component) (w : World) : World :=
  {| mounted := mounted w; component := f (component w); request := request w;
     stopped := stopped w; console := console w |}.
Definition set_mounted (m : bool) (w : World) : World :=
  {| mounted := m; component := component w; request := request w;
     stopped := stopped w; console := console w |}.
Definition set_request (r : Request) (w : World) : World :=
  {| mounted := mounted w; component := component w; request := r;
     stopped := stopped w; console := console w |}.
Definition stop_tracks (s : MediaStream) (w : World) : World :=
  {| mounted := mounted w; component := component w; request := request w;
     stopped := s :: stopped w; console := console w |}.
Definition console_error (m : string) (w : World) : World :=
  {| mounted := mounted w; component := component w; request := request w;
     stopped := stopped w; console := console w ++ [m] |}.

Arguments on_component f !w /.
Arguments set_mounted m !w /.
Arguments set_request r !w /.
Arguments stop_tracks s !w /.
Arguments console_error m !w /.

Definition blank : World :=
  {| mounted := false; component := initial None; request := NotAsked;
     stopped := []; console := [] |}.

Definition access_message : string :=
  "Unable to access camera. Please grant camera permissions.".

(** A state update and the render after it: an unmounted component is
    not updated; the preview element is rendered, and attached to
    [videoRef], only while [cameraError] is falsy. *)
Definition setState_cameraError (m : option string) (w : World) : World :=
  if mounted w then
    on_component
      (fun c =>
         let c := setCameraError m c in
         match m with
         | Some text =>
             if Js.truthy_string text
             then CameraFeed.set_refs (set_videoRef None (CameraFeed.refs c)) c
             else c
         | None => c
         end) w
  else w.

(** [startCamera] after [getUserMedia] has resolved with [stream]. *)
Definition granted (stream : MediaStream) (w : World) : World :=
  (* if (videoRef.current) { videoRef.current.srcObject = stream;
                             streamRef.current = stream; } *)
  let w := match videoRef (CameraFeed.refs (component w)) with
           | Some video =>
               on_component
                 (fun c =>
                    set_streamRef (Some stream)
                      (CameraFeed.set_refs
                         (set_videoRef (Some (set_srcObject (Some stream) video))
                            (CameraFeed.refs c)) c)) w
           | None => w
           end in
  (* setCameraError(null); *)
  setState_cameraError None w.

(** The [catch] block of [startCamera]. *)
Definition denied (w : World) : World :=
  let w := console_error "Error accessing camera:" w in
  setState_cameraError (Some access_message) w.

(** The cleanup of the effect. *)
Definition cleanup (w : World) : World :=
  (* if (streamRef.current) streamRef.current.getTracks().forEach(track => track.stop()); *)
  match CameraFeed.streamRef (component w) with
  | Some stream => stop_tracks stream w
  | None => w
  end.

Inductive Event :=
| Mount (video : HTMLVideoElement)
| Granted (stream : MediaStream)
| Denied
| Unmount
| ClickZoom
| ClickReset.

(** One event in the life of one instance.  The effect has no
    dependencies: it runs once, at the mount, and its cleanup at the
    unmount, where React also detaches the preview from [videoRef]. *)
Definition step (w : World) (ev : Event) : World :=
  match ev with
  | Mount video =>
      match request w with
      | NotAsked =>
          set_request Pending (set_mounted true (on_component (fun _ => initial (Some video)) w))
      | _ => w
      end
  | Granted stream =>
      match request w with
      | Pending => granted stream (set_request Settled w)
      | _ => w
      end
  | Denied =>
      match request w with
      | Pending => denied (set_request Settled w)
      | _ => w
      end
  | Unmount =>
      if mounted w then
        let w := cleanup w in
        set_mounted false
          (on_component (fun c => CameraFeed.set_refs (set_videoRef None (CameraFeed.refs c)) c) w)
      else w
  | ClickZoom => if mounted w then on_component toggleZoom w else w
  | ClickReset => if mounted w then on_component resetToOriginal w else w
  end.

Definition run (w : World) (evs : list Event) : World := fold_left step evs w.

End Camera.

(** ** Vocabulary of the further properties *)

(** Whether an invocation of [startStream] suspended at this point has
    passed its [fetch] call. *)
Definition posted_stage (a : LiveStream.Await) : bool :=
  match a with
  | LiveStream.AwaitCreateOffer | LiveStream.AwaitSetLocalDescription _ => false
  | _ => true
  end.

Definition posted (task : LiveStream.Task) : bool := posted_stage (LiveStream.task_at task).

(** A request as [startStream] sends them: a POST whose only header is the
    SDP content type, to the URL of one of the negotiations [ts]. *)
Definition is_whep_post (ts : list LiveStream.Task) (r : LiveStream.Request) : Prop :=
  LiveStream.req_method r = "POST"
  /\ LiveStream.req_headers r = [("Content-Type", "application/sdp")]
  /\ exists t task, ts !! t = Some task /\ LiveStream.task_url task = LiveStream.req_url r.

(** The only effect run whose [isMounted] is still true is the current
    one, and there is none on a page whose component is not mounted. *)
Definition one_mounted_effect (w : LiveStream.World) : Prop :=
  (forall e eff, LiveStream.effects w !! e = Some eff -> LiveStream.isMounted eff = true ->
                 LiveStream.current_effect w = Some e)
  /\ (LiveStream.mounted w = false -> LiveStream.current_effect w = None).


(** Every request sent so far is such a POST, and there are no more
    requests than negotiations that have passed their [fetch] call. *)
Definition whep_requests (w : LiveStream.World) : Prop :=
  Forall (is_whep_post (LiveStream.tasks w)) (LiveStream.requests w)
  /\ length (LiveStream.requests w) <= length (List.filter posted (LiveStream.tasks w)).

(** The toasts of [handleCapture] and of a failed recorder construction. *)
Definition capture_failed_toast : App.Toast :=
  {| App.level := App.toast_error; App.title := "Capture failed";
     App.description := "Stream not ready for capture" |}.

Definition recording_failed_toast : App.Toast :=
  {| App.level := App.toast_error; App.title := "Recording failed";
     App.description := "Unable to start video recording (Browser permission issue?)" |}.

(** The capture [handleCapture] makes in state [s] of the data URL [url]. *)
Definition new_capture (s : App.State) (url : string) : App.CapturedImage :=
  {| App.ci_id := ("capture-" ++ App.string_of_Z (App.now s))%string;
     App.ci_timestamp := App.now s;
     App.imageUrl := url;
     App.ci_risks := App.detectedRisks s |}.

Definition captured_toast (s : App.State) : App.Toast :=
  {| App.level := App.toast_success; App.title := "Screenshot captured";
     App.description :=
       ("Image saved with " ++ App.string_of_nat (length (App.detectedRisks s))
        ++ " detected risks")%string |}.


(** A browser whose [MediaRecorder] supports no container type. *)
Definition recorderless_browser : Browser :=
  {| platform_context2d := true;
     toDataURL := toDataURL full_browser;
     createSessionDescription := createSessionDescription full_browser;
     isTypeSupported := fun _ => false |}.

(** The live stream behind [liveStreamRef] has no frame to capture: it is
    not mounted, or it has no video element, or the video has decoded
    nothing yet. *)
Definition no_frame (s : App.State) : Prop :=
  match App.liveStreamRef s with
  | None => True
  | Some child =>
      match videoRef (LiveStream.refs child) with
      | None => True
      | Some v => videoWidth v = 0%N
      end
  end.

(** *** The risk feed *)

(** The contract of [Math.random]: every number is in [0, 1). *)
Definition unit_interval (e : Dashboard.Env) : Prop :=
  forall n, (0 <= Dashboard.random e n)%Q /\ (Dashboard.random e n < 1)%Q.

(** A risk as [generateMockRisks] means to make them. *)
Definition plausible (r : Dashboard.Risk) : Prop :=
  (60 <= Dashboard.risk_confidence r <= 99)%Z
  /\ In (Dashboard.type r) Dashboard.riskTypes
  /\ In (Dashboard.description r) Dashboard.descriptions.

(** The overlay [d] is the overlay of the risk [r]. *)
Definition overlay_of (r : Dashboard.Risk) (d : RiskDetection) : Prop :=
  risk_id d = Dashboard.id r /\ risk_type d = Dashboard.type r
  /\ confidence d = inject_Z (Dashboard.risk_confidence r).

(** The box of a detection lies inside the frame, in percent. *)
Definition in_frame (d : RiskDetection) : Prop :=
  (10 <= x d /\ 10 <= width d /\ x d + width d <= 95
   /\ 10 <= y d /\ 10 <= height d /\ y d + height d <= 95)%Q.

(** The rank of a severity, and the alert level of a rank. *)
Definition severity_rank (s : Dashboard.Severity) : nat :=
  match s with
  | Dashboard.low => 0
  | Dashboard.medium => 1
  | Dashboard.high => 2
  | Dashboard.critical => 3
  end.

Definition level_of_rank (n : nat) : string :=
  match n with
  | 0 => "normal"
  | 1 => "elevated"
  | 2 => "high"
  | _ => "critical"
  end.

Definition worst_rank (risks : list Dashboard.Risk) : nat :=
  fold_right Nat.max 0 (map (fun r => severity_rank (Dashboard.severity r)) risks).

(** The toast of the effect on [currentRisks], for the risk [r]. *)
Definition risk_toast (r : Dashboard.Risk) : Dashboard.Toast :=
  {| Dashboard.title :=
       (Dashboard.toUpperCase (Dashboard.severity_name (Dashboard.severity r))
        ++ " RISK: " ++ Dashboard.type r)%string;
     Dashboard.toast_description := Dashboard.description r;
     Dashboard.duration := 5000 |}.

(** A world whose random numbers are all one half and whose clock stands
    at [t]. *)
Definition even_world (t : Z) : Dashboard.Env :=
  {| Dashboard.random := fun _ => 1 # 2; Dashboard.random_calls := 0;
     Dashboard.clock := fun _ => t; Dashboard.clock_calls := 0 |}.

(** *** The risk history *)

(** The colour classes of the four alert levels, by rank. *)
Definition color_of_rank (n : nat) : string :=
  match n with
  | 0 => "text-green-400 bg-green-900/20"
  | 1 => "text-yellow-400 bg-yellow-900/20"
  | 2 => "text-orange-400 bg-orange-900/20"
  | _ => "text-red-400 bg-red-900/20"
  end.

(** The history with its time filter set to [v]. *)
Definition window (toLowerCase : string -> string) (v : string) (c : RiskHistory.Component)
    (clock : nat -> Z) (risks : list RiskHistory.HistoricalRisk)
  : list RiskHistory.HistoricalRisk :=
  RiskHistory.filteredRisks toLowerCase (RiskHistory.setTimeFilter v c) clock risks.

(** A critical incident of 90 seconds, one hour and a half before the
    instant 10000000. *)
Definition sample_incident : RiskHistory.HistoricalRisk :=
  {| RiskHistory.id := "hist-0"; RiskHistory.type := "Fire Hazard";
     RiskHistory.severity := Dashboard.critical; RiskHistory.confidence := 91;
     RiskHistory.description := "Historical risk event #1";
     RiskHistory.timestamp := 4600000; RiskHistory.duration := 90;
     RiskHistory.status := RiskHistory.resolved; RiskHistory.location := "Kitchen" |}.

(** *** The camera *)

(** What holds of the camera component at every moment of its life: no
    stream and no error before the request is settled; after it, an
    error excludes a stream and the preview; a stream held while mounted
    is the one previewed, and once unmounted it has been stopped. *)
Definition camera_consistent (w : Camera.World) : Prop :=
  let c := Camera.component w in
  (Camera.mounted w = false -> videoRef (CameraFeed.refs c) = None)
  /\ match Camera.request w with
     | Camera.NotAsked =>
         Camera.mounted w = false /\ CameraFeed.streamRef c = None
         /\ CameraFeed.cameraError c = None /\ Camera.stopped w = []
     | Camera.Pending =>
         CameraFeed.streamRef c = None /\ CameraFeed.cameraError c = None
         /\ Camera.stopped w = []
     | Camera.Settled =>
         match CameraFeed.streamRef c with
         | Some s =>
             CameraFeed.cameraError c = None
             /\ (if Camera.mounted w
                 then Camera.stopped w = []
                      /\ exists v, videoRef (CameraFeed.refs c) = Some v
                                   /\ srcObject v = Some s
                 else Camera.stopped w = [s])
         | None =>
             Camera.stopped w = []
             /\ (CameraFeed.cameraError c = None
                 \/ (CameraFeed.cameraError c = Some Camera.access_message
                     /\ videoRef (CameraFeed.refs c) = None))
         end
     end.

(** *** The status layer of the live stream *)

(** The message agrees with the status: none while connecting, the fixed
    text in the error status. *)
Definition message_matches (c : LiveStream.Component) : Prop :=
  match LiveStream.connectionStatus c with
  | LiveStream.connecting => LiveStream.errorMessage c = None
  | LiveStream.error => LiveStream.errorMessage c = Some LiveStream.failure_message
  | LiveStream.connected => True
  end.

(** The status layer by the status alone. *)
Definition status_layer (st : LiveStream.ConnectionStatus) : list LiveStream.Node :=
  match st with
  | LiveStream.connected => []
  | LiveStream.connecting =>
      [LiveStream.Spinner; LiveStream.Paragraph "Connecting to SafeSight Node..."]
  | LiveStream.error =>
      [LiveStream.OfflineIcon; LiveStream.Paragraph LiveStream.failure_message;
       LiveStream.Button "Retry Connection" LiveStream.Reload false]
  end.

(** * Properties *)

(** ** Frame capture *)

Section CaptureFacts.

Variable B : Browser.

Lemma captureFrame_no_element (r : CaptureRefs) :
  videoRef r = None -> captureFrame B r = (Js.Normal None, r).
Proof.
  intros Hv. unfold captureFrame, Js.bind, Js.gets. rewrite Hv. reflexivity.
Qed.

Lemma captureFrame_no_frame (r : CaptureRefs) (v : HTMLVideoElement) :
  videoRef r = Some v -> videoWidth v = 0%N -> captureFrame B r = (Js.Normal None, r).
Proof.
  intros Hv Hw. unfold captureFrame, Js.bind, Js.gets. rewrite Hv. cbn.
  unfold Js.truthy_N. rewrite Hw. reflexivity.
Qed.

Lemma captureFrame_no_context (r : CaptureRefs) (v : HTMLVideoElement) :
  videoRef r = Some v -> videoWidth v <> 0%N ->
  context2d (capture_canvas B r) = false ->
  fst (captureFrame B r) = Js.Normal None.
Proof.
  intros Hv Hw Hc. destruct r as [vr cr]. cbn in Hv, Hc. subst vr.
  apply N.eqb_neq in Hw.
  unfold captureFrame, Js.bind, Js.gets, Js.truthy_N. cbn. rewrite Hw. cbn.
  destruct cr as [[cw ch c2 bm]|]; cbn in *; rewrite ?Hc; cbn;
    unfold captured, drawImage; cbn; rewrite ?Hc; reflexivity.
Qed.

Lemma captureFrame_frame (r : CaptureRefs) (v : HTMLVideoElement) :
  videoRef r = Some v -> videoWidth v <> 0%N ->
  context2d (capture_canvas B r) = true ->
  captureFrame B r =
    (Js.Normal (Some (toDataURL B (captured v) "image/jpeg" (95 # 100))),
     set_canvasRef (Some (captured v)) r).
Proof.
  intros Hv Hw Hc. destruct r as [vr cr]. cbn in Hv, Hc. subst vr.
  apply N.eqb_neq in Hw.
  unfold captureFrame, Js.bind, Js.gets, Js.truthy_N. cbn. rewrite Hw. cbn.
  destruct cr as [[cw ch c2 bm]|]; cbn in *; rewrite ?Hc; cbn;
    unfold captured, drawImage; cbn; rewrite ?Hc; reflexivity.
Qed.

(** Whatever the refs hold, [captureFrame] completes normally. *)
Lemma captureFrame_total (r : CaptureRefs) :
  exists res r', captureFrame B r = (Js.Normal res, r').
Proof.
  destruct (videoRef r) as [v|] eqn:Hv.
  - destruct (N.eq_dec (videoWidth v) 0%N) as [Hw|Hw].
    + eauto using captureFrame_no_frame.
    + destruct (context2d (capture_canvas B r)) eqn:Hc.
      * eauto using captureFrame_frame.
      * pose proof (captureFrame_no_context r v Hv Hw Hc) as H.
        destruct (captureFrame B r) as [res r']. cbn in H. subst res. eauto.
  - eauto using captureFrame_no_element.
Qed.

End CaptureFacts.

Lemma LiveStream_captureFrame_fst (B : Browser) (c : LiveStream.Component) :
  fst (LiveStream.captureFrame B c) = fst (captureFrame B (LiveStream.refs c)).
Proof.
  unfold LiveStream.captureFrame. destruct (captureFrame B (LiveStream.refs c)). reflexivity.
Qed.

Lemma CameraFeed_captureFrame_fst (B : Browser) (c : CameraFeed.Component) :
  fst (CameraFeed.captureFrame B c) = fst (captureFrame B (CameraFeed.refs c)).
Proof.
  unfold CameraFeed.captureFrame. destruct (captureFrame B (CameraFeed.refs c)). reflexivity.
Qed.

Lemma captureFrame_returns_frame (B : Browser) (r : CaptureRefs) (v : HTMLVideoElement) :
  (forall canvas type quality, toDataURL B canvas type quality <> "") ->
  videoRef r = Some v -> videoWidth v <> 0%N ->
  context2d (capture_canvas B r) = true ->
  returns_frame_of B v (fst (captureFrame B r)).
Proof.
  intros Hne Hv Hw Hc. rewrite (captureFrame_frame B r v Hv Hw Hc). cbn.
  eexists. split; [reflexivity|]. split; [apply Hne | reflexivity].
Qed.

(** C4, as stated, fails: a video with a decoded frame in a browser that
    gives no 2D context makes [captureFrame] return [null], not an image. *)
Lemma captureFrame_frame_but_null :
  ~ (forall (B : Browser) (c : LiveStream.Component) (v : HTMLVideoElement),
       videoRef (LiveStream.refs c) = Some v -> videoWidth v <> 0%N ->
       exists url, fst (LiveStream.captureFrame B c) = Js.Normal (Some url) /\ url <> "").
Proof.
  intros H.
  destruct (H contextless_browser sample_stream sample_video) as (url & Hurl & _).
  - reflexivity.
  - discriminate.
  - vm_compute in Hurl. discriminate.
Qed.

(** C4 (amended): [captureFrame], of [LiveStream] and of [CameraFeed],
    returns [null] when the video has no decoded frame (intrinsic width
    zero); when it has one and the 2D context of the capture canvas can
    be obtained, it returns a non-empty still encoded as JPEG at quality
    0.95 from a canvas whose size is the video's intrinsic
    [videoWidth] by [videoHeight], whatever the zoom level. *)
Theorem captureFrame_contract (B : Browser)
    (c : LiveStream.Component) (f : CameraFeed.Component) (v : HTMLVideoElement) :
  (forall canvas type quality, toDataURL B canvas type quality <> "") ->
  (videoRef (LiveStream.refs c) = Some v ->
     (videoWidth v = 0%N -> fst (LiveStream.captureFrame B c) = Js.Normal None) /\
     (videoWidth v <> 0%N -> context2d (capture_canvas B (LiveStream.refs c)) = true ->
      forall zoom : Z,
        returns_frame_of B v (fst (LiveStream.captureFrame B (LiveStream.set_zoomLevel zoom c)))))
  /\
  (videoRef (CameraFeed.refs f) = Some v ->
     (videoWidth v = 0%N -> fst (CameraFeed.captureFrame B f) = Js.Normal None) /\
     (videoWidth v <> 0%N -> context2d (capture_canvas B (CameraFeed.refs f)) = true ->
      forall zoom : Z,
        returns_frame_of B v (fst (CameraFeed.captureFrame B (CameraFeed.set_zoomLevel zoom f)))))
  /\ canvas_width (captured v) = videoWidth v
  /\ canvas_height (captured v) = videoHeight v
  /\ bitmap (captured v)
     = Some {| drawn_frame := currentFrame v; dx := 0; dy := 0;
               dw := videoWidth v; dh := videoHeight v |}.
Proof.
  intros Hne. repeat split.
  - intros Hw. rewrite LiveStream_captureFrame_fst.
    now rewrite (captureFrame_no_frame B _ v H Hw).
  - intros Hw Hc zoom. rewrite LiveStream_captureFrame_fst. cbn.
    now apply captureFrame_returns_frame.
  - intros Hw. rewrite CameraFeed_captureFrame_fst.
    now rewrite (captureFrame_no_frame B _ v H Hw).
  - intros Hw Hc zoom. rewrite CameraFeed_captureFrame_fst. cbn.
    now apply captureFrame_returns_frame.
Qed.

(** The contract at a 640 by 480 video, zoomed in, in [full_browser]. *)
Lemma captureFrame_contract_witness :
  returns_frame_of full_browser sample_video
    (fst (LiveStream.captureFrame full_browser (LiveStream.set_zoomLevel 2 sample_stream)))
  /\ returns_frame_of full_browser sample_video
    (fst (CameraFeed.captureFrame full_browser (CameraFeed.set_zoomLevel 2 sample_feed))).
Proof.
  destruct (captureFrame_contract full_browser sample_stream sample_feed sample_video)
    as (HL & HC & _).
  - intros canvas type quality. discriminate.
  - split.
    + apply HL; [reflexivity | discriminate | reflexivity].
    + apply HC; [reflexivity | discriminate | reflexivity].
Defined.

(** The guards matter: a canvas update behind an empty [canvasRef]
    throws, which [captureFrame] avoids by creating the canvas first. *)
Example update_canvas_null_throws :
  fst (update_canvas (set_canvas_width 640) {| videoRef := Some sample_video; canvasRef := None |})
  = Js.Throw Js.TypeError.
Proof. reflexivity. Qed.

(** C10: [captureFrame], of [LiveStream] and of [CameraFeed], completes
    normally in every state of the component, with an image text or
    [null], and never throws; it returns [null] when the 2D context of
    the capture canvas cannot be obtained. *)
Theorem captureFrame_never_throws (B : Browser)
    (c : LiveStream.Component) (f : CameraFeed.Component) :
  (exists res c', LiveStream.captureFrame B c = (Js.Normal res, c'))
  /\ (exists res f', CameraFeed.captureFrame B f = (Js.Normal res, f'))
  /\ (context2d (capture_canvas B (LiveStream.refs c)) = false ->
      fst (LiveStream.captureFrame B c) = Js.Normal None)
  /\ (context2d (capture_canvas B (CameraFeed.refs f)) = false ->
      fst (CameraFeed.captureFrame B f) = Js.Normal None).
Proof.
  assert (Hnull : forall r, context2d (capture_canvas B r) = false ->
                            fst (captureFrame B r) = Js.Normal None).
  { intros r Hc. destruct (videoRef r) as [v|] eqn:Hv.
    - destruct (N.eq_dec (videoWidth v) 0%N) as [Hw|Hw].
      + now rewrite (captureFrame_no_frame B r v Hv Hw).
      + now apply captureFrame_no_context with v.
    - now rewrite (captureFrame_no_element B r Hv). }
  repeat split.
  - destruct (captureFrame_total B (LiveStream.refs c)) as (res & r' & H).
    unfold LiveStream.captureFrame. rewrite H. eauto.
  - destruct (captureFrame_total B (CameraFeed.refs f)) as (res & r' & H).
    unfold CameraFeed.captureFrame. rewrite H. eauto.
  - intros Hc. rewrite LiveStream_captureFrame_fst. auto.
  - intros Hc. rewrite CameraFeed_captureFrame_fst. auto.
Qed.

(** The [null] case without a 2D context, in [contextless_browser]. *)
Lemma captureFrame_never_throws_witness :
  fst (LiveStream.captureFrame contextless_browser sample_stream) = Js.Normal None
  /\ fst (CameraFeed.captureFrame contextless_browser sample_feed) = Js.Normal None.
Proof.
  destruct (captureFrame_never_throws contextless_browser sample_stream sample_feed)
    as (_ & _ & HL & HC).
  split; [apply HL | apply HC]; reflexivity.
Defined.

(** ** Detection overlays *)






(** The overlays of the live stream do not depend on its zoom level. *)
Lemma LiveStream_overlays_zoom (z : Z) (c : LiveStream.Component) (risks : list RiskDetection) :
  LiveStream.render_overlays (LiveStream.set_zoomLevel z c) risks
  = LiveStream.render_overlays c risks.
Proof. reflexivity. Qed.




(** ** Negotiation *)

Lemma lookup_snoc {A} (l : list A) (a : A) : (l ++ [a]) !! length l = Some a.
Proof. rewrite lookup_app_r by lia. now rewrite Nat.sub_diag. Qed.

Lemma alter_snoc {A} (f : A -> A) (l : list A) (a : A) :
  alter f (length l) (l ++ [a]) = l ++ [f a].
Proof. rewrite alter_app_r_alt by lia. now rewrite Nat.sub_diag. Qed.

Lemma length_close_current (w : LiveStream.World) :
  length (close_current w) = length (LiveStream.peers w).
Proof.
  unfold close_current. destruct (LiveStream.pcRef _); [apply length_alter | reflexivity].
Qed.

Module LiveStreamFacts.
Import LiveStream.

(** Evaluate the updates of a world given by its fields. *)
Ltac world_eval := cbn -[alter lookup app length].

(** [startStream] up to its first [await], for a non-empty URL. *)
Lemma startStream_spec (e : nat) (w : World) :
  Js.truthy_string (streamUrl (component w)) = true ->
  startStream e w =
    {| mounted := mounted w; instance := instance w;
       component := set_pcRef (Some (length (peers w)))
                      (setErrorMessage None (setConnectionStatus connecting (component w)));
       current_effect := current_effect w;
       peers := close_current w ++ [fresh_pc e];
       effects := effects w;
       tasks := tasks w ++ [{| task_effect := e; task_url := streamUrl (component w);
                               task_pc := length (peers w); task_at := AwaitCreateOffer |}];
       requests := requests w; console := console w |}.
Proof.
  intros Hurl. destruct w as [m i [url z st msg rf pcr sr] ce ps es ts rs cs].
  cbn in Hurl. unfold startStream. cbn [component streamUrl]. rewrite Hurl.
  destruct pcr as [old|]; world_eval; rewrite !alter_snoc, ?length_alter; reflexivity.
Qed.

Lemma startStream_empty (e : nat) (w : World) :
  Js.truthy_string (streamUrl (component w)) = false -> startStream e w = w.
Proof. intros Hurl. unfold startStream. now rewrite Hurl. Qed.

(** The effect callback, for a non-empty URL. *)
Lemma run_effect_spec (w : World) :
  Js.truthy_string (streamUrl (component w)) = true ->
  run_effect w =
    {| mounted := mounted w; instance := instance w;
       component := set_pcRef (Some (length (peers w)))
                      (setErrorMessage None (setConnectionStatus connecting (component w)));
       current_effect := Some (length (effects w));
       peers := close_current w ++ [fresh_pc (length (effects w))];
       effects := effects w ++ [{| eff_instance := instance w; isMounted := true |}];
       tasks := tasks w ++ [{| task_effect := length (effects w);
                               task_url := streamUrl (component w);
                               task_pc := length (peers w); task_at := AwaitCreateOffer |}];
       requests := requests w; console := console w |}.
Proof.
  intros Hurl. unfold run_effect. rewrite startStream_spec by exact Hurl.
  destruct w as [m i c ce ps es ts rs cs]. reflexivity.
Qed.

Section Resume.

Variable B : Browser.
Variables (w : World) (t : nat) (task : Task).
Hypothesis Htask : tasks w !! t = Some task.

Lemma resume_rejected (err : Js.Error) :
  task_at task <> Finished ->
  resume B t (Rejected err) w = catch t task err w.
Proof.
  intros Ha. unfold resume. rewrite Htask.
  destruct (task_at task); try reflexivity. contradiction.
Qed.

Lemma resume_offer (offer : RTCSessionDescription) :
  task_at task = AwaitCreateOffer ->
  resume B t (OfferCreated offer) w
  = on_tasks (alter (set_task_at (AwaitSetLocalDescription offer)) t) w.
Proof. intros Ha. unfold resume. rewrite Htask, Ha. reflexivity. Qed.

Lemma resume_local (offer : RTCSessionDescription) :
  task_at task = AwaitSetLocalDescription offer ->
  resume B t Fulfilled w
  = on_tasks (alter (set_task_at AwaitFetch) t)
      (on_requests (fun rs => rs ++ [whep_post (task_url task) offer])
         (on_peer (task_pc task) (setLocalDescription offer) w)).
Proof. intros Ha. unfold resume. rewrite Htask, Ha. reflexivity. Qed.

Lemma resume_response_ok (response : Response) :
  task_at task = AwaitFetch -> ok response = true ->
  resume B t (Responded response) w
  = on_tasks (alter (set_task_at (AwaitText response)) t) w.
Proof. intros Ha Hok. unfold resume. rewrite Htask, Ha, Hok. reflexivity. Qed.

Lemma resume_response_not_ok (response : Response) :
  task_at task = AwaitFetch -> ok response = false ->
  resume B t (Responded response) w
  = catch t task (Js.ThrownError ("Connection failed: " ++ statusText response)%string) w.
Proof. intros Ha Hok. unfold resume. rewrite Htask, Ha, Hok. reflexivity. Qed.

Lemma resume_text (response : Response) (answer : RTCSessionDescription) :
  task_at task = AwaitText response ->
  createSessionDescription B "answer" (body response) = Some answer ->
  resume B t Fulfilled w
  = on_tasks (alter (set_task_at (AwaitSetRemoteDescription answer)) t)
      (on_peers (fun ps => ps ++ [new_RTCPeerConnection None]) w).
Proof. intros Ha Hsd. unfold resume. rewrite Htask, Ha, Hsd. reflexivity. Qed.

Lemma resume_text_throws (response : Response) :
  task_at task = AwaitText response ->
  createSessionDescription B "answer" (body response) = None ->
  resume B t Fulfilled w
  = catch t task Js.TypeError (on_peers (fun ps => ps ++ [new_RTCPeerConnection None]) w).
Proof. intros Ha Hsd. unfold resume. rewrite Htask, Ha, Hsd. reflexivity. Qed.

Lemma resume_remote (answer : RTCSessionDescription) :
  task_at task = AwaitSetRemoteDescription answer ->
  resume B t Fulfilled w
  = on_tasks (alter (set_task_at Finished) t)
      (on_peer (task_pc task) (setRemoteDescription answer) w).
Proof. intros Ha. unfold resume. rewrite Htask, Ha. reflexivity. Qed.

Lemma resume_finished (r : Reply) :
  task_at task = Finished -> resume B t r w = w.
Proof. intros Ha. unfold resume. rewrite Htask, Ha. reflexivity. Qed.

End Resume.

(** Rewrite, with the lemma [lem], the resumption whose world is given
    by its fields. *)
Ltac resume_with lem :=
  match goal with
  | |- context [resume ?B ?t ?r (Build_World ?a1 ?a2 ?a3 ?a4 ?a5 ?a6 ?a7 ?a8 ?a9)] =>
      erewrite (lem B (Build_World a1 a2 a3 a4 a5 a6 a7 a8 a9) t);
      [ | cbn [tasks]; first [ apply lookup_snoc | eassumption ]
        | first [ reflexivity | eassumption ] .. ];
      world_eval; rewrite ?alter_snoc
  end.

End LiveStreamFacts.

(** C2 at a failing input: a negotiation whose steps all succeed, in a
    browser whose peer connections have no [createSessionDescription],
    as in every standard browser.  The component adds one receive-only
    video transceiver to its new peer connection, sets the offer as
    local description and sends one POST whose body is the offer's SDP
    text and whose only header is Content-Type: application/sdp.  When
    the success response has been read, making the answer description
    throws: the remote description of the peer connection is never set,
    the component goes to the error state, and the negotiation is over,
    whatever is delivered to it afterwards. *)
Theorem answer_never_applied (B : Browser) (w : LiveStream.World)
    (offer : RTCSessionDescription) (response : LiveStream.Response) :
  Js.truthy_string (LiveStream.streamUrl (LiveStream.component w)) = true ->
  LiveStream.ok response = true ->
  createSessionDescription B "answer" (LiveStream.body response) = None ->
  let t := length (LiveStream.tasks w) in
  let pc := length (LiveStream.peers w) in
  let posted :=
    LiveStream.run B (LiveStream.run_effect w)
      [LiveStream.Resume t (LiveStream.OfferCreated offer);
       LiveStream.Resume t LiveStream.Fulfilled] in
  let read :=
    LiveStream.run B posted
      [LiveStream.Resume t (LiveStream.Responded response);
       LiveStream.Resume t LiveStream.Fulfilled] in
  LiveStream.requests posted
  = LiveStream.requests w
    ++ [{| LiveStream.req_url := LiveStream.streamUrl (LiveStream.component w);
           LiveStream.req_method := "POST";
           LiveStream.req_body := sdp offer;
           LiveStream.req_headers := [("Content-Type", "application/sdp")] |}]
  /\ (exists p, LiveStream.peers posted !! pc = Some p
                /\ LiveStream.transceivers p = [("video", LiveStream.recvonly)]
                /\ LiveStream.localDescription p = Some offer
                /\ LiveStream.remoteDescription p = None)
  /\ LiveStream.requests read = LiveStream.requests posted
  /\ (exists p, LiveStream.peers read !! pc = Some p
                /\ LiveStream.closed p = false
                /\ LiveStream.localDescription p = Some offer
                /\ LiveStream.remoteDescription p = None)
  /\ LiveStream.pcRef (LiveStream.component read) = Some pc
  /\ LiveStream.connectionStatus (LiveStream.component read) = LiveStream.error
  /\ LiveStream.errorMessage (LiveStream.component read) = Some LiveStream.failure_message
  /\ (forall r, LiveStream.step B read (LiveStream.Resume t r) = read).
Proof.
  intros Hurl Hok Hsd t pc posted read. subst t pc posted read.
  unfold LiveStream.run. cbn [fold_left LiveStream.step].
  rewrite LiveStreamFacts.run_effect_spec by exact Hurl.
  destruct w as [m i [url z st msg rf pcr sr] ce ps es ts rs cs].
  cbn -[alter lookup app length] in *.
  match goal with
  | |- context [close_current ?W] =>
      pose proof (length_close_current W) as Hlen; cbn in Hlen;
      generalize dependent (close_current W); intros ps' Hlen; rewrite <- Hlen
  end.
  LiveStreamFacts.resume_with LiveStreamFacts.resume_offer.
  LiveStreamFacts.resume_with LiveStreamFacts.resume_local.
  split; [reflexivity|].
  split; [eexists; split; [apply lookup_snoc | repeat split] |].
  LiveStreamFacts.resume_with LiveStreamFacts.resume_response_ok.
  LiveStreamFacts.resume_with LiveStreamFacts.resume_text_throws.
  unfold LiveStream.catch, LiveStream.effect_isMounted.
  cbn -[alter lookup app length LiveStream.failure_message].
  rewrite lookup_snoc. cbn -[alter lookup app length LiveStream.failure_message].
  rewrite ?alter_snoc.
  split; [reflexivity|]. split.
  { eexists. split.
    - rewrite lookup_app_l, lookup_snoc; [reflexivity|].
      rewrite length_app. cbn. lia.
    - repeat split. }
  split; [reflexivity|]. split; [reflexivity|]. split; [reflexivity|].
  intros r. unfold LiveStream.resume. cbn -[alter lookup app length].
  rewrite lookup_snoc. reflexivity.
Qed.

(** The negotiation started by mounting the component, in a browser
    without [createSessionDescription]. *)
Lemma answer_never_applied_witness :
  LiveStream.connectionStatus
    (LiveStream.component
       (LiveStream.run standard_browser
          (LiveStream.run standard_browser (LiveStream.run_effect mounting)
             [LiveStream.Resume 0 (LiveStream.OfferCreated sample_offer);
              LiveStream.Resume 0 LiveStream.Fulfilled])
          [LiveStream.Resume 0 (LiveStream.Responded created);
           LiveStream.Resume 0 LiveStream.Fulfilled]))
  = LiveStream.error.
Proof.
  apply (answer_never_applied standard_browser mounting sample_offer created);
    reflexivity.
Defined.

(** Where peer connections have no [createSessionDescription], the call
    throws once the body of a success response is read, and the component
    ends in the error state without a remote description. *)
Example negotiation_in_standard_browser :
  let w := LiveStream.run standard_browser LiveStream.blank answer_read in
  LiveStream.connectionStatus (LiveStream.component w) = LiveStream.error
  /\ LiveStream.remoteDescription <$> LiveStream.peers w !! 0%nat = Some None.
Proof. vm_compute. split; reflexivity. Qed.

(** C5, as stated, fails: when the endpoint URL changes while the POST is
    in flight, the non-success response of the abandoned negotiation does
    not move the component to the error state, and no retry is offered. *)
Lemma abandoned_failure_not_reported :
  let w := LiveStream.run full_browser LiveStream.blank
             (offer_sent ++ [LiveStream.SetStreamUrl other_url]) in
  let w' := LiveStream.step full_browser w (LiveStream.Resume 0 (LiveStream.Responded unavailable)) in
  (exists task, LiveStream.tasks w !! 0%nat = Some task
                /\ LiveStream.task_at task = LiveStream.AwaitFetch)
  /\ LiveStream.ok unavailable = false
  /\ LiveStream.connectionStatus (LiveStream.component w') = LiveStream.connecting
  /\ LiveStream.errorMessage (LiveStream.component w') = None
  /\ LiveStream.retry_affordances (LiveStream.render false (LiveStream.component w')) = [].
Proof.
  vm_compute. split; [eexists; split; reflexivity|]. repeat split.
Qed.

(** C5 (amended): when a negotiation fails (an awaited step rejects, the
    response is not a success, or the answer cannot be made) while the
    effect run that started it is still mounted, the component goes to
    the error state with the message "Cannot connect to Camera. Check
    Raspberry Pi.", which it displays; the negotiation is finished and
    does nothing more, no negotiation is started and no request is sent;
    and the component offers exactly one retry button. *)
Theorem negotiation_failure (B : Browser) (w : LiveStream.World) (t : nat)
    (task : LiveStream.Task) (r : LiveStream.Reply) :
  LiveStream.tasks w !! t = Some task ->
  LiveStream.effect_isMounted (LiveStream.task_effect task) w = true ->
  fails B task r ->
  let w' := LiveStream.step B w (LiveStream.Resume t r) in
  LiveStream.connectionStatus (LiveStream.component w') = LiveStream.error
  /\ LiveStream.errorMessage (LiveStream.component w') = Some LiveStream.failure_message
  /\ In (LiveStream.Paragraph LiveStream.failure_message)
        (LiveStream.render_status (LiveStream.component w'))
  /\ (forall isRecording,
        LiveStream.retry_affordances (LiveStream.render isRecording (LiveStream.component w'))
        = [LiveStream.Button "Retry Connection" LiveStream.Reload false])
  /\ LiveStream.tasks w' = alter (LiveStream.set_task_at LiveStream.Finished) t (LiveStream.tasks w)
  /\ LiveStream.requests w' = LiveStream.requests w
  /\ (forall r', LiveStream.step B w' (LiveStream.Resume t r') = w').
Proof.
  intros Ht Hm Hf w'.
  assert (Hcatch : exists err w0,
             w' = LiveStream.catch t task err w0
             /\ LiveStream.tasks w0 = LiveStream.tasks w
             /\ LiveStream.requests w0 = LiveStream.requests w
             /\ LiveStream.effects w0 = LiveStream.effects w).
  { subst w'. cbn [LiveStream.step]. unfold LiveStream.resume. rewrite Ht.
    unfold fails in Hf.
    destruct (LiveStream.task_at task), r; try contradiction;
      try (eexists; exists w; split; [reflexivity | repeat split]).
    - rewrite Hf. eexists; exists w. split; [reflexivity | repeat split].
    - rewrite Hf. eexists; eexists. split; [reflexivity|].
      destruct w; repeat split. }
  destruct Hcatch as (err & w0 & -> & Hts & Hrs & Hes).
  unfold LiveStream.effect_isMounted in Hm. rewrite <- Hes in Hm.
  rewrite <- Hts, <- Hrs. rewrite <- Hts in Ht. clear Hts Hrs Hes Hf.
  destruct w0 as [m i [url z st msg rf pcr sr] ce ps es ts rs cs].
  cbn in Ht, Hm. unfold LiveStream.catch, LiveStream.effect_isMounted.
  cbn -[alter lookup LiveStream.failure_message]. rewrite Hm.
  cbn -[alter lookup LiveStream.failure_message].
  repeat split.
  - right. left. reflexivity.
  - intros isRecording. unfold LiveStream.render, LiveStream.render_toolbar. cbn.
    destruct (z =? 1)%Z, (1 <? z)%Z, isRecording; reflexivity.
  - intros r'. unfold LiveStream.resume. cbn -[alter lookup].
    rewrite list_lookup_alter_eq, Ht. cbn. reflexivity.
Qed.

(** A 503 answer to the POST of a mounted component. *)
Lemma negotiation_failure_witness :
  LiveStream.connectionStatus
    (LiveStream.component
       (LiveStream.step full_browser (LiveStream.run full_browser LiveStream.blank offer_sent)
          (LiveStream.Resume 0 (LiveStream.Responded unavailable))))
  = LiveStream.error.
Proof.
  refine (proj1 (negotiation_failure full_browser
                   (LiveStream.run full_browser LiveStream.blank offer_sent) 0
                   {| LiveStream.task_effect := 0; LiveStream.task_url := whep_url;
                      LiveStream.task_pc := 0; LiveStream.task_at := LiveStream.AwaitFetch |}
                   (LiveStream.Responded unavailable) _ _ _)); reflexivity.
Defined.

(** ** The exposed stream *)

(** Before any track has arrived [getStream] gives [null]. *)
Lemma getStream_initial (url : string) (video : option HTMLVideoElement) :
  LiveStream.getStream (LiveStream.initial url video) = None.
Proof. reflexivity. Qed.

(** The cleanup of the effect leaves [streamRef] as it is. *)
Lemma cleanup_keeps_streamRef (e : nat) (w : LiveStream.World) :
  LiveStream.getStream (LiveStream.component (LiveStream.cleanup e w))
  = LiveStream.getStream (LiveStream.component w).
Proof.
  destruct w as [m i [url z st msg [v cv] pcr sr] ce ps es ts rs cs].
  unfold LiveStream.cleanup. cbn -[alter]. destruct pcr, v; reflexivity.
Qed.

(** C9 at a failing input: a connected stream (stream 5 of peer
    connection 0), then a change of the endpoint URL, or an unmount, or a
    failure of the next negotiation.  Peer connection 0 is closed and the
    component is connecting (or in error), and [getStream] still returns
    stream 5. *)
Theorem getStream_after_teardown :
  let live := LiveStream.run full_browser LiveStream.blank streaming in
  let swapped := LiveStream.step full_browser live (LiveStream.SetStreamUrl other_url) in
  let gone := LiveStream.step full_browser live LiveStream.Unmount in
  let failed := LiveStream.step full_browser swapped
                  (LiveStream.Resume 1 (LiveStream.Rejected Js.TypeError)) in
  (LiveStream.connectionStatus (LiveStream.component live) = LiveStream.connected
   /\ LiveStream.getStream (LiveStream.component live) = Some 5%nat)
  /\ (LiveStream.connectionStatus (LiveStream.component swapped) = LiveStream.connecting
      /\ LiveStream.is_open swapped 0 = false
      /\ LiveStream.getStream (LiveStream.component swapped) = Some 5%nat)
  /\ (LiveStream.mounted gone = false
      /\ LiveStream.is_open gone 0 = false
      /\ LiveStream.getStream (LiveStream.component gone) = Some 5%nat)
  /\ (LiveStream.connectionStatus (LiveStream.component failed) = LiveStream.error
      /\ LiveStream.getStream (LiveStream.component failed) = Some 5%nat).
Proof. vm_compute. repeat split. Qed.

(** ** Peer connections *)

(** *** The connection behind [pcRef] *)

Lemma negotiating_alter (f : LiveStream.RTCPeerConnection -> LiveStream.RTCPeerConnection)
    (i p : nat) (ps : list LiveStream.RTCPeerConnection) (pc' : LiveStream.RTCPeerConnection) :
  (forall pc, negotiating (f pc) = negotiating pc) ->
  alter f i ps !! p = Some pc' -> negotiating pc' = true ->
  exists pc, ps !! p = Some pc /\ negotiating pc = true.
Proof.
  intros Hf Hl Hn. rewrite list_lookup_alter in Hl.
  destruct (decide (i = p)) as [->|Hne].
  - destruct (ps !! p) as [pc|] eqn:E; [|discriminate]. cbn in Hl.
    injection Hl as <-. exists pc. split; [reflexivity|]. now rewrite <- Hf.
  - eauto.
Qed.

Lemma negotiating_close (i p : nat) (ps : list LiveStream.RTCPeerConnection)
    (pc' : LiveStream.RTCPeerConnection) :
  alter LiveStream.close i ps !! p = Some pc' -> negotiating pc' = true ->
  p <> i /\ ps !! p = Some pc'.
Proof.
  intros Hl Hn. rewrite list_lookup_alter in Hl.
  destruct (decide (i = p)) as [->|Hne].
  - destruct (ps !! p) as [pc|]; [|discriminate]. cbn in Hl.
    injection Hl as <-. discriminate.
  - split; [congruence | exact Hl].
Qed.

Lemma lookup_snoc_inv {A} (l : list A) (a b : A) (p : nat) :
  (l ++ [a]) !! p = Some b -> l !! p = Some b \/ (p = length l /\ b = a).
Proof.
  intros H. apply lookup_app_Some in H as [H|[Hle H]]; [now left|right].
  destruct (p - length l)%nat as [|n] eqn:E; cbn in H; [|discriminate].
  split; [lia | congruence].
Qed.

Lemma one_session_blank : one_session LiveStream.blank.
Proof. split; [intros p pc H; destruct p; discriminate | discriminate]. Qed.

Lemma startStream_projections (e : nat) (w : LiveStream.World) :
  LiveStream.mounted (LiveStream.startStream e w) = LiveStream.mounted w
  /\ LiveStream.current_effect (LiveStream.startStream e w) = LiveStream.current_effect w.
Proof.
  destruct (Js.truthy_string (LiveStream.streamUrl (LiveStream.component w))) eqn:Hurl.
  - rewrite LiveStreamFacts.startStream_spec by exact Hurl. split; reflexivity.
  - rewrite LiveStreamFacts.startStream_empty by exact Hurl. split; reflexivity.
Qed.

(** Started from a page without an open connection of its own,
    [startStream] leaves at most the connection it puts behind [pcRef]. *)
Lemma startStream_quiet (e : nat) (w : LiveStream.World) :
  quiet w ->
  forall p pc, LiveStream.peers (LiveStream.startStream e w) !! p = Some pc ->
               negotiating pc = true ->
               LiveStream.pcRef (LiveStream.component (LiveStream.startStream e w)) = Some p.
Proof.
  intros Hq p pc.
  destruct (Js.truthy_string (LiveStream.streamUrl (LiveStream.component w))) eqn:Hurl.
  - rewrite LiveStreamFacts.startStream_spec by exact Hurl.
    cbn [LiveStream.peers LiveStream.component]. intros Hl Hn.
    apply lookup_snoc_inv in Hl as [Hl|[-> _]].
    + exfalso. unfold close_current in Hl.
      destruct (LiveStream.pcRef (LiveStream.component w)) as [old|].
      * apply negotiating_close in Hl as [_ Hl]; [|exact Hn].
        rewrite (Hq p pc Hl) in Hn. discriminate.
      * rewrite (Hq p pc Hl) in Hn. discriminate.
    + rewrite length_close_current. destruct (LiveStream.component w). reflexivity.
  - rewrite LiveStreamFacts.startStream_empty by exact Hurl.
    intros Hl Hn. rewrite (Hq p pc Hl) in Hn. discriminate.
Qed.

(** The cleanup closes the connection behind [pcRef]: with one session
    at most before, none is open after. *)
Lemma cleanup_quiet (e : nat) (w : LiveStream.World) :
  (forall p pc, LiveStream.peers w !! p = Some pc -> negotiating pc = true ->
                LiveStream.pcRef (LiveStream.component w) = Some p) ->
  quiet (LiveStream.cleanup e w).
Proof.
  intros H p pc Hl. destruct (negotiating pc) eqn:Hn; [exfalso|reflexivity].
  destruct w as [m i [url z st msg [v cv] pcr sr] ce ps es ts rs cs].
  unfold LiveStream.cleanup in Hl. cbn -[alter lookup] in H, Hl.
  assert (Hps : match pcr with
                | Some old => alter LiveStream.close old ps
                | None => ps
                end !! p = Some pc).
  { destruct pcr, v; exact Hl. }
  clear Hl. destruct pcr as [old|].
  - apply negotiating_close in Hps as [Hne Hps]; [|exact Hn].
    specialize (H p pc Hps Hn). congruence.
  - specialize (H p pc Hps Hn). discriminate.
Qed.

Lemma cleanup_projections (e : nat) (w : LiveStream.World) :
  LiveStream.mounted (LiveStream.cleanup e w) = LiveStream.mounted w
  /\ LiveStream.streamUrl (LiveStream.component (LiveStream.cleanup e w))
     = LiveStream.streamUrl (LiveStream.component w).
Proof.
  destruct w as [m i [url z st msg [v cv] pcr sr] ce ps es ts rs cs].
  unfold LiveStream.cleanup. cbn -[alter]. destruct pcr, v; split; reflexivity.
Qed.

Lemma one_session_view (w w' : LiveStream.World) :
  LiveStream.mounted w' = LiveStream.mounted w ->
  LiveStream.current_effect w' = LiveStream.current_effect w ->
  LiveStream.pcRef (LiveStream.component w') = LiveStream.pcRef (LiveStream.component w) ->
  (forall p pc', LiveStream.peers w' !! p = Some pc' -> negotiating pc' = true ->
                 exists pc, LiveStream.peers w !! p = Some pc /\ negotiating pc = true) ->
  one_session w -> one_session w'.
Proof.
  intros Hm He Hp Hps [H1 H2]. split.
  - intros p pc' Hl Hn. destruct (Hps p pc' Hl Hn) as (pc & Hl0 & Hn0).
    rewrite Hm, Hp. eauto.
  - rewrite Hm, He. exact H2.
Qed.

Lemma run_effect_one_session (w : LiveStream.World) :
  quiet w -> LiveStream.mounted w = true -> one_session (LiveStream.run_effect w).
Proof.
  intros Hq Hm. unfold LiveStream.run_effect.
  set (e := length (LiveStream.effects w)).
  set (w2 := LiveStream.set_current_effect (Some e) (LiveStream.on_effects _ w)).
  assert (Hq2 : quiet w2) by (destruct w; exact Hq).
  assert (Hm2 : LiveStream.mounted w2 = true) by (destruct w; exact Hm).
  assert (He2 : LiveStream.current_effect w2 = Some e) by (destruct w; reflexivity).
  destruct (startStream_projections e w2) as [Hm' He'].
  split.
  - intros p pc Hl Hn. split; [congruence|]. now apply (startStream_quiet e w2 Hq2 p pc).
  - intros _. congruence.
Qed.

Lemma run_cleanup_quiet (w : LiveStream.World) :
  one_session w -> LiveStream.mounted w = true ->
  quiet (LiveStream.run_cleanup w)
  /\ LiveStream.mounted (LiveStream.run_cleanup w) = true.
Proof.
  intros [H1 H2] Hm. unfold LiveStream.run_cleanup.
  destruct (LiveStream.current_effect w) as [e|] eqn:He; [|now destruct (H2 Hm)].
  assert (Hq : quiet (LiveStream.cleanup e w)).
  { apply cleanup_quiet. intros p pc Hl Hn. now apply (H1 p pc Hl Hn). }
  pose proof (proj1 (cleanup_projections e w)) as Hm'.
  destruct (LiveStream.cleanup e w). split; [exact Hq | cbn in *; congruence].
Qed.

Lemma resume_view (B : Browser) (t : nat) (r : LiveStream.Reply) (w : LiveStream.World) :
  LiveStream.mounted (LiveStream.resume B t r w) = LiveStream.mounted w
  /\ LiveStream.current_effect (LiveStream.resume B t r w) = LiveStream.current_effect w
  /\ LiveStream.pcRef (LiveStream.component (LiveStream.resume B t r w))
     = LiveStream.pcRef (LiveStream.component w)
  /\ (forall p pc', LiveStream.peers (LiveStream.resume B t r w) !! p = Some pc' ->
                    negotiating pc' = true ->
                    exists pc, LiveStream.peers w !! p = Some pc /\ negotiating pc = true).
Proof.
  destruct w as [m i [url z st msg rf pcr sr] ce ps es ts rs cs].
  unfold LiveStream.resume. cbn [LiveStream.tasks].
  destruct (ts !! t) as [task|]; [|repeat split; eauto].
  assert (Hcatch : forall err ps0 rs0,
    let w0 := LiveStream.Build_World m i
                (LiveStream.Build_Component url z st msg rf pcr sr) ce ps0 es ts rs0 cs in
    LiveStream.mounted (LiveStream.catch t task err w0) = m
    /\ LiveStream.current_effect (LiveStream.catch t task err w0) = ce
    /\ LiveStream.pcRef (LiveStream.component (LiveStream.catch t task err w0)) = pcr
    /\ LiveStream.peers (LiveStream.catch t task err w0) = ps0).
  { intros err ps0 rs0. unfold LiveStream.catch, LiveStream.effect_isMounted.
    cbn -[alter lookup]. destruct (es !! LiveStream.task_effect task) as [[? []]|];
      repeat split. }
  destruct (LiveStream.task_at task) eqn:Ha, r;
    try (destruct (Hcatch err ps rs) as (-> & -> & -> & ->));
    try (cbn -[alter lookup]; repeat split; eauto; fail).
  - (* setLocalDescription fulfilled *)
    cbn -[alter lookup]. repeat split. intros p pc' Hl Hn.
    eapply negotiating_alter; [|exact Hl|exact Hn]. intros pc. reflexivity.
  - (* the response *)
    destruct (LiveStream.ok response); cbn -[alter lookup LiveStream.catch].
    + repeat split; eauto.
    + match goal with
      | |- context [LiveStream.catch t task ?err _] =>
          destruct (Hcatch err ps rs) as (-> & -> & -> & ->)
      end. repeat split; eauto.
  - (* the body is read: the second connection is made *)
    cbn -[alter lookup LiveStream.catch].
    assert (Hhelper : forall p pc',
              (ps ++ [LiveStream.new_RTCPeerConnection None]) !! p = Some pc' ->
              negotiating pc' = true -> exists pc, ps !! p = Some pc /\ negotiating pc = true).
    { intros p pc' Hl Hn. apply lookup_snoc_inv in Hl as [Hl|[_ ->]]; [eauto|discriminate]. }
    destruct (createSessionDescription B "answer" (LiveStream.body response)).
    + cbn -[alter lookup]. repeat split. exact Hhelper.
    + match goal with
      | |- context [LiveStream.catch t task ?err _] =>
          destruct (Hcatch err (ps ++ [LiveStream.new_RTCPeerConnection None]) rs)
            as (-> & -> & -> & ->)
      end. repeat split. exact Hhelper.
  - (* setRemoteDescription fulfilled *)
    cbn -[alter lookup]. repeat split. intros p pc' Hl Hn.
    eapply negotiating_alter; [|exact Hl|exact Hn]. intros pc. reflexivity.
Qed.

Lemma ontrack_handler_view (e : nat) (streams : list MediaStream) (w : LiveStream.World) :
  LiveStream.mounted (LiveStream.ontrack_handler e streams w) = LiveStream.mounted w
  /\ LiveStream.current_effect (LiveStream.ontrack_handler e streams w)
     = LiveStream.current_effect w
  /\ LiveStream.pcRef (LiveStream.component (LiveStream.ontrack_handler e streams w))
     = LiveStream.pcRef (LiveStream.component w)
  /\ LiveStream.peers (LiveStream.ontrack_handler e streams w) = LiveStream.peers w.
Proof.
  destruct w as [m i [url z st msg [v cv] pcr sr] ce ps es ts rs cs].
  unfold LiveStream.ontrack_handler, LiveStream.effect_isMounted. cbn -[lookup].
  destruct v, streams; try (repeat split; fail).
  cbn -[lookup]. destruct (es !! e) as [[? []]|]; repeat split.
Qed.

(** Every event keeps the page with one session at most. *)
Lemma one_session_step (B : Browser) (w : LiveStream.World) (ev : LiveStream.Event) :
  one_session w -> one_session (LiveStream.step B w ev).
Proof.
  intros Hw. destruct ev as [url video|url| |t r|pc streams| |]; cbn [LiveStream.step].
  - (* Mount *)
    destruct (LiveStream.mounted w) eqn:Hm; [exact Hw|].
    apply run_effect_one_session.
    + intros p pc Hl. destruct (negotiating pc) eqn:Hn; [|reflexivity].
      destruct w. cbn in *. destruct (proj1 Hw p pc Hl Hn) as [Hm' _].
      cbn in Hm'. congruence.
    + destruct w. reflexivity.
  - (* SetStreamUrl *)
    destruct (LiveStream.mounted w) eqn:Hm; [|exact Hw]. cbn [negb].
    destruct (String.eqb url _); [exact Hw|].
    set (w1 := LiveStream.on_component (LiveStream.set_streamUrl url) w).
    assert (H1 : one_session w1).
    { apply (one_session_view w); try (destruct w as [? ? [] ? ? ? ? ? ?]; reflexivity);
        [|exact Hw].
      destruct w as [? ? [] ? ? ? ? ? ?]. cbn. eauto. }
    assert (Hm1 : LiveStream.mounted w1 = true)
      by (destruct w as [? ? [] ? ? ? ? ? ?]; exact Hm).
    destruct (run_cleanup_quiet w1 H1 Hm1) as [Hq Hm2].
    now apply run_effect_one_session.
  - (* Unmount *)
    destruct (LiveStream.mounted w) eqn:Hm; [|exact Hw]. cbn [negb]. cbv zeta.
    set (w1 := LiveStream.on_component
                 (fun c => LiveStream.set_refs (set_videoRef None (LiveStream.refs c)) c) w).
    assert (H1 : one_session w1).
    { apply (one_session_view w); try (destruct w as [? ? [] ? ? ? ? ? ?]; reflexivity);
        [|exact Hw].
      destruct w as [? ? [] ? ? ? ? ? ?]. cbn. eauto. }
    assert (Hm1 : LiveStream.mounted w1 = true)
      by (destruct w as [? ? [] ? ? ? ? ? ?]; exact Hm).
    destruct (run_cleanup_quiet w1 H1 Hm1) as [Hq _].
    destruct (LiveStream.run_cleanup w1). split; cbn in *.
    + intros p pc Hl Hn. rewrite (Hq p pc Hl) in Hn. discriminate.
    + discriminate.
  - (* Resume *)
    destruct (resume_view B t r w) as (Hm & He & Hp & Hps).
    now apply (one_session_view w).
  - (* Track *)
    destruct (LiveStream.peers w !! pc) as [p|]; [|exact Hw].
    destruct (LiveStream.closed p); [exact Hw|].
    destruct (LiveStream.ontrack p) as [e|]; [|exact Hw].
    destruct (LiveStream.effects w !! e) as [eff|]; [|exact Hw].
    destruct (Nat.eqb _ _); [|exact Hw].
    destruct (ontrack_handler_view e streams w) as (Hm & He & Hp & Hps).
    apply (one_session_view w); try assumption. rewrite Hps. eauto.
  - (* ClickZoom *)
    destruct (LiveStream.mounted w && _) eqn:Hm; [|exact Hw].
    apply (one_session_view w); try (destruct w as [? ? [] ? ? ? ? ? ?]; reflexivity);
      [|exact Hw].
    destruct w as [? ? [] ? ? ? ? ? ?]. cbn. eauto.
  - (* ClickReset *)
    destruct (LiveStream.mounted w && _) eqn:Hm; [|exact Hw].
    apply (one_session_view w); try (destruct w as [? ? [] ? ? ? ? ? ?]; reflexivity);
      [|exact Hw].
    destruct w as [? ? [] ? ? ? ? ? ?]. cbn. eauto.
Qed.

(** Whatever happens to the page, at most one of the peer connections
    [startStream] negotiates with is open, and it is the one behind
    [pcRef] of the mounted component. *)
Lemma one_session_always (B : Browser) (evs : list LiveStream.Event) :
  one_session (LiveStream.run B LiveStream.blank evs).
Proof.
  unfold LiveStream.run. generalize one_session_blank.
  generalize LiveStream.blank. induction evs as [|ev evs IH]; intros w Hw; cbn.
  - exact Hw.
  - apply IH. now apply one_session_step.
Qed.

Lemma one_negotiating_connection (B : Browser) (evs : list LiveStream.Event)
    (p q : nat) (pc qc : LiveStream.RTCPeerConnection) :
  let w := LiveStream.run B LiveStream.blank evs in
  LiveStream.peers w !! p = Some pc -> negotiating pc = true ->
  LiveStream.peers w !! q = Some qc -> negotiating qc = true ->
  p = q.
Proof.
  intros w Hp Hpn Hq Hqn.
  destruct (one_session_always B evs) as [H _]. fold w in H.
  destruct (H p pc Hp Hpn) as [_ H1]. destruct (H q qc Hq Hqn) as [_ H2]. congruence.
Qed.

(** Teardown: the cleanup of the effect closes the connection behind
    [pcRef] and clears the video element's source. *)
Lemma cleanup_tears_down (e : nat) (w : LiveStream.World) :
  let w' := LiveStream.cleanup e w in
  (forall p pc, LiveStream.pcRef (LiveStream.component w) = Some p ->
                LiveStream.peers w !! p = Some pc ->
                LiveStream.peers w' !! p = Some (LiveStream.close pc))
  /\ (forall video, videoRef (LiveStream.refs (LiveStream.component w)) = Some video ->
                    exists video', videoRef (LiveStream.refs (LiveStream.component w')) = Some video'
                                   /\ srcObject video' = None)
  /\ LiveStream.effect_isMounted e w' = false.
Proof.
  destruct w as [m i [url z st msg [v cv] pcr sr] ce ps es ts rs cs].
  unfold LiveStream.cleanup, LiveStream.effect_isMounted.
  destruct pcr as [old|], v as [video0|]; cbn -[alter lookup];
    (split; [|split]);
    try (intros p pc Hp Hl; try discriminate; injection Hp as ->;
         now rewrite list_lookup_alter_eq, Hl);
    try (intros video Hv; try discriminate; eexists; split; reflexivity);
    rewrite list_lookup_alter_eq; destruct (es !! e); reflexivity.
Qed.

(** C1 at a failing input: mount, the offer is created and set, the
    gateway answers with success and the body is read.  The component's
    peer connection 0 is open, and so is the second peer connection that
    [startStream] constructs to make the answer description, which
    nothing closes: not a change of URL, not an unmount. *)
Theorem two_connections_open (B : Browser) :
  let w := LiveStream.run B LiveStream.blank answer_read in
  let swapped := LiveStream.step B w (LiveStream.SetStreamUrl other_url) in
  let gone := LiveStream.step B w LiveStream.Unmount in
  LiveStream.open_connections w = [0; 1]%nat
  /\ LiveStream.open_connections swapped = [1; 2]%nat
  /\ LiveStream.open_connections gone = [1]%nat.
Proof.
  cbv zeta. unfold LiveStream.run, answer_read, offer_sent. cbn [app fold_left].
  cbn. destruct (createSessionDescription B _ _); cbn; repeat split.
Qed.

(** ** Recording *)

(** C6: a click on the record button while not recording and while
    [getStream()] gives no stream (or the live stream is not mounted)
    returns normally having shown the error toast "Stream not ready" and
    nothing else: [isRecording] is false, no media recorder is made, and
    the lists of recorded videos and object URLs are as before. *)
Theorem start_without_stream (B : Browser) (s : App.State) :
  App.isRecording s = false ->
  App.liveStreamRef s ≫= LiveStream.getStream = None ->
  App.handleToggleRecording B (App.render s) s
  = (Js.Normal tt, App.set_toasts (App.toasts s ++ [not_ready_toast]) s)
  /\ App.step B s App.ClickToggleRecording
     = App.set_toasts (App.toasts s ++ [not_ready_toast]) s
  /\ App.isRecording (App.step B s App.ClickToggleRecording) = false
  /\ App.recordedVideos (App.step B s App.ClickToggleRecording) = App.recordedVideos s
  /\ App.recorders (App.step B s App.ClickToggleRecording) = App.recorders s
  /\ App.mediaRecorderRef (App.step B s App.ClickToggleRecording) = App.mediaRecorderRef s.
Proof.
  intros Hrec Hstream.
  assert (H : App.handleToggleRecording B (App.render s) s
              = (Js.Normal tt, App.set_toasts (App.toasts s ++ [not_ready_toast]) s)).
  { destruct s as [rec dr ci rv child mr ch t0 rs urls ts cs t].
    cbn in Hrec, Hstream. subst rec.
    unfold App.handleToggleRecording, Js.bind, Js.modify, Js.gets, App.toast. cbn.
    rewrite Hstream. reflexivity. }
  split; [exact H|].
  assert (H' : App.step B s App.ClickToggleRecording
               = App.set_toasts (App.toasts s ++ [not_ready_toast]) s).
  { cbn [App.step]. now rewrite H. }
  rewrite H'. destruct s; cbn in *. repeat split; assumption.
Qed.

(** The record button on a host whose live stream is not mounted yet. *)
Lemma start_without_stream_witness :
  App.step full_browser (App.initial 0) App.ClickToggleRecording
  = App.set_toasts [not_ready_toast] (App.initial 0).
Proof.
  exact (proj1 (proj2 (start_without_stream full_browser (App.initial 0) eq_refl eq_refl))).
Defined.

Module AppFacts.
Import App.

Ltac js_unfold :=
  unfold Js.bind, Js.modify, Js.gets, Js.ret, Js.try_catch, Js.throw, toast, on_recorder.

(** Evaluate the updates of a state given by its fields. *)
Ltac app_eval :=
  cbn -[alter lookup app length run step string_of_Z string_of_nat Z.add Z.sub Z.div].
Ltac app_eval_in_all :=
  cbn -[alter lookup app length run step string_of_Z string_of_nat Z.add Z.sub Z.div] in *.

(** Starting a recording when a stream is there and the container type
    is supported. *)
Lemma start_recording (B : Browser) (s : State)
    (child : LiveStream.Component) (stream : MediaStream) :
  isRecording s = false ->
  liveStreamRef s = Some child -> LiveStream.getStream child = Some stream ->
  isTypeSupported B webm_vp9 = true ->
  step B s ClickToggleRecording
  = set_toasts (toasts s ++ [{| level := toast_success; title := "Recording started";
                                description := "Video recording has begun" |}])
      (set_recorders (recorders s ++ [started_recorder stream (detectedRisks s)])
         (set_mediaRecorderRef (Some (length (recorders s)))
            (set_recordingStartTimeRef (now s)
               (set_recordedChunksRef [] (set_isRecording true s))))).
Proof.
  intros Hrec Hchild Hstream Hsup.
  destruct s as [rec dr ci rv ch mr chunks t0 rs urls ts cs t].
  cbn in Hrec, Hchild. subst rec ch.
  cbn [step]. unfold handleToggleRecording, construct_MediaRecorder. js_unfold.
  cbn -[alter webm_vp9]. rewrite Hstream. cbn -[alter webm_vp9]. rewrite Hsup.
  cbn -[alter webm_vp9]. rewrite !alter_snoc. reflexivity.
Qed.

(** A chunk event on a recorder carrying the handler. *)
Lemma data_available (B : Browser) (s : State) (rec : nat) (mr : MediaRecorder) (data : Blob) :
  recorders s !! rec = Some mr -> ondataavailable mr = true ->
  step B s (DataAvailable rec data)
  = if Nat.ltb 0 (size data)
    then set_recordedChunksRef (recordedChunksRef s ++ [data]) s
    else s.
Proof.
  intros Hmr Hh. cbn [step]. rewrite Hmr, Hh. unfold ondataavailable_handler.
  destruct (Nat.ltb 0 (size data)); reflexivity.
Qed.

(** A click on the record button while the recorder is running. *)
Lemma stop_recording (B : Browser) (s : State) (rec : nat) (mr : MediaRecorder) :
  isRecording s = true -> mediaRecorderRef s = Some rec ->
  recorders s !! rec = Some mr -> state mr = recording ->
  step B s ClickToggleRecording
  = set_recorders (alter stop rec (recorders s)) (set_isRecording false s).
Proof.
  intros Hrec Href Hmr Hst.
  destruct s as [r dr ci rv ch mref chunks t0 rs urls ts cs t].
  cbn in Hrec, Href, Hmr. subst r mref.
  cbn [step]. unfold handleToggleRecording. js_unfold.
  cbn -[alter]. rewrite Hmr, Hst. reflexivity.
Qed.

(** [liveStreamRef.current?.captureFrame()] completes normally. *)
Lemma child_captureFrame_total (B : Browser) (s : State) :
  exists frame child', child_captureFrame B s = (Js.Normal frame, set_liveStreamRef child' s).
Proof.
  unfold child_captureFrame. destruct (liveStreamRef s) as [c|] eqn:Hc.
  - destruct (captureFrame_total B (LiveStream.refs c)) as (res & r' & H).
    unfold LiveStream.captureFrame. rewrite H. eauto.
  - exists None, None. destruct s. cbn in Hc. subst. reflexivity.
Qed.

(** The [stop] event on a recorder carrying the closure [k]. *)
Lemma stopped (B : Browser) (s : State) (rec : nat) (mr : MediaRecorder) (k : OnStop) :
  recorders s !! rec = Some mr -> onstop mr = Some k ->
  exists thumbnail child',
    step B s (Stopped rec)
    = set_toasts (toasts s ++
                  [{| level := toast_success; title := "Recording stopped";
                      description :=
                        ("Video saved with "
                         ++ string_of_nat (length (captured_detectedRisks k))
                         ++ " risk events recorded")%string |}])
        (set_recordedVideos (stop_artifact s k thumbnail :: firstn 4 (recordedVideos s))
           (set_liveStreamRef child'
              (set_objectURLs (objectURLs s ++ [new_Blob (recordedChunksRef s) "video/webm"]) s))).
Proof.
  intros Hmr Hk. cbn [step]. rewrite Hmr, Hk.
  destruct s as [r dr ci rv ch mref chunks t0 rs urls ts cs t].
  unfold onstop_handler. js_unfold. cbn -[child_captureFrame string_of_nat string_of_Z].
  match goal with
  | |- context [child_captureFrame B ?s0] =>
      destruct (child_captureFrame_total B s0) as (frame & child' & ->)
  end.
  cbn -[string_of_nat string_of_Z]. eexists. exists child'. reflexivity.
Qed.

Lemma run_cons (B : Browser) (s : State) (ev : Event) (evs : list Event) :
  run B s (ev :: evs) = run B (step B s ev) evs.
Proof. reflexivity. Qed.

(** The clock advances. *)
Ltac advance := rewrite run_cons; cbn [step]; app_eval.

(** A chunk event on the recorder made last. *)
Ltac data :=
  rewrite run_cons;
  erewrite data_available; [ | app_eval; apply lookup_snoc | reflexivity ].

End AppFacts.

(** C7: a recording is started with a timeslice of 1000 ms, so that the
    recorder emits a chunk every second and not only at stop; a chunk
    event appends its data to the accumulated list exactly when the data
    is not empty; at the stop event the artifact's blob is the
    concatenation of the accumulated chunks in order; and a recording
    with one non-empty chunk after each of three seconds, then stopped,
    has accumulated these three chunks and yields an artifact of their
    concatenation with duration 3. *)
Theorem recording_chunks (B : Browser) (s : App.State)
    (child : LiveStream.Component) (stream : MediaStream) :
  App.isRecording s = false ->
  App.liveStreamRef s = Some child -> LiveStream.getStream child = Some stream ->
  isTypeSupported B App.webm_vp9 = true ->
  let rec := length (App.recorders s) in
  let started := App.step B s App.ClickToggleRecording in
  (App.isRecording started = true
   /\ App.mediaRecorderRef started = Some rec
   /\ App.recordedChunksRef started = []
   /\ exists mr, App.recorders started !! rec = Some mr
                 /\ App.state mr = App.recording /\ App.timeslice mr = Some 1000%Z
                 /\ App.ondataavailable mr = true)
  /\ (forall (s1 : App.State) (r : nat) (mr : App.MediaRecorder) (data : App.Blob),
        App.recorders s1 !! r = Some mr -> App.ondataavailable mr = true ->
        App.recordedChunksRef (App.step B s1 (App.DataAvailable r data))
        = if Nat.ltb 0 (App.size data)
          then App.recordedChunksRef s1 ++ [data]
          else App.recordedChunksRef s1)
  /\ (forall (s1 : App.State) (r : nat) (mr : App.MediaRecorder) (k : App.OnStop),
        App.recorders s1 !! r = Some mr -> App.onstop mr = Some k ->
        exists video,
          App.recordedVideos (App.step B s1 (App.Stopped r))
          = video :: firstn 4 (App.recordedVideos s1)
          /\ App.objectURLs (App.step B s1 (App.Stopped r)) !! App.videoUrl video
             = Some {| App.blob_data := concat (map App.blob_data (App.recordedChunksRef s1));
                       App.blob_type := "video/webm" |})
  /\ (forall c1 c2 c3 : App.Blob,
        (0 < App.size c1)%nat -> (0 < App.size c2)%nat -> (0 < App.size c3)%nat ->
        let stopped :=
          App.run B started
            [App.Advance 1000; App.DataAvailable rec c1;
             App.Advance 1000; App.DataAvailable rec c2;
             App.Advance 1000; App.DataAvailable rec c3;
             App.ClickToggleRecording; App.DataAvailable rec empty_blob;
             App.Stopped rec] in
        App.isRecording stopped = false
        /\ App.recordedChunksRef stopped = [c1; c2; c3]
        /\ exists video,
             App.recordedVideos stopped = video :: firstn 4 (App.recordedVideos s)
             /\ App.duration video = 3%Z
             /\ App.objectURLs stopped !! App.videoUrl video
                = Some {| App.blob_data :=
                            App.blob_data c1 ++ App.blob_data c2 ++ App.blob_data c3;
                          App.blob_type := "video/webm" |}).
Proof.
  intros Hrec Hchild Hstream Hsup rec started.
  assert (Hstart := AppFacts.start_recording B s child stream Hrec Hchild Hstream Hsup).
  fold started in Hstart. clearbody started. subst started rec.
  destruct s as [r dr ci rv ch mref chunks t0 rs urls ts cs t].
  AppFacts.app_eval_in_all. subst r ch.
  split; [|split; [|split]].
  - repeat split. exists (started_recorder stream dr).
    split; [apply lookup_snoc | repeat split].
  - intros s1 r mr data Hmr Hh. rewrite (AppFacts.data_available B s1 r mr data Hmr Hh).
    destruct (App.size data); destruct s1; reflexivity.
  - intros s1 r mr k Hmr Hk.
    destruct (AppFacts.stopped B s1 r mr k Hmr Hk) as (thumb & child' & ->).
    destruct s1. cbn -[alter lookup app length stop_artifact].
    eexists. split; [reflexivity|]. cbn. apply lookup_snoc.
  - intros c1 c2 c3 H1 H2 H3.
    apply Nat.ltb_lt in H1, H2, H3.
    cbv zeta. AppFacts.advance.
    AppFacts.data; rewrite H1; AppFacts.app_eval. AppFacts.advance.
    AppFacts.data; rewrite H2; AppFacts.app_eval. AppFacts.advance.
    AppFacts.data; rewrite H3; AppFacts.app_eval.
    rewrite AppFacts.run_cons.
    erewrite AppFacts.stop_recording;
      [ | reflexivity | reflexivity | AppFacts.app_eval; apply lookup_snoc | reflexivity ].
    AppFacts.app_eval. rewrite alter_snoc.
    AppFacts.data. change (App.size empty_blob) with 0%nat. AppFacts.app_eval.
    cbn [app]. rewrite AppFacts.run_cons.
    match goal with
    | |- context [App.step B ?s0 (App.Stopped ?r)] =>
        destruct (AppFacts.stopped B s0 r (App.stop (started_recorder stream dr))
                    {| App.captured_detectedRisks := dr |}) as (thumb & child' & ->);
          [ AppFacts.app_eval; apply lookup_snoc | reflexivity | ]
    end.
    unfold App.run. cbn [fold_left]. AppFacts.app_eval.
    split; [reflexivity|]. split; [reflexivity|].
    eexists. split; [reflexivity|]. split.
    + unfold stop_artifact. AppFacts.app_eval.
      replace (t + 1000 + 1000 + 1000 - t)%Z with 3000%Z by lia. reflexivity.
    + unfold stop_artifact. AppFacts.app_eval. rewrite lookup_snoc.
      unfold App.new_Blob. cbn. now rewrite app_nil_r.
Qed.

(** Three seconds of recording on [ready_host]. *)
Lemma recording_chunks_witness :
  App.recordedChunksRef
    (App.run full_browser (App.step full_browser ready_host App.ClickToggleRecording)
       [App.Advance 1000; App.DataAvailable 0 (chunk Byte.x01);
        App.Advance 1000; App.DataAvailable 0 (chunk Byte.x02);
        App.Advance 1000; App.DataAvailable 0 (chunk Byte.x03);
        App.ClickToggleRecording; App.DataAvailable 0 empty_blob;
        App.Stopped 0])
  = [chunk Byte.x01; chunk Byte.x02; chunk Byte.x03].
Proof.
  refine (proj1 (proj2
            (proj2 (proj2 (proj2
               (recording_chunks full_browser ready_host live_child 5%nat
                  eq_refl eq_refl eq_refl eq_refl)))
               (chunk Byte.x01) (chunk Byte.x02) (chunk Byte.x03) _ _ _))); cbn; lia.
Defined.

(** The duration [onstop] reports is the elapsed time in whole seconds,
    rounded down: it differs from the elapsed time by less than a second. *)
Lemma duration_within_a_second (s : App.State) (k : App.OnStop) (thumbnail : string) :
  let elapsed := (App.now s - App.recordingStartTimeRef s)%Z in
  (1000 * App.duration (stop_artifact s k thumbnail) <= elapsed
   < 1000 * App.duration (stop_artifact s k thumbnail) + 1000)%Z.
Proof.
  cbn. pose proof (Z.div_mod (App.now s - App.recordingStartTimeRef s) 1000).
  pose proof (Z.mod_pos_bound (App.now s - App.recordingStartTimeRef s) 1000). lia.
Qed.

(** The overlay set [onstop] attaches is the one its closure captured. *)
Lemma stop_artifact_risks (s : App.State) (k : App.OnStop) (thumbnail : string) :
  App.risks (stop_artifact s k thumbnail) = App.captured_detectedRisks k.
Proof. reflexivity. Qed.

(** C3 at a failing input: a recording started while the detections are
    [sample_risk] and stopped 5.4 seconds later, when they are
    [other_risk].  The artifact reports 5 seconds, and the overlay set
    attached to it is the one of the start, not the one of the stop. *)
Theorem recording_overlays_of_start :
  let s := App.run full_browser ready_host overlays_change_while_recording in
  App.detectedRisks s = [other_risk]
  /\ exists video,
       App.recordedVideos s = [video]
       /\ App.duration video = 5%Z
       /\ App.risks video = [sample_risk]
       /\ App.risks video <> App.detectedRisks s.
Proof.
  vm_compute. split; [reflexivity|]. eexists. split; [reflexivity|].
  split; [reflexivity|]. split; [reflexivity|]. discriminate.
Qed.

(** * Further properties of the code *)

(** ** The live stream: what the operations do to the component *)

(** [startStream] either returns at once (empty URL) or resets the status
    and the message and puts the new connection behind [pcRef]. *)
Lemma startStream_component (e : nat) (w : LiveStream.World) :
  LiveStream.component (LiveStream.startStream e w) = LiveStream.component w
  \/ LiveStream.component (LiveStream.startStream e w)
     = LiveStream.set_pcRef (Some (length (LiveStream.peers w)))
         (LiveStream.setErrorMessage None
            (LiveStream.setConnectionStatus LiveStream.connecting (LiveStream.component w))).
Proof.
  destruct (Js.truthy_string (LiveStream.streamUrl (LiveStream.component w))) eqn:Hurl.
  - right. now rewrite LiveStreamFacts.startStream_spec by exact Hurl.
  - left. now rewrite LiveStreamFacts.startStream_empty by exact Hurl.
Qed.

(** The cleanup changes nothing of the component but the refs. *)
Lemma cleanup_component (e : nat) (w : LiveStream.World) :
  exists rf, LiveStream.component (LiveStream.cleanup e w)
             = LiveStream.set_refs rf (LiveStream.component w).
Proof.
  destruct w as [m i [url z st msg [v cv] pcr sr] ce ps es ts rs cs].
  unfold LiveStream.cleanup. destruct pcr, v; cbn -[alter]; eexists; reflexivity.
Qed.

(** A resumption changes the component only through the [catch] block of
    a negotiation whose effect run is mounted. *)
Lemma resume_component (B : Browser) (t : nat) (r : LiveStream.Reply) (w : LiveStream.World) :
  LiveStream.component (LiveStream.resume B t r w) = LiveStream.component w
  \/ (exists task, LiveStream.tasks w !! t = Some task
                   /\ LiveStream.effect_isMounted (LiveStream.task_effect task) w = true
                   /\ LiveStream.component (LiveStream.resume B t r w)
                      = LiveStream.setErrorMessage (Some LiveStream.failure_message)
                          (LiveStream.setConnectionStatus LiveStream.error
                             (LiveStream.component w))).
Proof.
  destruct w as [m i [url z st msg rf pcr sr] ce ps es ts rs cs].
  unfold LiveStream.resume. cbn [LiveStream.tasks].
  destruct (ts !! t) as [task|] eqn:Ht; [|now left].
  assert (Hcatch : forall err ps0 rs0,
    let w0 := LiveStream.Build_World m i
                (LiveStream.Build_Component url z st msg rf pcr sr) ce ps0 es ts rs0 cs in
    LiveStream.component (LiveStream.catch t task err w0)
    = LiveStream.Build_Component url z st msg rf pcr sr
    \/ (es !! LiveStream.task_effect task ≫= (fun eff => Some (LiveStream.isMounted eff))
        = Some true
        /\ LiveStream.component (LiveStream.catch t task err w0)
           = LiveStream.Build_Component url z LiveStream.error
               (Some LiveStream.failure_message) rf pcr sr)).
  { intros err ps0 rs0. unfold LiveStream.catch, LiveStream.effect_isMounted.
    cbn -[alter lookup LiveStream.failure_message].
    destruct (es !! LiveStream.task_effect task) as [[? []]|]; cbn; auto. }
  assert (Hgoal : forall err ps0 rs0,
    let w0 := LiveStream.Build_World m i
                (LiveStream.Build_Component url z st msg rf pcr sr) ce ps0 es ts rs0 cs in
    LiveStream.component (LiveStream.catch t task err w0)
    = LiveStream.Build_Component url z st msg rf pcr sr
    \/ (exists task0, Some task = Some task0
          /\ LiveStream.effect_isMounted (LiveStream.task_effect task0)
               (LiveStream.Build_World m i
                  (LiveStream.Build_Component url z st msg rf pcr sr) ce ps es ts rs cs) = true
          /\ LiveStream.component (LiveStream.catch t task err w0)
             = LiveStream.setErrorMessage (Some LiveStream.failure_message)
                 (LiveStream.setConnectionStatus LiveStream.error
                    (LiveStream.Build_Component url z st msg rf pcr sr)))).
  { intros err ps0 rs0 w0. destruct (Hcatch err ps0 rs0) as [H|[Hm H]]; [now left|right].
    exists task. split; [reflexivity|]. split; [|exact H].
    unfold LiveStream.effect_isMounted. cbn -[lookup].
    destruct (es !! LiveStream.task_effect task) as [eff|]; cbn in Hm; congruence. }
  destruct (LiveStream.task_at task), r;
    try (apply Hgoal); try (now left).
  - destruct (LiveStream.ok response); [now left | apply Hgoal].
  - cbn -[alter lookup LiveStream.catch].
    destruct (createSessionDescription B "answer" (LiveStream.body response));
      [now left | apply Hgoal].
Qed.

(** The [track] handler either changes nothing or attaches the first
    stream, to the video element and to [streamRef]. *)
Lemma ontrack_handler_component (e : nat) (streams : list MediaStream) (w : LiveStream.World) :
  LiveStream.component (LiveStream.ontrack_handler e streams w) = LiveStream.component w
  \/ (exists s rest video,
        streams = s :: rest
        /\ videoRef (LiveStream.refs (LiveStream.component w)) = Some video
        /\ (LiveStream.component (LiveStream.ontrack_handler e streams w)
            = LiveStream.set_streamRef (Some s)
                (LiveStream.set_refs
                   (set_videoRef (Some (set_srcObject (Some s) video))
                      (LiveStream.refs (LiveStream.component w)))
                   (LiveStream.component w))
            \/ LiveStream.component (LiveStream.ontrack_handler e streams w)
               = LiveStream.setConnectionStatus LiveStream.connected
                   (LiveStream.set_streamRef (Some s)
                      (LiveStream.set_refs
                         (set_videoRef (Some (set_srcObject (Some s) video))
                            (LiveStream.refs (LiveStream.component w)))
                         (LiveStream.component w))))).
Proof.
  destruct w as [m i [url z st msg [v cv] pcr sr] ce ps es ts rs cs].
  unfold LiveStream.ontrack_handler, LiveStream.effect_isMounted. cbn -[lookup].
  destruct v as [video|], streams as [|s rest]; try (now left).
  right. exists s, rest, video. split; [reflexivity|]. split; [reflexivity|].
  cbn -[lookup]. destruct (es !! e) as [[? []]|]; cbn; auto.
Qed.

Lemma run_effect_component (w : LiveStream.World) :
  LiveStream.component (LiveStream.run_effect w) = LiveStream.component w
  \/ LiveStream.component (LiveStream.run_effect w)
     = LiveStream.set_pcRef (Some (length (LiveStream.peers w)))
         (LiveStream.setErrorMessage None
            (LiveStream.setConnectionStatus LiveStream.connecting (LiveStream.component w))).
Proof.
  unfold LiveStream.run_effect.
  match goal with
  | |- context [LiveStream.startStream ?e ?w2] =>
      destruct (startStream_component e w2) as [H|H]; rewrite H; destruct w; auto
  end.
Qed.

Lemma run_cleanup_component (w : LiveStream.World) :
  exists rf, LiveStream.component (LiveStream.run_cleanup w)
             = LiveStream.set_refs rf (LiveStream.component w).
Proof.
  unfold LiveStream.run_cleanup. destruct (LiveStream.current_effect w) as [e|].
  - destruct (cleanup_component e w) as [rf H]. exists rf.
    destruct (LiveStream.cleanup e w). exact H.
  - exists (LiveStream.refs (LiveStream.component w)).
    destruct w as [? ? [] ? ? ? ? ? ?]. reflexivity.
Qed.

(** What one event can do to the zoom level, the status and the exposed
    stream: the zoom level stays, goes back to 1, or goes from 1 to 2; and
    a component that is connected after the event exposes a stream, or
    was connected with the same exposed stream before. *)
Lemma step_observables (B : Browser) (w : LiveStream.World) (ev : LiveStream.Event) :
  let c := LiveStream.component w in
  let c' := LiveStream.component (LiveStream.step B w ev) in
  (LiveStream.zoomLevel c' = LiveStream.zoomLevel c
   \/ LiveStream.zoomLevel c' = 1%Z
   \/ (LiveStream.zoomLevel c = 1%Z /\ LiveStream.zoomLevel c' = 2%Z))
  /\ (LiveStream.connectionStatus c' = LiveStream.connected ->
      LiveStream.streamRef c' <> None
      \/ (LiveStream.connectionStatus c = LiveStream.connected
          /\ LiveStream.streamRef c' = LiveStream.streamRef c)).
Proof.
  assert (Hsame : forall c c' : LiveStream.Component, c' = c ->
    (LiveStream.zoomLevel c' = LiveStream.zoomLevel c
     \/ LiveStream.zoomLevel c' = 1%Z
     \/ (LiveStream.zoomLevel c = 1%Z /\ LiveStream.zoomLevel c' = 2%Z))
    /\ (LiveStream.connectionStatus c' = LiveStream.connected ->
        LiveStream.streamRef c' <> None
        \/ (LiveStream.connectionStatus c = LiveStream.connected
            /\ LiveStream.streamRef c' = LiveStream.streamRef c))).
  { intros c c' ->. auto. }
  cbv zeta. destruct ev as [url video|url| |t r|pc streams| |]; cbn [LiveStream.step].
  - (* Mount *)
    destruct (LiveStream.mounted w); [now apply Hsame|].
    match goal with
    | |- context [LiveStream.run_effect ?w1] =>
        destruct (run_effect_component w1) as [H|H]; rewrite H
    end; destruct w as [? ? [] ? ? ? ? ? ?]; cbn; (split; [auto | first [discriminate | auto]]).
  - (* SetStreamUrl *)
    destruct (LiveStream.mounted w); [|now apply Hsame]. cbn [negb].
    destruct (String.eqb url _); [now apply Hsame|].
    match goal with
    | |- context [LiveStream.run_effect ?w1] =>
        destruct (run_effect_component w1) as [H|H]; rewrite H; clear H
    end;
    match goal with
    | |- context [LiveStream.run_cleanup ?w1] =>
        destruct (run_cleanup_component w1) as [rf H]; rewrite H; clear H
    end; destruct w as [? ? [] ? ? ? ? ? ?]; cbn; (split; [auto | first [discriminate | auto]]).
  - (* Unmount *)
    destruct (LiveStream.mounted w); [|now apply Hsame]. cbn [negb]. cbv zeta.
    match goal with
    | |- context [LiveStream.run_cleanup ?w1] =>
        destruct (run_cleanup_component w1) as [rf H]; destruct (LiveStream.run_cleanup w1)
    end.
    cbn in *. rewrite H. destruct w as [? ? [] ? ? ? ? ? ?]; cbn; split; auto.
  - (* Resume *)
    destruct (resume_component B t r w) as [H|(task & _ & _ & H)]; rewrite H;
      [now apply Hsame|].
    destruct w as [? ? [] ? ? ? ? ? ?]. cbn. split; [auto | first [discriminate | auto]].
  - (* Track *)
    destruct (LiveStream.peers w !! pc) as [p|]; [|now apply Hsame].
    destruct (LiveStream.closed p); [now apply Hsame|].
    destruct (LiveStream.ontrack p) as [e|]; [|now apply Hsame].
    destruct (LiveStream.effects w !! e) as [eff|]; [|now apply Hsame].
    destruct (Nat.eqb _ _); [|now apply Hsame].
    destruct (ontrack_handler_component e streams w) as [H|(s & rest & video & _ & _ & [H|H])];
      rewrite H; [now apply Hsame| |];
      destruct w as [? ? [] ? ? ? ? ? ?]; cbn; split; auto; intros _; left; discriminate.
  - (* ClickZoom *)
    destruct (LiveStream.mounted w && _); [|now apply Hsame].
    destruct w as [? ? [? z ? ? ? ? ?] ? ? ? ? ? ?]. cbn. split; [|auto].
    destruct (Z.eqb_spec z 1); auto.
  - (* ClickReset *)
    destruct (LiveStream.mounted w && _); [|now apply Hsame].
    destruct w as [? ? [] ? ? ? ? ? ?]. cbn. split; auto.
Qed.

(** Induction over the events of a page. *)
Lemma run_invariant (B : Browser) (P : LiveStream.World -> Prop) :
  P LiveStream.blank ->
  (forall w ev, P w -> P (LiveStream.step B w ev)) ->
  forall evs, P (LiveStream.run B LiveStream.blank evs).
Proof.
  intros H0 Hstep evs. unfold LiveStream.run. revert H0.
  generalize LiveStream.blank. induction evs as [|ev evs IH]; intros w Hw; cbn; auto.
Qed.

(** Along any run, a component whose status is [connected] holds a
    stream behind [streamRef]. *)
Lemma connected_holds_stream (B : Browser) (evs : list LiveStream.Event) :
  let c := LiveStream.component (LiveStream.run B LiveStream.blank evs) in
  LiveStream.connectionStatus c = LiveStream.connected ->
  exists stream, LiveStream.streamRef c = Some stream.
Proof.
  cbv zeta. apply (run_invariant B (fun w =>
    LiveStream.connectionStatus (LiveStream.component w) = LiveStream.connected ->
    exists stream, LiveStream.streamRef (LiveStream.component w) = Some stream)).
  - discriminate.
  - intros w ev IH Hc. destruct (step_observables B w ev) as [_ H].
    destruct (H Hc) as [Hs|[Hc0 Hs]].
    + destruct (LiveStream.streamRef (LiveStream.component (LiveStream.step B w ev))) eqn:E;
        [eauto|destruct (Hs eq_refl)].
    + rewrite Hs. auto.
Qed.

(** X1: whatever happens to the page, a component whose status is
    [connected] exposes a stream: [getStream()] is not [null] while the
    Snapshot and Record buttons are enabled. *)
Theorem connected_exposes_stream (B : Browser) (evs : list LiveStream.Event) :
  let c := LiveStream.component (LiveStream.run B LiveStream.blank evs) in
  LiveStream.connectionStatus c = LiveStream.connected ->
  exists stream, LiveStream.getStream c = Some stream.
Proof. exact (connected_holds_stream B evs). Qed.

(** The connected component of the scenario [streaming] exposes stream 5. *)
Lemma connected_exposes_stream_witness :
  exists stream,
    LiveStream.getStream
      (LiveStream.component (LiveStream.run full_browser LiveStream.blank streaming))
    = Some stream.
Proof. apply (connected_exposes_stream full_browser streaming). reflexivity. Defined.

(** X2: whatever happens to the page, the zoom level of the live stream
    is 1 or 2. *)
Theorem zoomLevel_one_or_two (B : Browser) (evs : list LiveStream.Event) :
  let z := LiveStream.zoomLevel (LiveStream.component (LiveStream.run B LiveStream.blank evs)) in
  z = 1%Z \/ z = 2%Z.
Proof.
  cbv zeta. apply (run_invariant B (fun w =>
    LiveStream.zoomLevel (LiveStream.component w) = 1%Z
    \/ LiveStream.zoomLevel (LiveStream.component w) = 2%Z)).
  - now left.
  - intros w ev IH. destruct (step_observables B w ev) as [[H|[H|[_ H]]] _]; rewrite H; auto.
Qed.

(** What the [catch] block leaves alone. *)
Lemma catch_frame (t : nat) (task : LiveStream.Task) (err : Js.Error) (w : LiveStream.World) :
  LiveStream.tasks (LiveStream.catch t task err w)
  = alter (LiveStream.set_task_at LiveStream.Finished) t (LiveStream.tasks w)
  /\ LiveStream.requests (LiveStream.catch t task err w) = LiveStream.requests w
  /\ LiveStream.effects (LiveStream.catch t task err w) = LiveStream.effects w
  /\ LiveStream.peers (LiveStream.catch t task err w) = LiveStream.peers w.
Proof.
  destruct w as [m i [url z st msg rf pcr sr] ce ps es ts rs cs].
  unfold LiveStream.catch, LiveStream.effect_isMounted. cbn -[alter lookup].
  destruct (es !! LiveStream.task_effect task) as [[? []]|]; repeat split.
Qed.

(** A resumption changes nothing, or moves its negotiation to another
    point, sending the POST when the offer has been set and nothing
    otherwise. *)
Lemma resume_cases (B : Browser) (t : nat) (r : LiveStream.Reply) (w : LiveStream.World) :
  LiveStream.resume B t r w = w
  \/ exists task a,
       LiveStream.tasks w !! t = Some task
       /\ LiveStream.tasks (LiveStream.resume B t r w)
          = alter (LiveStream.set_task_at a) t (LiveStream.tasks w)
       /\ LiveStream.effects (LiveStream.resume B t r w) = LiveStream.effects w
       /\ ((LiveStream.requests (LiveStream.resume B t r w) = LiveStream.requests w
            /\ (posted task = true -> posted_stage a = true))
           \/ (exists offer,
                 LiveStream.task_at task = LiveStream.AwaitSetLocalDescription offer
                 /\ r = LiveStream.Fulfilled
                 /\ LiveStream.requests (LiveStream.resume B t r w)
                    = LiveStream.requests w ++ [whep_post (LiveStream.task_url task) offer]
                 /\ posted_stage a = true)).
Proof.
  unfold LiveStream.resume.
  destruct (LiveStream.tasks w !! t) as [task|] eqn:Ht; [|now left].
  assert (Hbuild : forall a w',
    LiveStream.tasks w' = alter (LiveStream.set_task_at a) t (LiveStream.tasks w) ->
    LiveStream.effects w' = LiveStream.effects w ->
    LiveStream.requests w' = LiveStream.requests w ->
    (posted task = true -> posted_stage a = true) ->
    exists task0 a0,
      Some task = Some task0
      /\ LiveStream.tasks w' = alter (LiveStream.set_task_at a0) t (LiveStream.tasks w)
      /\ LiveStream.effects w' = LiveStream.effects w
      /\ ((LiveStream.requests w' = LiveStream.requests w
           /\ (posted task0 = true -> posted_stage a0 = true))
          \/ (exists offer,
                LiveStream.task_at task0 = LiveStream.AwaitSetLocalDescription offer
                /\ r = LiveStream.Fulfilled
                /\ LiveStream.requests w'
                   = LiveStream.requests w ++ [whep_post (LiveStream.task_url task0) offer]
                /\ posted_stage a0 = true))).
  { intros a w' H1 H2 H3 H4. exists task, a. repeat split; auto. }
  assert (Hcatch : forall err w0,
    LiveStream.tasks w0 = LiveStream.tasks w ->
    LiveStream.requests w0 = LiveStream.requests w ->
    LiveStream.effects w0 = LiveStream.effects w ->
    LiveStream.tasks (LiveStream.catch t task err w0)
    = alter (LiveStream.set_task_at LiveStream.Finished) t (LiveStream.tasks w)
    /\ LiveStream.effects (LiveStream.catch t task err w0) = LiveStream.effects w
    /\ LiveStream.requests (LiveStream.catch t task err w0) = LiveStream.requests w).
  { intros err w0 H1 H2 H3. destruct (catch_frame t task err w0) as (E1 & E2 & E3 & _).
    rewrite E1, E2, E3, H1, H2, H3. repeat split. }
  assert (Hgoto : forall a w0,
    LiveStream.tasks w0 = LiveStream.tasks w ->
    LiveStream.effects w0 = LiveStream.effects w ->
    LiveStream.tasks (LiveStream.on_tasks (alter (LiveStream.set_task_at a) t) w0)
    = alter (LiveStream.set_task_at a) t (LiveStream.tasks w)
    /\ LiveStream.effects (LiveStream.on_tasks (alter (LiveStream.set_task_at a) t) w0)
       = LiveStream.effects w
    /\ LiveStream.requests (LiveStream.on_tasks (alter (LiveStream.set_task_at a) t) w0)
       = LiveStream.requests w0).
  { intros a w0 H1 H2. destruct w0. cbn in *. subst. repeat split. }
  assert (Hfail : forall err w0,
    LiveStream.tasks w0 = LiveStream.tasks w ->
    LiveStream.requests w0 = LiveStream.requests w ->
    LiveStream.effects w0 = LiveStream.effects w ->
    exists task0 a0,
      Some task = Some task0
      /\ LiveStream.tasks (LiveStream.catch t task err w0)
         = alter (LiveStream.set_task_at a0) t (LiveStream.tasks w)
      /\ LiveStream.effects (LiveStream.catch t task err w0) = LiveStream.effects w
      /\ ((LiveStream.requests (LiveStream.catch t task err w0) = LiveStream.requests w
           /\ (posted task0 = true -> posted_stage a0 = true))
          \/ (exists offer,
                LiveStream.task_at task0 = LiveStream.AwaitSetLocalDescription offer
                /\ r = LiveStream.Fulfilled
                /\ LiveStream.requests (LiveStream.catch t task err w0)
                   = LiveStream.requests w ++ [whep_post (LiveStream.task_url task0) offer]
                /\ posted_stage a0 = true))).
  { intros err w0 H1 H2 H3. destruct (Hcatch err w0 H1 H2 H3) as (E1 & E2 & E3).
    apply (Hbuild LiveStream.Finished); auto. }
  destruct (LiveStream.task_at task) eqn:Ha; destruct r eqn:Hr; try (now left); right;
    try (apply Hfail; reflexivity).
  - (* the offer is created *)
    destruct (Hgoto (LiveStream.AwaitSetLocalDescription offer) w eq_refl eq_refl)
      as (E1 & E2 & E3).
    apply (Hbuild (LiveStream.AwaitSetLocalDescription offer)); auto.
    unfold posted. rewrite Ha. discriminate.
  - (* the offer is set: the POST *)
    match goal with
    | |- context [LiveStream.on_tasks _ ?w0] =>
        destruct (Hgoto LiveStream.AwaitFetch w0) as (E1 & E2 & E3);
          [destruct w; reflexivity | destruct w; reflexivity |]
    end.
    exists task, LiveStream.AwaitFetch. rewrite E1, E2, E3.
    split; [reflexivity|]. split; [reflexivity|]. split; [reflexivity|].
    right. exists offer. split; [exact Ha|]. split; [reflexivity|].
    split; [destruct w; reflexivity | reflexivity].
  - (* the response *)
    destruct (LiveStream.ok response); cbn [negb].
    + destruct (Hgoto (LiveStream.AwaitText response) w eq_refl eq_refl) as (E1 & E2 & E3).
      apply (Hbuild (LiveStream.AwaitText response)); auto.
    + apply Hfail; reflexivity.
  - (* the body is read *)
    cbn zeta.
    destruct (createSessionDescription B "answer" (LiveStream.body response)) as [answer|].
    + match goal with
      | |- context [LiveStream.on_tasks _ ?w0] =>
          destruct (Hgoto (LiveStream.AwaitSetRemoteDescription answer) w0) as (E1 & E2 & E3);
            [destruct w; reflexivity | destruct w; reflexivity |]
      end.
      apply (Hbuild (LiveStream.AwaitSetRemoteDescription answer)); auto;
        try (rewrite E3; destruct w; reflexivity).
    + apply Hfail; destruct w; reflexivity.
  - (* the answer is set *)
    match goal with
    | |- context [LiveStream.on_tasks _ ?w0] =>
        destruct (Hgoto LiveStream.Finished w0) as (E1 & E2 & E3);
          [destruct w; reflexivity | destruct w; reflexivity |]
    end.
    apply (Hbuild LiveStream.Finished); auto; try (rewrite E3; destruct w; reflexivity).
Qed.

(** ** The live stream: effect runs and requests *)

Lemma startStream_lists (e : nat) (w : LiveStream.World) :
  LiveStream.effects (LiveStream.startStream e w) = LiveStream.effects w
  /\ LiveStream.requests (LiveStream.startStream e w) = LiveStream.requests w
  /\ (LiveStream.tasks (LiveStream.startStream e w) = LiveStream.tasks w
      \/ exists task,
           LiveStream.tasks (LiveStream.startStream e w) = LiveStream.tasks w ++ [task]
           /\ LiveStream.task_at task = LiveStream.AwaitCreateOffer
           /\ LiveStream.task_url task = LiveStream.streamUrl (LiveStream.component w)).
Proof.
  destruct (Js.truthy_string (LiveStream.streamUrl (LiveStream.component w))) eqn:Hurl.
  - rewrite LiveStreamFacts.startStream_spec by exact Hurl. cbn.
    split; [reflexivity|]. split; [reflexivity|]. right. eexists. repeat split.
  - rewrite LiveStreamFacts.startStream_empty by exact Hurl. auto.
Qed.

Lemma cleanup_lists (e : nat) (w : LiveStream.World) :
  LiveStream.effects (LiveStream.cleanup e w)
  = alter (fun eff => {| LiveStream.eff_instance := LiveStream.eff_instance eff;
                         LiveStream.isMounted := false |}) e (LiveStream.effects w)
  /\ LiveStream.tasks (LiveStream.cleanup e w) = LiveStream.tasks w
  /\ LiveStream.requests (LiveStream.cleanup e w) = LiveStream.requests w
  /\ LiveStream.current_effect (LiveStream.cleanup e w) = LiveStream.current_effect w.
Proof.
  destruct w as [m i [url z st msg [v cv] pcr sr] ce ps es ts rs cs].
  unfold LiveStream.cleanup. destruct pcr, v; cbn -[alter]; repeat split.
Qed.

Lemma ontrack_handler_lists (e : nat) (streams : list MediaStream) (w : LiveStream.World) :
  LiveStream.effects (LiveStream.ontrack_handler e streams w) = LiveStream.effects w
  /\ LiveStream.tasks (LiveStream.ontrack_handler e streams w) = LiveStream.tasks w
  /\ LiveStream.requests (LiveStream.ontrack_handler e streams w) = LiveStream.requests w.
Proof.
  destruct w as [m i [url z st msg [v cv] pcr sr] ce ps es ts rs cs].
  unfold LiveStream.ontrack_handler, LiveStream.effect_isMounted. cbn -[lookup].
  destruct v, streams; try (repeat split; fail).
  cbn -[lookup]. destruct (es !! e) as [[? []]|]; repeat split.
Qed.

(** After the pending cleanup has run no effect run is mounted. *)
Lemma run_cleanup_unmounts (w : LiveStream.World) :
  one_mounted_effect w ->
  (forall e eff, LiveStream.effects (LiveStream.run_cleanup w) !! e = Some eff ->
                 LiveStream.isMounted eff = false)
  /\ LiveStream.mounted (LiveStream.run_cleanup w) = LiveStream.mounted w.
Proof.
  intros [H1 H2]. unfold LiveStream.run_cleanup.
  destruct (LiveStream.current_effect w) as [e0|] eqn:Hce.
  - destruct (cleanup_lists e0 w) as (He & _ & _ & _).
    pose proof (proj1 (cleanup_projections e0 w)) as Hm.
    assert (E1 : LiveStream.effects (LiveStream.set_current_effect None (LiveStream.cleanup e0 w))
                 = LiveStream.effects (LiveStream.cleanup e0 w))
      by (destruct (LiveStream.cleanup e0 w); reflexivity).
    assert (E2 : LiveStream.mounted (LiveStream.set_current_effect None (LiveStream.cleanup e0 w))
                 = LiveStream.mounted (LiveStream.cleanup e0 w))
      by (destruct (LiveStream.cleanup e0 w); reflexivity).
    rewrite E1, E2, He. split; [|exact Hm].
    intros e eff Hl. rewrite list_lookup_alter in Hl.
    destruct (decide (e0 = e)) as [->|Hne].
    + destruct (LiveStream.effects w !! e); [|discriminate]. cbn in Hl.
      now injection Hl as <-.
    + destruct (LiveStream.isMounted eff) eqn:Hm'; [|reflexivity].
      specialize (H1 e eff Hl Hm'). congruence.
  - split; [|reflexivity]. intros e eff Hl.
    destruct (LiveStream.isMounted eff) eqn:Hm'; [|reflexivity].
    specialize (H1 e eff Hl Hm'). congruence.
Qed.

(** The effect callback mounts one new run and makes it the current one. *)
Lemma run_effect_mounts (w : LiveStream.World) :
  (forall e eff, LiveStream.effects w !! e = Some eff -> LiveStream.isMounted eff = false) ->
  LiveStream.mounted w = true ->
  one_mounted_effect (LiveStream.run_effect w).
Proof.
  intros Hes Hm. unfold LiveStream.run_effect.
  match goal with
  | |- one_mounted_effect (LiveStream.startStream ?e ?w2) =>
      destruct (startStream_lists e w2) as (He & _ & _);
      destruct (startStream_projections e w2) as (Hm2 & Hce2)
  end.
  split.
  - intros e eff. rewrite He, Hce2. destruct w. cbn in *. intros Hl Hmounted.
    apply lookup_snoc_inv in Hl as [Hl|[-> _]]; [|reflexivity].
    rewrite (Hes e eff Hl) in Hmounted. discriminate.
  - rewrite Hm2. destruct w. cbn in *. congruence.
Qed.

Lemma one_mounted_effect_step (B : Browser) (w : LiveStream.World) (ev : LiveStream.Event) :
  one_mounted_effect w -> one_mounted_effect (LiveStream.step B w ev).
Proof.
  intros Hw.
  assert (Hframe : forall w', LiveStream.effects w' = LiveStream.effects w ->
                              LiveStream.current_effect w' = LiveStream.current_effect w ->
                              LiveStream.mounted w' = LiveStream.mounted w ->
                              one_mounted_effect w').
  { intros w' He Hce Hm. destruct Hw as [H1 H2]. split.
    - rewrite He, Hce. exact H1.
    - rewrite Hm, Hce. exact H2. }
  destruct ev as [url video|url| |t r|pc streams| |]; cbn [LiveStream.step].
  - (* Mount *)
    destruct (LiveStream.mounted w) eqn:Hm; [exact Hw|].
    apply run_effect_mounts; [|destruct w; reflexivity].
    intros e eff Hl. destruct (LiveStream.isMounted eff) eqn:Hm'; [|reflexivity].
    destruct Hw as [H1 H2]. destruct w. cbn in *.
    specialize (H1 e eff Hl Hm'). specialize (H2 Hm). congruence.
  - (* SetStreamUrl *)
    destruct (LiveStream.mounted w) eqn:Hm; [|exact Hw]. cbn [negb].
    destruct (String.eqb url _); [exact Hw|].
    set (w1 := LiveStream.on_component (LiveStream.set_streamUrl url) w).
    assert (H1 : one_mounted_effect w1) by (destruct w; exact Hw).
    destruct (run_cleanup_unmounts w1 H1) as [Hes Hm1].
    apply run_effect_mounts; [exact Hes|]. rewrite Hm1. destruct w. exact Hm.
  - (* Unmount *)
    destruct (LiveStream.mounted w) eqn:Hm; [|exact Hw]. cbn [negb]. cbv zeta.
    set (w1 := LiveStream.on_component
                 (fun c => LiveStream.set_refs (set_videoRef None (LiveStream.refs c)) c) w).
    assert (H1 : one_mounted_effect w1) by (destruct w; exact Hw).
    destruct (run_cleanup_unmounts w1 H1) as [Hes _].
    assert (Hce : LiveStream.current_effect (LiveStream.run_cleanup w1) = None).
    { unfold LiveStream.run_cleanup. destruct (LiveStream.current_effect w1) as [e|] eqn:E.
      - destruct (LiveStream.cleanup e w1). reflexivity.
      - exact E. }
    destruct (LiveStream.run_cleanup w1). cbn in *. split; cbn.
    + intros e eff Hl Hm'. rewrite (Hes e eff Hl) in Hm'. discriminate.
    + intros _. exact Hce.
  - (* Resume *)
    destruct (resume_view B t r w) as (Hm & Hce & _ & _).
    apply Hframe; try assumption.
    destruct (resume_cases B t r w) as [->|(task & a & _ & _ & He & _)]; auto.
  - (* Track *)
    destruct (LiveStream.peers w !! pc) as [p|]; [|exact Hw].
    destruct (LiveStream.closed p); [exact Hw|].
    destruct (LiveStream.ontrack p) as [e|]; [|exact Hw].
    destruct (LiveStream.effects w !! e) as [eff|] eqn:E; [|exact Hw].
    destruct (Nat.eqb _ _); [|exact Hw].
    destruct (ontrack_handler_view e streams w) as (Hm & Hce & _ & _).
    destruct (ontrack_handler_lists e streams w) as (He & _ & _).
    now apply Hframe.
  - destruct (LiveStream.mounted w && _); [|exact Hw].
    apply Hframe; destruct w; reflexivity.
  - destruct (LiveStream.mounted w && _); [|exact Hw].
    apply Hframe; destruct w; reflexivity.
Qed.

(** X4: whatever happens to the page, an effect run whose [isMounted] is
    still true is the current run of a mounted component: at most one
    negotiation at a time can set the status or the error message. *)
Theorem mounted_effect_is_current (B : Browser) (evs : list LiveStream.Event)
    (e : nat) (eff : LiveStream.Effect) :
  let w := LiveStream.run B LiveStream.blank evs in
  LiveStream.effects w !! e = Some eff -> LiveStream.isMounted eff = true ->
  LiveStream.current_effect w = Some e /\ LiveStream.mounted w = true.
Proof.
  cbv zeta. intros Hl Hm.
  assert (H : one_mounted_effect (LiveStream.run B LiveStream.blank evs)).
  { apply run_invariant.
    - split; [intros e0 eff0 H0; destruct e0; discriminate | reflexivity].
    - intros w ev. apply one_mounted_effect_step. }
  destruct H as [H1 H2]. specialize (H1 e eff Hl Hm). split; [exact H1|].
  destruct (LiveStream.mounted _); [reflexivity|]. rewrite H2 in H1 by reflexivity.
  discriminate.
Qed.

(** After a change of URL the second effect run is the mounted one. *)
Lemma mounted_effect_is_current_witness :
  let w := LiveStream.run full_browser LiveStream.blank
             (offer_sent ++ [LiveStream.SetStreamUrl other_url]) in
  LiveStream.current_effect w = Some 1%nat /\ LiveStream.mounted w = true.
Proof.
  refine (mounted_effect_is_current full_browser
            (offer_sent ++ [LiveStream.SetStreamUrl other_url]) 1
            {| LiveStream.eff_instance := 1; LiveStream.isMounted := true |} _ _);
    reflexivity.
Defined.







Lemma is_whep_post_mono (ts ts' : list LiveStream.Task) (r : LiveStream.Request) :
  (forall t task, ts !! t = Some task ->
                  exists task', ts' !! t = Some task'
                                /\ LiveStream.task_url task' = LiveStream.task_url task) ->
  is_whep_post ts r -> is_whep_post ts' r.
Proof.
  intros H (Hm & Hh & t & task & Hl & Hu). split; [exact Hm|]. split; [exact Hh|].
  destruct (H t task Hl) as (task' & Hl' & Hu'). exists t, task'. split; congruence.
Qed.

Lemma set_task_at_keeps_url (a : LiveStream.Await) (t : nat) (ts : list LiveStream.Task) :
  forall t0 task, ts !! t0 = Some task ->
    exists task', alter (LiveStream.set_task_at a) t ts !! t0 = Some task'
                  /\ LiveStream.task_url task' = LiveStream.task_url task.
Proof.
  intros t0 task Hl. rewrite list_lookup_alter. destruct (decide (t = t0)) as [->|Hne].
  - rewrite Hl. cbn. eexists. split; [reflexivity|]. now destruct task.
  - eauto.
Qed.

Lemma posted_count_alter (a : LiveStream.Await) (ts : list LiveStream.Task) :
  forall t task, ts !! t = Some task ->
    (length (List.filter posted (alter (LiveStream.set_task_at a) t ts))
     + (if posted task then 1 else 0)
     = length (List.filter posted ts) + (if posted_stage a then 1 else 0))%nat.
Proof.
  induction ts as [|x ts IH]; intros t task Hl; [destruct t; discriminate|].
  destruct t as [|t]; cbn in Hl.
  - injection Hl as ->. cbn. unfold posted at 1. destruct task as [? ? ? st]. cbn.
    unfold posted. cbn. destruct (posted_stage a), (posted_stage st); cbn; lia.
  - cbn. specialize (IH t task Hl). destruct (posted x); cbn; lia.
Qed.

Lemma whep_requests_step (B : Browser) (w : LiveStream.World) (ev : LiveStream.Event) :
  whep_requests w -> whep_requests (LiveStream.step B w ev).
Proof.
  intros Hw.
  assert (Hframe : forall w', LiveStream.tasks w' = LiveStream.tasks w ->
                              LiveStream.requests w' = LiveStream.requests w ->
                              whep_requests w').
  { intros w' Ht Hr. unfold whep_requests. now rewrite Ht, Hr. }
  assert (Hstart : forall e w', LiveStream.tasks w' = LiveStream.tasks w ->
                                LiveStream.requests w' = LiveStream.requests w ->
                                whep_requests (LiveStream.startStream e w')).
  { intros e w' Ht Hr. destruct (startStream_lists e w') as (_ & Hr' & [Ht'|(task & Ht' & Ha & _)]).
    - apply Hframe; congruence.
    - destruct Hw as [H1 H2]. unfold whep_requests. rewrite Hr', Hr, Ht', Ht. split.
      + eapply Forall_impl; [exact H1|]. intros r. apply is_whep_post_mono.
        intros t0 task0 Hl. exists task0. split; [|reflexivity].
        now apply lookup_app_l_Some.
      + rewrite List.filter_app, length_app. lia. }
  destruct ev as [url video|url| |t r|pc streams| |]; cbn [LiveStream.step].
  - (* Mount *)
    destruct (LiveStream.mounted w); [exact Hw|].
    unfold LiveStream.run_effect. apply Hstart; destruct w; reflexivity.
  - (* SetStreamUrl *)
    destruct (LiveStream.mounted w); [|exact Hw]. cbn [negb].
    destruct (String.eqb url _); [exact Hw|].
    unfold LiveStream.run_effect.
    assert (Hc : LiveStream.tasks (LiveStream.run_cleanup
                   (LiveStream.on_component (LiveStream.set_streamUrl url) w))
                 = LiveStream.tasks w
                 /\ LiveStream.requests (LiveStream.run_cleanup
                      (LiveStream.on_component (LiveStream.set_streamUrl url) w))
                    = LiveStream.requests w).
    { unfold LiveStream.run_cleanup.
      destruct (LiveStream.current_effect _) as [e|]; [|destruct w; split; reflexivity].
      match goal with
      | |- context [LiveStream.cleanup e ?w1] =>
          destruct (cleanup_lists e w1) as (_ & Ht & Hr & _);
            destruct (LiveStream.cleanup e w1)
      end. cbn in *. rewrite Ht, Hr. destruct w; split; reflexivity. }
    destruct Hc as [Ht Hr].
    apply Hstart; match goal with
                  | |- _ (LiveStream.set_current_effect _ (LiveStream.on_effects _ ?w1)) = _ =>
                      destruct w1; cbn in *; assumption
                  end.
  - (* Unmount *)
    destruct (LiveStream.mounted w); [|exact Hw]. cbn [negb]. cbv zeta.
    set (w1 := LiveStream.on_component
                 (fun c => LiveStream.set_refs (set_videoRef None (LiveStream.refs c)) c) w).
    assert (Ht1 : LiveStream.tasks w1 = LiveStream.tasks w) by (destruct w; reflexivity).
    assert (Hr1 : LiveStream.requests w1 = LiveStream.requests w) by (destruct w; reflexivity).
    unfold LiveStream.run_cleanup.
    destruct (LiveStream.current_effect w1) as [e|];
      [|apply Hframe; destruct w1; assumption].
    destruct (cleanup_lists e w1) as (_ & Ht & Hr & _).
    destruct (LiveStream.cleanup e w1). apply Hframe; cbn in *; congruence.
  - (* Resume *)
    destruct (resume_cases B t r w)
      as [->|(task & a & Hl & Ht & _ & [[Hr Hp]|(offer & Ha & _ & Hr & Hp)])]; [exact Hw| |].
    + destruct Hw as [H1 H2]. unfold whep_requests. rewrite Ht, Hr. split.
      * eapply Forall_impl; [exact H1|]. intros r0. apply is_whep_post_mono.
        apply set_task_at_keeps_url.
      * pose proof (posted_count_alter a _ t task Hl) as Hc.
        destruct (posted task); [rewrite Hp in Hc by reflexivity; lia|].
        destruct (posted_stage a); lia.
    + destruct Hw as [H1 H2]. unfold whep_requests. rewrite Ht, Hr. split.
      * apply Forall_app. split.
        -- eapply Forall_impl; [exact H1|]. intros r0. apply is_whep_post_mono.
           apply set_task_at_keeps_url.
        -- constructor; [|constructor]. split; [reflexivity|]. split; [reflexivity|].
           destruct (set_task_at_keeps_url a t _ t task Hl) as (task' & Hl' & Hu).
           exists t, task'. split; [exact Hl'|exact Hu].
      * pose proof (posted_count_alter a _ t task Hl) as Hc.
        unfold posted in Hc at 2. rewrite Ha, Hp in Hc. cbn in Hc.
        rewrite length_app. cbn. lia.
  - (* Track *)
    destruct (LiveStream.peers w !! pc) as [p|]; [|exact Hw].
    destruct (LiveStream.closed p); [exact Hw|].
    destruct (LiveStream.ontrack p) as [e|]; [|exact Hw].
    destruct (LiveStream.effects w !! e) as [eff|]; [|exact Hw].
    destruct (Nat.eqb _ _); [|exact Hw].
    destruct (ontrack_handler_lists e streams w) as (_ & Ht & Hr). now apply Hframe.
  - destruct (LiveStream.mounted w && _); [|exact Hw]. apply Hframe; destruct w; reflexivity.
  - destruct (LiveStream.mounted w && _); [|exact Hw]. apply Hframe; destruct w; reflexivity.
Qed.

(** X5: whatever happens to the page, every request the component has
    sent is a POST to the URL of one of its negotiations whose only
    header is Content-Type: application/sdp, and there are never more
    requests than negotiations. *)
Theorem requests_are_whep_posts (B : Browser) (evs : list LiveStream.Event) :
  let w := LiveStream.run B LiveStream.blank evs in
  Forall (is_whep_post (LiveStream.tasks w)) (LiveStream.requests w)
  /\ length (LiveStream.requests w) <= length (LiveStream.tasks w).
Proof.
  cbv zeta.
  assert (H : whep_requests (LiveStream.run B LiveStream.blank evs)).
  { apply run_invariant.
    - split; [constructor | cbn; lia].
    - intros w ev. apply whep_requests_step. }
  destruct H as [H1 H2]. split; [exact H1|].
  etransitivity; [exact H2|]. apply List.filter_length_le.
Qed.

(** X6: an empty endpoint URL tears the session down and starts nothing.
    When the URL of a mounted component changes to the empty string, the
    connection behind [pcRef] is closed, no peer connection is made, no
    negotiation is started and no request is sent; the status is not
    touched, so it stays what it was (even [connected]). *)
Theorem empty_url_starts_nothing (B : Browser) (evs : list LiveStream.Event) :
  let w := LiveStream.run B LiveStream.blank evs in
  LiveStream.mounted w = true ->
  LiveStream.streamUrl (LiveStream.component w) <> "" ->
  let w' := LiveStream.step B w (LiveStream.SetStreamUrl "") in
  LiveStream.tasks w' = LiveStream.tasks w
  /\ LiveStream.requests w' = LiveStream.requests w
  /\ length (LiveStream.peers w') = length (LiveStream.peers w)
  /\ (forall p pc, LiveStream.peers w' !! p = Some pc -> negotiating pc = false)
  /\ LiveStream.connectionStatus (LiveStream.component w')
     = LiveStream.connectionStatus (LiveStream.component w)
  /\ LiveStream.streamUrl (LiveStream.component w') = "".
Proof.
  cbv zeta. intros Hm Hurl.
  pose proof (one_session_always B evs) as Hone.
  set (w := LiveStream.run B LiveStream.blank evs) in *.
  cbn [LiveStream.step]. rewrite Hm. cbn [negb].
  assert (Hne : String.eqb "" (LiveStream.streamUrl (LiveStream.component w)) = false)
    by (apply String.eqb_neq; congruence).
  rewrite Hne.
  set (w1 := LiveStream.on_component (LiveStream.set_streamUrl "") w).
  assert (H1 : one_session w1).
  { apply (one_session_view w); try (destruct w as [? ? [] ? ? ? ? ? ?]; reflexivity);
      [|exact Hone].
    destruct w as [? ? [] ? ? ? ? ? ?]. cbn. eauto. }
  assert (Hm1 : LiveStream.mounted w1 = true) by (destruct w as [? ? [] ? ? ? ? ? ?]; exact Hm).
  destruct (run_cleanup_quiet w1 H1 Hm1) as [Hq _].
  destruct (run_cleanup_component w1) as [rf Hc].
  assert (Hl : LiveStream.tasks (LiveStream.run_cleanup w1) = LiveStream.tasks w
               /\ LiveStream.requests (LiveStream.run_cleanup w1) = LiveStream.requests w
               /\ length (LiveStream.peers (LiveStream.run_cleanup w1))
                  = length (LiveStream.peers w)).
  { unfold LiveStream.run_cleanup.
    destruct (LiveStream.current_effect w1) as [e|];
      [|subst w1; destruct w; repeat split].
    destruct (cleanup_lists e w1) as (_ & Ht & Hr & _).
    assert (Hp : length (LiveStream.peers (LiveStream.cleanup e w1))
                 = length (LiveStream.peers w)).
    { subst w1. destruct w as [m i [url z st msg [v cv] pcr sr] ce ps es ts rs cs].
      unfold LiveStream.cleanup. destruct pcr, v; cbn -[alter]; now rewrite ?length_alter. }
    destruct (LiveStream.cleanup e w1). cbn in *. rewrite Ht, Hr, Hp.
    subst w1. destruct w. repeat split. }
  destruct Hl as (Ht & Hr & Hp).
  unfold LiveStream.run_effect.
  rewrite LiveStreamFacts.startStream_empty.
  2:{ destruct (LiveStream.run_cleanup w1) as [? ? c ? ? ? ? ? ?]. cbn in *. subst c.
      subst w1. destruct w as [? ? [] ? ? ? ? ? ?]. reflexivity. }
  unfold quiet in Hq.
  destruct (LiveStream.run_cleanup w1) as [? ? c ? ? ? ? ? ?]. cbn in *. subst c.
  split; [exact Ht|]. split; [exact Hr|]. split; [exact Hp|]. split; [exact Hq|].
  subst w1. destruct w as [? ? [] ? ? ? ? ? ?]. split; reflexivity.
Qed.

(** The connected component of the scenario [streaming], given an empty
    URL: its connection is closed and its status still reads connected. *)
Lemma empty_url_starts_nothing_witness :
  let w := LiveStream.run full_browser LiveStream.blank streaming in
  let w' := LiveStream.step full_browser w (LiveStream.SetStreamUrl "") in
  LiveStream.tasks w' = LiveStream.tasks w
  /\ LiveStream.connectionStatus (LiveStream.component w') = LiveStream.connected
  /\ LiveStream.is_open w' 0 = false.
Proof.
  destruct (empty_url_starts_nothing full_browser streaming) as (Ht & _ & _ & _ & Hs & _).
  - reflexivity.
  - discriminate.
  - split; [exact Ht|]. split; [exact Hs | reflexivity].
Defined.

(** ** Frame capture, again *)

(** Without a 2D context the capture canvas is left resized and blank. *)
Lemma captureFrame_no_context_state (B : Browser) (r : CaptureRefs) (v : HTMLVideoElement) :
  videoRef r = Some v -> videoWidth v <> 0%N ->
  context2d (capture_canvas B r) = false ->
  captureFrame B r
  = (Js.Normal None,
     set_canvasRef
       (Some (set_canvas_height (videoHeight v)
                (set_canvas_width (videoWidth v) (capture_canvas B r)))) r).
Proof.
  intros Hv Hw Hc. destruct r as [vr cr]. cbn in Hv, Hc. subst vr.
  apply N.eqb_neq in Hw.
  unfold captureFrame, Js.bind, Js.gets, Js.truthy_N. cbn. rewrite Hw. cbn.
  destruct cr as [c|]; cbn in *; rewrite Hc; reflexivity.
Qed.

(** X7: [captureFrame] reuses its canvas: a second call on an unchanged
    video returns what the first returned and leaves the refs as the first
    left them, and no call touches [videoRef]. *)
Theorem captureFrame_idempotent (B : Browser) (r : CaptureRefs) :
  captureFrame B (snd (captureFrame B r)) = captureFrame B r
  /\ videoRef (snd (captureFrame B r)) = videoRef r.
Proof.
  destruct (videoRef r) as [v|] eqn:Hv.
  - destruct (N.eq_dec (videoWidth v) 0%N) as [Hw|Hw].
    + rewrite (captureFrame_no_frame B r v Hv Hw). cbn [snd].
      rewrite (captureFrame_no_frame B r v Hv Hw). split; [reflexivity | exact Hv].
    + destruct (context2d (capture_canvas B r)) eqn:Hc.
      * rewrite (captureFrame_frame B r v Hv Hw Hc). cbn [snd].
        assert (Hv1 : videoRef (set_canvasRef (Some (captured v)) r) = Some v)
          by (destruct r; exact Hv).
        rewrite (captureFrame_frame B _ v Hv1 Hw eq_refl).
        destruct r. split; [reflexivity | exact Hv].
      * rewrite (captureFrame_no_context_state B r v Hv Hw Hc). cbn [snd].
        set (c1 := set_canvas_height (videoHeight v)
                     (set_canvas_width (videoWidth v) (capture_canvas B r))).
        assert (Hv1 : videoRef (set_canvasRef (Some c1) r) = Some v)
          by (destruct r; exact Hv).
        assert (Hc1 : context2d (capture_canvas B (set_canvasRef (Some c1) r)) = false)
          by (destruct r; exact Hc).
        rewrite (captureFrame_no_context_state B _ v Hv1 Hw Hc1).
        destruct r. split; [reflexivity | exact Hv].
  - rewrite (captureFrame_no_element B r Hv). cbn [snd].
    rewrite (captureFrame_no_element B r Hv). split; [reflexivity | exact Hv].
Qed.

(** ** The host: captures, failures, retention *)

Module AppMore.
Import App.

(** [handleToggleRecording] never touches the galleries, the detections
    or the object URLs. *)
Lemma toggle_frame (B : Browser) (s : State) :
  let s' := step B s ClickToggleRecording in
  recordedVideos s' = recordedVideos s
  /\ capturedImages s' = capturedImages s
  /\ objectURLs s' = objectURLs s
  /\ detectedRisks s' = detectedRisks s.
Proof.
  destruct s as [rec dr ci rv ch mref chunks t0 rs urls ts cs t].
  cbn [step]. unfold handleToggleRecording, construct_MediaRecorder. AppFacts.js_unfold.
  cbn -[alter lookup webm_vp9 LiveStream.getStream mbind].
  destruct rec; cbn -[alter lookup webm_vp9 LiveStream.getStream mbind].
  - destruct mref as [r|]; [|repeat split].
    destruct (rs !! r) as [mr|]; [|repeat split].
    destruct (state mr); repeat split.
  - destruct (ch ≫= LiveStream.getStream) as [stream|];
      cbn -[alter lookup webm_vp9]; [|repeat split].
    destruct (isTypeSupported B webm_vp9); cbn -[alter lookup webm_vp9]; repeat split.
Qed.


(** What a click on Capture does, by what the child returns. *)
Lemma capture_step (B : Browser) (s : State) :
  exists frame child',
    child_captureFrame B s = (Js.Normal frame, set_liveStreamRef child' s)
    /\ step B s ClickCapture
       = match frame with
         | Some url =>
             if Js.truthy_string url
             then set_toasts (toasts s ++ [captured_toast s])
                    (set_capturedImages (new_capture s url :: firstn 4 (capturedImages s))
                       (set_liveStreamRef child' s))
             else set_toasts (toasts s ++ [capture_failed_toast]) (set_liveStreamRef child' s)
         | None => set_toasts (toasts s ++ [capture_failed_toast]) (set_liveStreamRef child' s)
         end.
Proof.
  destruct (AppFacts.child_captureFrame_total B s) as (frame & child' & E).
  exists frame, child'. split; [exact E|].
  cbn [step]. unfold handleCapture. AppFacts.js_unfold. rewrite E.
  destruct s as [rec dr ci rv ch mref chunks t0 rs urls ts cs t].
  destruct frame as [url|]; [destruct (Js.truthy_string url)|]; reflexivity.
Qed.

(** The galleries after one event: a gallery is as before, or has a new
    head over its first four. *)
Lemma step_galleries (B : Browser) (s : State) (ev : Event) :
  (recordedVideos (step B s ev) = recordedVideos s
   \/ exists rec video, ev = Stopped rec
        /\ recordedVideos (step B s ev) = video :: firstn 4 (recordedVideos s))
  /\ (capturedImages (step B s ev) = capturedImages s
      \/ exists capture, ev = ClickCapture
           /\ capturedImages (step B s ev) = capture :: firstn 4 (capturedImages s)).
Proof.
  destruct ev as [| |risks|c|ms|rec data|rec].
  - destruct (toggle_frame B s) as (H1 & H2 & _). split; left; assumption.
  - destruct (capture_step B s) as (frame & child' & _ & E). rewrite E.
    destruct s as [r dr ci rv ch mref chunks t0 rs urls ts cs t].
    destruct frame as [url|]; [destruct (Js.truthy_string url)|];
      (split; [left; reflexivity|]); first [left; reflexivity | right; eexists; split; reflexivity].
  - destruct s; split; left; reflexivity.
  - destruct s; split; left; reflexivity.
  - destruct s; split; left; reflexivity.
  - cbn [step]. destruct (recorders s !! rec) as [mr|]; [|split; left; reflexivity].
    destruct (ondataavailable mr); [|split; left; reflexivity].
    unfold ondataavailable_handler.
    destruct (Nat.ltb 0 (size data)); destruct s; split; left; reflexivity.
  - destruct (recorders s !! rec) as [mr|] eqn:Hmr.
    + destruct (onstop mr) as [k|] eqn:Hk.
      * destruct (AppFacts.stopped B s rec mr k Hmr Hk) as (th & child' & E). rewrite E.
        destruct s as [r dr ci rv ch mref chunks t0 rs urls ts cs t].
        split; [right; do 2 eexists; split; reflexivity | left; reflexivity].
      * cbn [step]. rewrite Hmr, Hk. split; left; reflexivity.
    + cbn [step]. rewrite Hmr. split; left; reflexivity.
Qed.

(** A click on Record with a stream, in a browser that does not support
    the container type. *)
Lemma start_unsupported (B : Browser) (s : State)
    (child : LiveStream.Component) (stream : MediaStream) :
  isRecording s = false ->
  liveStreamRef s = Some child -> LiveStream.getStream child = Some stream ->
  isTypeSupported B webm_vp9 = false ->
  step B s ClickToggleRecording
  = set_toasts (toasts s ++ [recording_failed_toast])
      (set_console (console s ++ ["Error starting recording:"])
         (set_recordingStartTimeRef (now s)
            (set_recordedChunksRef [] s))).
Proof.
  intros Hrec Hchild Hstream Hsup.
  destruct s as [rec dr ci rv ch mr chunks t0 rs urls ts cs t].
  cbn in Hrec, Hchild. subst rec ch.
  cbn [step]. unfold handleToggleRecording, construct_MediaRecorder.
  AppFacts.js_unfold.
  cbn -[alter webm_vp9]. rewrite Hstream. cbn -[alter webm_vp9]. rewrite Hsup.
  reflexivity.
Qed.

Lemma length_head_firstn {A} (a : A) (l : list A) : length (a :: firstn 4 l) <= 5.
Proof. cbn [length]. rewrite length_firstn. lia. Qed.

Lemma host_run_snoc (B : Browser) (s : State) (evs : list Event) (ev : Event) :
  run B s (evs ++ [ev]) = step B (run B s evs) ev.
Proof. unfold run. rewrite fold_left_app. reflexivity. Qed.

End AppMore.

(** X8.  Retention: however the host is driven from its initial state,
    neither gallery ever holds more than five entries. *)
Theorem galleries_hold_five (B : Browser) (t : Z) (evs : list App.Event) :
  length (App.capturedImages (App.run B (App.initial t) evs)) <= 5
  /\ length (App.recordedVideos (App.run B (App.initial t) evs)) <= 5.
Proof.
  induction evs as [|ev evs IH] using rev_ind.
  - cbn. lia.
  - rewrite AppMore.host_run_snoc.
    destruct (AppMore.step_galleries B (App.run B (App.initial t) evs) ev)
      as [[Hv|(rec & video & _ & Hv)] [Hc|(capture & _ & Hc)]];
      rewrite Hv, Hc; destruct IH as [IHc IHv];
      split; first [assumption | apply AppMore.length_head_firstn].
Qed.

(** X10.  Capture with no frame to take: when the live stream is not
    mounted, has no video element or has decoded nothing yet, a click on
    Capture shows the error toast and changes nothing else. *)
Theorem capture_without_frame (B : Browser) (s : App.State) :
  no_frame s ->
  App.step B s App.ClickCapture
  = App.set_toasts (App.toasts s ++ [capture_failed_toast]) s.
Proof.
  unfold no_frame. intros H.
  cbn [App.step]. unfold App.handleCapture, App.child_captureFrame. AppFacts.js_unfold.
  destruct s as [rec dr ci rv ch mref chunks t0 rs urls ts cs t].
  cbn [App.liveStreamRef] in *.
  destruct ch as [child|]; [|reflexivity].
  unfold LiveStream.captureFrame.
  destruct child as [url z st msg rf pcr sr]. cbn [LiveStream.refs] in *.
  destruct (videoRef rf) as [v|] eqn:Hv.
  - rewrite (captureFrame_no_frame B rf v Hv H). reflexivity.
  - rewrite (captureFrame_no_element B rf Hv). reflexivity.
Qed.

Lemma capture_without_frame_witness :
  App.step full_browser (App.initial 0) App.ClickCapture
  = App.set_toasts (App.toasts (App.initial 0) ++ [capture_failed_toast]) (App.initial 0).
Proof.
  apply (capture_without_frame full_browser (App.initial 0)). exact I.
Defined.

(** X11.  Capture of a frame: when the live stream's video has decoded a
    frame, a 2d context is available and the encoder gives a non-empty
    data URL, a click on Capture puts at the head of the gallery the
    encoded frame with the current detections, keeps the first four of
    the older captures behind it and shows the success toast. *)
Theorem capture_with_frame (B : Browser) (s : App.State)
    (child : LiveStream.Component) (v : HTMLVideoElement) :
  App.liveStreamRef s = Some child ->
  videoRef (LiveStream.refs child) = Some v ->
  videoWidth v <> 0%N ->
  context2d (capture_canvas B (LiveStream.refs child)) = true ->
  toDataURL B (captured v) "image/jpeg" (95 # 100) <> "" ->
  let s' := App.step B s App.ClickCapture in
  App.capturedImages s'
  = new_capture s (toDataURL B (captured v) "image/jpeg" (95 # 100))
      :: firstn 4 (App.capturedImages s)
  /\ App.toasts s' = App.toasts s ++ [captured_toast s]
  /\ App.recordedVideos s' = App.recordedVideos s
  /\ App.isRecording s' = App.isRecording s.
Proof.
  intros Hch Hv Hw Hc Hurl s'. subst s'.
  cbn [App.step]. unfold App.handleCapture, App.child_captureFrame. AppFacts.js_unfold.
  destruct s as [rec dr ci rv ch mref chunks t0 rs urls ts cs t].
  cbn [App.liveStreamRef] in *. subst ch.
  unfold LiveStream.captureFrame.
  rewrite (captureFrame_frame B _ v Hv Hw Hc).
  apply String.eqb_neq in Hurl. unfold Js.truthy_string. rewrite Hurl.
  repeat split.
Qed.

Lemma capture_with_frame_witness :
  App.capturedImages (App.step full_browser ready_host App.ClickCapture)
  = new_capture ready_host (toDataURL full_browser (captured sample_video) "image/jpeg" (95 # 100))
      :: firstn 4 (App.capturedImages ready_host).
Proof.
  apply (capture_with_frame full_browser ready_host live_child sample_video);
    first [reflexivity | discriminate].
Defined.

(** X12.  A recorder that cannot be built: when a stream is there but the
    browser does not support the container type, the click on Record logs
    the error, shows the failure toast and leaves the host not recording,
    with no recorder made and [mediaRecorderRef] as it was; the chunk
    list has been emptied and the start time set before the failure. *)
Theorem recorder_unsupported (B : Browser) (s : App.State)
    (child : LiveStream.Component) (stream : MediaStream) :
  App.isRecording s = false ->
  App.liveStreamRef s = Some child -> LiveStream.getStream child = Some stream ->
  isTypeSupported B App.webm_vp9 = false ->
  App.step B s App.ClickToggleRecording
  = App.set_toasts (App.toasts s ++ [recording_failed_toast])
      (App.set_console (App.console s ++ ["Error starting recording:"])
         (App.set_recordingStartTimeRef (App.now s)
            (App.set_recordedChunksRef [] s))).
Proof. exact (AppMore.start_unsupported B s child stream). Qed.

Lemma recorder_unsupported_witness :
  App.step recorderless_browser ready_host App.ClickToggleRecording
  = App.set_toasts (App.toasts ready_host ++ [recording_failed_toast])
      (App.set_console (App.console ready_host ++ ["Error starting recording:"])
         (App.set_recordingStartTimeRef (App.now ready_host)
            (App.set_recordedChunksRef [] ready_host))).
Proof.
  apply (recorder_unsupported recorderless_browser ready_host live_child 5%nat); reflexivity.
Defined.



(** ** The risk feed *)

Module DashboardFacts.
Import Dashboard.

Lemma worst_rank_cons (r : Risk) (risks : list Risk) :
  worst_rank (r :: risks) = Nat.max (severity_rank (severity r)) (worst_rank risks).
Proof. reflexivity. Qed.

(** The cascade of [some] picks the level of the worst severity. *)
Lemma alertLevel_worst (risks : list Risk) :
  alertLevel risks = level_of_rank (worst_rank risks).
Proof.
  induction risks as [|r risks IH]; [reflexivity|].
  rewrite worst_rank_cons. unfold alertLevel in *. cbn [existsb].
  set (c := existsb (fun r => severity_eqb (severity r) critical) risks) in *.
  set (h := existsb (fun r => severity_eqb (severity r) high) risks) in *.
  set (m := existsb (fun r => severity_eqb (severity r) medium) risks) in *.
  destruct (severity r), c, h, m; cbn [severity_eqb orb severity_rank] in *;
    destruct (worst_rank risks) as [|[|[|?]]]; try discriminate IH; reflexivity.
Qed.

Lemma head_filter_find {A} (f : A -> bool) (l : list A) :
  List.filter f l !! 0%nat = List.find f l.
Proof.
  induction l as [|a l IH]; [reflexivity|]. cbn. destruct (f a); [reflexivity | exact IH].
Qed.

Lemma find_high_worst (risks : list Risk) :
  List.find is_high_severity risks = None <-> worst_rank risks <= 1.
Proof.
  induction risks as [|r risks IH]; [cbn; split; [lia | reflexivity]|].
  rewrite worst_rank_cons. cbn [List.find]. unfold is_high_severity at 1.
  destruct (severity r); cbn [severity_eqb orb severity_rank];
    rewrite ?IH; split; intros H; try discriminate; lia.
Qed.

Lemma level_calm (n : nat) :
  level_of_rank n = "normal" \/ level_of_rank n = "elevated" <-> n <= 1.
Proof.
  destruct n as [|[|[|n]]]; cbn; split; intros H; try lia; auto;
    destruct H; discriminate.
Qed.

(** The effect on [currentRisks], by the first high or critical risk. *)
Lemma toast_effect_find (risks : list Risk) (s : State) :
  toast_effect risks s
  = (Js.Normal tt,
     match List.find is_high_severity risks with
     | Some r => toast_error (risk_toast r) s
     | None => s
     end).
Proof.
  unfold toast_effect. rewrite <- (head_filter_find is_high_severity risks).
  destruct (List.filter is_high_severity risks) as [|r rest]; reflexivity.
Qed.

(** [Math.floor(r * n)] for [r] in [0, 1) is an index below [n]. *)
Lemma floor_scaled (r : Q) (n : Z) :
  (0 <= r)%Q -> (r < 1)%Q -> (0 < n)%Z -> (0 <= Math_floor (r * inject_Z n) < n)%Z.
Proof.
  intros H0 H1 Hn. unfold Math_floor.
  assert (Hn' : (0 < inject_Z n)%Q) by (rewrite Zlt_Qlt in Hn; exact Hn).
  split.
  - change 0%Z with (Qfloor 0). apply Qfloor_resp_le.
    apply Qmult_le_0_compat; [exact H0 | apply Qlt_le_weak; exact Hn'].
  - rewrite Zlt_Qlt. apply Qle_lt_trans with (r * inject_Z n)%Q; [apply Qfloor_le|].
    assert (H : (r * inject_Z n < 1 * inject_Z n)%Q)
      by (apply Qmult_lt_compat_r; assumption).
    rewrite Qmult_1_l in H. exact H.
Qed.

Lemma item_in {A} (d : A) (a : list A) (i : Z) :
  (0 <= i < Z.of_nat (length a))%Z -> In (item d a i) a.
Proof.
  intros [H0 H1]. unfold item. destruct (Z.ltb_spec i 0); [lia|].
  apply nth_In. lia.
Qed.

(** The callback of [generateMockRisks]. *)
Lemma mock_risk_spec (i : nat) (e : Env) :
  exists r e',
    mock_risk i e = (Js.Normal r, e')
    /\ random e' = random e
    /\ id r = ("risk-" ++ string_of_nat i)%string
    /\ (unit_interval e -> plausible r).
Proof.
  destruct e as [rnd rc clk cc]. do 2 eexists. split; [reflexivity|].
  cbn [random random_calls clock clock_calls id risk_confidence type description].
  split; [reflexivity|]. split; [reflexivity|]. intros H. unfold plausible.
  cbn [random random_calls clock clock_calls id risk_confidence type description].
  assert (Hc : (0 <= Math_floor (rnd (S (S rc)) * 40) < 40)%Z).
  { destruct (H (S (S rc))) as [H0 H1]. exact (floor_scaled _ 40 H0 H1 eq_refl). }
  split; [lia|]. split.
  - destruct (H rc) as [H0 H1]. apply item_in. exact (floor_scaled _ 5 H0 H1 eq_refl).
  - destruct (H (S (S (S rc)))) as [H0 H1].
    apply item_in. exact (floor_scaled _ 5 H0 H1 eq_refl).
Qed.

Lemma unit_interval_transfer (e e' : Env) :
  random e' = random e -> unit_interval e -> unit_interval e'.
Proof. unfold unit_interval. intros -> H. exact H. Qed.

Lemma Array_from_spec (n : nat) : forall (i : nat) (e : Env),
  exists risks e',
    Array_from n i mock_risk e = (Js.Normal risks, e')
    /\ random e' = random e
    /\ map id risks = map (fun j => ("risk-" ++ string_of_nat j)%string) (seq i n)
    /\ (unit_interval e -> Forall plausible risks).
Proof.
  induction n as [|n IH]; intros i e.
  - exists [], e. cbn. auto.
  - destruct (mock_risk_spec i e) as (r & e1 & E1 & R1 & I1 & P1).
    destruct (IH (S i) e1) as (risks & e2 & E2 & R2 & I2 & P2).
    exists (r :: risks), e2. cbn [Array_from]. unfold Js.bind at 1. rewrite E1.
    unfold Js.bind at 1. rewrite E2. split; [reflexivity|].
    split; [congruence|]. split; [cbn [map seq]; congruence|].
    intros H. constructor; [auto|]. apply P2. exact (unit_interval_transfer e e1 R1 H).
Qed.

Lemma generateMockRisks_spec (e : Env) :
  exists risks e',
    generateMockRisks e = (Js.Normal risks, e')
    /\ random e' = random e
    /\ map id risks
       = map (fun j => ("risk-" ++ string_of_nat j)%string) (seq 0 (length risks))
    /\ (unit_interval e -> length risks <= 3 /\ Forall plausible risks).
Proof.
  unfold generateMockRisks, Js.bind, Math_random.
  match goal with
  | |- context [Array_from ?n 0 mock_risk ?e1] =>
      destruct (Array_from_spec n 0 e1) as (risks & e2 & E & R & I & P);
      assert (Hlen : length risks = n)
        by (apply (f_equal (@length _)) in I; rewrite !length_map, length_seq in I; exact I)
  end.
  exists risks, e2. rewrite E. split; [reflexivity|].
  split; [destruct e; exact R|]. split; [rewrite Hlen; exact I|].
  intros H. split.
  - rewrite Hlen. destruct (H (random_calls e)) as [H0 H1].
    assert (Hf : (0 <= Math_floor (random e (random_calls e) * 4) < 4)%Z)
      by exact (floor_scaled _ 4 H0 H1 eq_refl).
    lia.
  - apply P. destruct e. exact H.
Qed.

(** The callback of [generateDetectedRisks]. *)
Lemma detection_spec (risk : Risk) (e : Env) :
  exists d e',
    detection risk e = (Js.Normal d, e')
    /\ random e' = random e
    /\ overlay_of risk d
    /\ (unit_interval e -> in_frame d).
Proof.
  destruct e as [rnd rc clk cc]. do 2 eexists. split; [reflexivity|].
  split; [reflexivity|]. split; [repeat split|].
  intros H. unfold in_frame.
  cbn [x y width height random random_calls clock clock_calls].
  destruct (H rc) as [? ?], (H (S rc)) as [? ?], (H (S (S rc))) as [? ?],
    (H (S (S (S rc)))) as [? ?]. cbn [random] in *.
  repeat split; lra.
Qed.

Lemma generateDetectedRisks_spec (risks : list Risk) : forall e : Env,
  exists dets e',
    generateDetectedRisks risks e = (Js.Normal dets, e')
    /\ random e' = random e
    /\ Forall2 overlay_of risks dets
    /\ (unit_interval e -> Forall in_frame dets).
Proof.
  unfold generateDetectedRisks.
  induction risks as [|risk risks IH]; intros e.
  - exists [], e. cbn. repeat split; auto.
  - destruct (detection_spec risk e) as (d & e1 & E1 & R1 & O1 & F1).
    destruct (IH e1) as (dets & e2 & E2 & R2 & O2 & F2).
    exists (d :: dets), e2. cbn [Array_map]. unfold Js.bind at 1. rewrite E1.
    unfold Js.bind at 1. rewrite E2. split; [reflexivity|].
    split; [congruence|]. split; [constructor; assumption|].
    intros H. constructor; [auto|]. apply F2. exact (unit_interval_transfer e e1 R1 H).
Qed.

(** New risks and their overlays. *)
Lemma refresh_spec (s : State) :
  exists risks dets e',
    refresh s = (Js.Normal tt, setDetectedRisks dets (setCurrentRisks risks (set_env e' s)))
    /\ random e' = random (env s)
    /\ map id risks
       = map (fun j => ("risk-" ++ string_of_nat j)%string) (seq 0 (length risks))
    /\ Forall2 overlay_of risks dets
    /\ (unit_interval (env s) ->
        length risks <= 3 /\ Forall plausible risks /\ Forall in_frame dets).
Proof.
  destruct (generateMockRisks_spec (env s)) as (risks & e1 & E1 & R1 & I1 & P1).
  destruct (generateDetectedRisks_spec risks e1) as (dets & e2 & E2 & R2 & O2 & F2).
  exists risks, dets, e2.
  split.
  - unfold refresh, in_env, Js.bind, Js.modify. rewrite E1.
    destruct s as [cr dr td e ts]. cbn [env set_env setCurrentRisks] in *. rewrite E2.
    reflexivity.
  - split; [congruence|]. split; [exact I1|]. split; [exact O2|].
    intros H. destruct (P1 H) as [L P]. split; [exact L|]. split; [exact P|].
    apply F2. exact (unit_interval_transfer _ e1 R1 H).
Qed.

(** The state of the feed is well formed over the world [e], with the
    counter between [lo] and [hi]. *)
Lemma refreshed_fields (s : State) (risks : list Risk) (dets : list RiskDetection) (e' : Env) :
  currentRisks (setDetectedRisks dets (setCurrentRisks risks (set_env e' s))) = risks
  /\ detectedRisks (setDetectedRisks dets (setCurrentRisks risks (set_env e' s))) = dets
  /\ totalDetections (setDetectedRisks dets (setCurrentRisks risks (set_env e' s)))
     = totalDetections s
  /\ env (setDetectedRisks dets (setCurrentRisks risks (set_env e' s))) = e'
  /\ toasts (setDetectedRisks dets (setCurrentRisks risks (set_env e' s))) = toasts s.
Proof. destruct s. repeat split. Qed.

Lemma toast_effect_fields (risks : list Risk) (s : State) :
  let s' := snd (toast_effect risks s) in
  currentRisks s' = currentRisks s /\ detectedRisks s' = detectedRisks s
  /\ totalDetections s' = totalDetections s /\ env s' = env s.
Proof.
  rewrite toast_effect_find. cbn [snd].
  destruct (List.find is_high_severity risks); destruct s; repeat split.
Qed.

(** The tail of the interval callback: the counter may go up by one. *)
Lemma count_spec (s : State) :
  let s' := snd ((r <- in_env Math_random ;;
                  if negb (Qle_bool double_0_3 r)
                  then Js.modify (setTotalDetections (fun prev => (prev + 1)%Z))
                  else Js.ret tt)%js s) in
  currentRisks s' = currentRisks s /\ detectedRisks s' = detectedRisks s
  /\ random (env s') = random (env s)
  /\ (totalDetections s <= totalDetections s' <= totalDetections s + 1)%Z
  /\ toasts s' = toasts s.
Proof.
  destruct s as [cr dr td [rnd rc clk cc] ts].
  unfold in_env, Js.bind, Math_random, Js.modify, Js.ret. cbn -[Qle_bool double_0_3].
  destruct (negb (Qle_bool double_0_3 (rnd rc))); cbn; repeat split; lia.
Qed.

(** One firing of the interval. *)
Lemma on_interval_spec (s : State) :
  exists risks dets,
    currentRisks (snd (on_interval s)) = risks
    /\ detectedRisks (snd (on_interval s)) = dets
    /\ random (env (snd (on_interval s))) = random (env s)
    /\ (totalDetections s <= totalDetections (snd (on_interval s)) <= totalDetections s + 1)%Z
    /\ toasts (snd (on_interval s)) = toasts s
    /\ map id risks
       = map (fun j => ("risk-" ++ string_of_nat j)%string) (seq 0 (length risks))
    /\ Forall2 overlay_of risks dets
    /\ (unit_interval (env s) ->
        length risks <= 3 /\ Forall plausible risks /\ Forall in_frame dets).
Proof.
  destruct (refresh_spec s) as (risks & dets & e1 & E & R & I & O & P).
  exists risks, dets.
  pose proof (count_spec (setDetectedRisks dets (setCurrentRisks risks (set_env e1 s))))
    as (C1 & C2 & C3 & C4 & C5).
  assert (Hoi : on_interval s
                = (r <- in_env Math_random ;;
                   if negb (Qle_bool double_0_3 r)
                   then Js.modify (setTotalDetections (fun prev => (prev + 1)%Z))
                   else Js.ret tt)%js
                    (setDetectedRisks dets (setCurrentRisks risks (set_env e1 s)))).
  { unfold on_interval. unfold Js.bind at 1. rewrite E. reflexivity. }
  rewrite Hoi.
  destruct (refreshed_fields s risks dets e1) as (F1 & F2 & F3 & F4 & F5).
  rewrite F1 in C1. rewrite F2 in C2. rewrite F3 in C4. rewrite F4 in C3. rewrite F5 in C5.
  split; [exact C1|]. split; [exact C2|]. split; [congruence|]. split; [exact C4|].
  split; [exact C5|]. auto.
Qed.

Lemma after_S (e : Env) (n : nat) : after e (S n) = tick (after e n).
Proof. reflexivity. Qed.

(** What holds of the feed after the mount and any number of firings. *)
Lemma after_spec (e : Env) (n : nat) :
  let s := after e n in
  random (env s) = random e
  /\ (147 <= totalDetections s <= 147 + Z.of_nat n)%Z
  /\ map id (currentRisks s)
     = map (fun j => ("risk-" ++ string_of_nat j)%string) (seq 0 (length (currentRisks s)))
  /\ Forall2 overlay_of (currentRisks s) (detectedRisks s)
  /\ (unit_interval e ->
      length (currentRisks s) <= 3 /\ Forall plausible (currentRisks s)
      /\ Forall in_frame (detectedRisks s)).
Proof.
  induction n as [|n IH]; cbv zeta.
  - change (after e 0) with (mount e). unfold mount. cbv zeta.
    destruct (refresh_spec (initial e)) as (risks & dets & e1 & E & R & I & O & P).
    rewrite E. cbn [snd].
    destruct (refreshed_fields (initial e) risks dets e1) as (F1 & F2 & F3 & F4 & F5).
    set (s1 := setDetectedRisks dets (setCurrentRisks risks (set_env e1 (initial e)))) in *.
    destruct (toast_effect_fields [] s1) as (A1 & A2 & A3 & A4).
    set (s2 := snd (toast_effect [] s1)) in *.
    destruct (toast_effect_fields (currentRisks s2) s2) as (B1 & B2 & B3 & B4).
    rewrite B1, B2, B3, B4, A1, A2, A3, A4, F1, F2, F3, F4.
    split; [exact R|]. split; [cbn; lia|]. split; [exact I|]. split; [exact O|]. exact P.
  - cbv zeta in IH. destruct IH as (R0 & T0 & _ & _ & _).
    rewrite after_S. set (s := after e n) in *.
    unfold tick. cbv zeta.
    destruct (on_interval_spec s) as (risks & dets & C1 & C2 & C3 & C4 & C5 & I & O & P).
    set (s1 := snd (on_interval s)) in *.
    destruct (toast_effect_fields (currentRisks s1) s1) as (B1 & B2 & B3 & B4).
    rewrite B1, B2, B3, B4, C1, C2, C3.
    split; [exact R0|]. split; [lia|]. split; [exact I|]. split; [exact O|].
    intros H. apply P. exact (unit_interval_transfer e (env s) R0 H).
Qed.

Lemma even_world_unit_interval (t : Z) : unit_interval (even_world t).
Proof. intros n. split; cbn; [discriminate | reflexivity]. Qed.

End DashboardFacts.

(** X14.  The alert level is the level of the worst severity among the
    current risks: normal when all are low, elevated, high or critical by
    the highest of medium, high and critical present. *)
Theorem alertLevel_is_worst_severity (risks : list Dashboard.Risk) :
  Dashboard.alertLevel risks = level_of_rank (worst_rank risks).
Proof. exact (DashboardFacts.alertLevel_worst risks). Qed.

(** X15.  The effect on [currentRisks] never throws.  It shows one toast,
    for the first risk in list order that is high or critical, and it
    shows none exactly when the alert level of these risks is normal or
    elevated. *)
Theorem toast_for_first_high_risk (risks : list Dashboard.Risk) (s : Dashboard.State) :
  Dashboard.toast_effect risks s
  = (Js.Normal tt,
     match List.find Dashboard.is_high_severity risks with
     | Some r => Dashboard.toast_error (risk_toast r) s
     | None => s
     end)
  /\ (List.find Dashboard.is_high_severity risks = None
      <-> Dashboard.alertLevel risks = "normal" \/ Dashboard.alertLevel risks = "elevated").
Proof.
  split.
  - apply DashboardFacts.toast_effect_find.
  - rewrite DashboardFacts.alertLevel_worst, DashboardFacts.level_calm.
    apply DashboardFacts.find_high_worst.
Qed.

(** X16.  After the mount and after every firing of the interval, the
    overlays are the overlays of the current risks, one for each and in
    the same order, with its id, type and confidence. *)
Theorem overlays_follow_risks (e : Dashboard.Env) (n : nat) :
  Forall2 overlay_of (Dashboard.currentRisks (Dashboard.after e n))
    (Dashboard.detectedRisks (Dashboard.after e n)).
Proof. exact (proj1 (proj2 (proj2 (proj2 (DashboardFacts.after_spec e n))))). Qed.

(** X17.  The current risks carry the ids risk-0, risk-1, ... in list
    order; when [Math.random] keeps to [0, 1) there are at most three of
    them, each with a confidence from 60 to 99 and with a type and a
    description of the program's lists. *)
Theorem current_risks_generated (e : Dashboard.Env) (n : nat) :
  unit_interval e ->
  let risks := Dashboard.currentRisks (Dashboard.after e n) in
  map Dashboard.id risks
  = map (fun j => ("risk-" ++ Dashboard.string_of_nat j)%string) (seq 0 (length risks))
  /\ length risks <= 3
  /\ Forall plausible risks.
Proof.
  intros H risks. subst risks.
  destruct (DashboardFacts.after_spec e n) as (_ & _ & I & _ & P).
  destruct (P H) as (L & G & _). auto.
Qed.

Lemma current_risks_generated_witness :
  length (Dashboard.currentRisks (Dashboard.after (even_world 0) 2)) <= 3.
Proof.
  apply (current_risks_generated (even_world 0) 2).
  intros n. split; cbn; [discriminate | reflexivity].
Defined.

(** X18.  When [Math.random] keeps to [0, 1), every overlay box lies
    inside the frame: it starts at 10 percent or more, is between 10 and
    25 percent wide and high, and ends at 95 percent or less. *)
Theorem overlays_in_frame (e : Dashboard.Env) (n : nat) :
  unit_interval e ->
  Forall in_frame (Dashboard.detectedRisks (Dashboard.after e n)).
Proof.
  intros H. destruct (DashboardFacts.after_spec e n) as (_ & _ & _ & _ & P).
  destruct (P H) as (_ & _ & F). exact F.
Qed.

Lemma overlays_in_frame_witness :
  Forall in_frame (Dashboard.detectedRisks (Dashboard.after (even_world 0) 2)).
Proof.
  apply (overlays_in_frame (even_world 0) 2).
  intros n. split; cbn; [discriminate | reflexivity].
Defined.

(** X19.  The detection counter starts at 147 and goes up by at most one
    at each firing of the interval; it never goes down. *)
Theorem totalDetections_bounds (e : Dashboard.Env) (n : nat) :
  (147 <= Dashboard.totalDetections (Dashboard.after e n) <= 147 + Z.of_nat n)%Z
  /\ (Dashboard.totalDetections (Dashboard.after e n)
      <= Dashboard.totalDetections (Dashboard.after e (S n))
      <= Dashboard.totalDetections (Dashboard.after e n) + 1)%Z.
Proof.
  split; [exact (proj1 (proj2 (DashboardFacts.after_spec e n)))|].
  rewrite DashboardFacts.after_S. set (s := Dashboard.after e n).
  unfold Dashboard.tick. cbv zeta.
  destruct (DashboardFacts.on_interval_spec s) as (risks & dets & _ & _ & _ & C4 & _).
  set (s1 := snd (Dashboard.on_interval s)) in *.
  destruct (DashboardFacts.toast_effect_fields (Dashboard.currentRisks s1) s1)
    as (_ & _ & B3 & _).
  rewrite B3. exact C4.
Qed.

(** X20.  The alert colour of the system overview, fed with the alert
    level of the host, is the colour of the worst severity present; the
    gray default is never taken. *)
Theorem alert_color_of_worst_severity (risks : list Dashboard.Risk) :
  SystemOverview.getAlertColor (Dashboard.alertLevel risks) = color_of_rank (worst_rank risks)
  /\ SystemOverview.getAlertColor (Dashboard.alertLevel risks) <> SystemOverview.default_color.
Proof.
  rewrite DashboardFacts.alertLevel_worst.
  destruct (worst_rank risks) as [|[|[|n]]]; split; first [reflexivity | discriminate].
Qed.

(** ** The risk history *)

Module RiskHistoryFacts.
Import RiskHistory.

Section Filter.

Variable toLowerCase : string -> string.

Lemma filter_from_mono (c1 c2 : Component) (clock : nat -> Z) :
  (forall now r, matches toLowerCase c1 now r = true -> matches toLowerCase c2 now r = true) ->
  forall risks i,
    sublist (filter_from toLowerCase c1 clock i risks) (filter_from toLowerCase c2 clock i risks).
Proof.
  intros H. induction risks as [|r risks IH]; intros i; cbn [filter_from].
  - constructor.
  - destruct (matches toLowerCase c1 (clock i) r) eqn:E1.
    + rewrite (H _ _ E1). apply sublist_skip, IH.
    + destruct (matches toLowerCase c2 (clock i) r); [apply sublist_cons|]; apply IH.
Qed.

Lemma filter_from_sublist (c : Component) (clock : nat -> Z) :
  forall risks i, sublist (filter_from toLowerCase c clock i risks) risks.
Proof.
  induction risks as [|r risks IH]; intros i; cbn [filter_from]; [constructor|].
  destruct (matches toLowerCase c (clock i) r); [apply sublist_skip | apply sublist_cons];
    apply IH.
Qed.

Lemma filter_from_Forall (c : Component) (clock : nat -> Z) (P : HistoricalRisk -> Prop) :
  (forall now r, matches toLowerCase c now r = true -> P r) ->
  forall risks i, Forall P (filter_from toLowerCase c clock i risks).
Proof.
  intros H. induction risks as [|r risks IH]; intros i; cbn [filter_from]; [constructor|].
  destruct (matches toLowerCase c (clock i) r) eqn:E; [constructor; eauto | apply IH].
Qed.

(** The windows by their widths. *)
Lemma matches_window (v1 v2 : string) (c : Component) (now : Z) (r : HistoricalRisk) :
  (forall age, (if String.eqb v1 "1h" then Z.leb age (60 * 60 * 1000)
                else if String.eqb v1 "24h" then Z.leb age (24 * 60 * 60 * 1000)
                else if String.eqb v1 "7d" then Z.leb age (7 * 24 * 60 * 60 * 1000)
                else true) = true ->
               (if String.eqb v2 "1h" then Z.leb age (60 * 60 * 1000)
                else if String.eqb v2 "24h" then Z.leb age (24 * 60 * 60 * 1000)
                else if String.eqb v2 "7d" then Z.leb age (7 * 24 * 60 * 60 * 1000)
                else true) = true) ->
  matches toLowerCase (setTimeFilter v1 c) now r = true ->
  matches toLowerCase (setTimeFilter v2 c) now r = true.
Proof.
  intros H. unfold matches. destruct c as [st sf tf].
  cbn [searchTerm severityFilter timeFilter setTimeFilter].
  rewrite !andb_true_iff. intros [Hs Ht]. split; [exact Hs | exact (H _ Ht)].
Qed.

End Filter.

Lemma includes_empty (s : string) : includes s "" = true.
Proof. destruct s; reflexivity. Qed.

Lemma severity_name_inj (a b : Dashboard.Severity) :
  String.eqb (Dashboard.severity_name a) (Dashboard.severity_name b) = true -> a = b.
Proof. destruct a, b; cbn; intros H; first [reflexivity | discriminate]. Qed.

Lemma severity_name_not_all (a : Dashboard.Severity) :
  String.eqb (Dashboard.severity_name a) "all" = false.
Proof. destruct a; reflexivity. Qed.

End RiskHistoryFacts.

(** X21.  The time windows nest: what the history shows for the last hour
    it shows for the last 24 hours, that for the last 7 days, and that
    for all time, whatever the other filters and the clock readings; and
    each view lists risks of the history in their order. *)
Theorem time_windows_nest (toLowerCase : string -> string) (c : RiskHistory.Component)
    (clock : nat -> Z) (risks : list RiskHistory.HistoricalRisk) :
  sublist (window toLowerCase "1h" c clock risks) (window toLowerCase "24h" c clock risks)
  /\ sublist (window toLowerCase "24h" c clock risks) (window toLowerCase "7d" c clock risks)
  /\ sublist (window toLowerCase "7d" c clock risks) (window toLowerCase "all" c clock risks)
  /\ sublist (window toLowerCase "all" c clock risks) risks.
Proof.
  unfold window, RiskHistory.filteredRisks.
  split; [|split; [|split]].
  - apply RiskHistoryFacts.filter_from_mono. intros now r.
    apply RiskHistoryFacts.matches_window. intros age. cbn -[Z.leb Z.mul].
    rewrite !Z.leb_le. lia.
  - apply RiskHistoryFacts.filter_from_mono. intros now r.
    apply RiskHistoryFacts.matches_window. intros age. cbn -[Z.leb Z.mul].
    rewrite !Z.leb_le. lia.
  - apply RiskHistoryFacts.filter_from_mono. intros now r.
    apply RiskHistoryFacts.matches_window. intros age. cbn -[Z.leb Z.mul]. reflexivity.
  - apply RiskHistoryFacts.filter_from_sublist.
Qed.

(** X22.  The view the history opens with (no search term, all
    severities, last 24 hours) lists exactly the risks that are at most
    24 hours old at the reading of the clock, provided lower-casing the
    empty string gives the empty string. *)
Theorem default_view_is_last_day (toLowerCase : string -> string) (now : Z)
    (risks : list RiskHistory.HistoricalRisk) :
  toLowerCase "" = "" ->
  RiskHistory.filteredRisks toLowerCase RiskHistory.initial (fun _ => now) risks
  = List.filter (fun r => Z.leb (now - RiskHistory.timestamp r) 86400000) risks.
Proof.
  intros H. unfold RiskHistory.filteredRisks. generalize 0%nat.
  induction risks as [|r risks IH]; intros i; [reflexivity|].
  cbn [RiskHistory.filter_from List.filter]. rewrite IH.
  assert (E : RiskHistory.matches toLowerCase RiskHistory.initial now r
              = Z.leb (now - RiskHistory.timestamp r) 86400000).
  { unfold RiskHistory.matches.
    cbn [RiskHistory.initial RiskHistory.searchTerm RiskHistory.severityFilter
         RiskHistory.timeFilter].
    rewrite H, RiskHistoryFacts.includes_empty. reflexivity. }
  rewrite E. reflexivity.
Qed.

Lemma default_view_is_last_day_witness :
  RiskHistory.filteredRisks (fun s => s) RiskHistory.initial (fun _ => 10000000%Z)
    [sample_incident]
  = List.filter (fun r => Z.leb (10000000 - RiskHistory.timestamp r) 86400000)
      [sample_incident].
Proof.
  apply (default_view_is_last_day (fun s => s) 10000000 [sample_incident]). reflexivity.
Defined.

(** X23.  With the severity filter on one severity, every risk shown has
    that severity, and the High Risk count of the summary is the number
    of risks found for critical and high, and zero for medium and low. *)
Theorem severity_filter_and_summary (toLowerCase : string -> string)
    (c : RiskHistory.Component) (clock : nat -> Z)
    (risks : list RiskHistory.HistoricalRisk) (sev : Dashboard.Severity) :
  RiskHistory.severityFilter c = Dashboard.severity_name sev ->
  let shown := RiskHistory.filteredRisks toLowerCase c clock risks in
  Forall (fun r => RiskHistory.severity r = sev) shown
  /\ RiskHistory.high_risk shown
     = match sev with
       | Dashboard.critical | Dashboard.high => RiskHistory.found shown
       | _ => 0
       end.
Proof.
  intros Hc shown.
  assert (HF : Forall (fun r => RiskHistory.severity r = sev) shown).
  { apply RiskHistoryFacts.filter_from_Forall. intros now r.
    unfold RiskHistory.matches. rewrite Hc, RiskHistoryFacts.severity_name_not_all.
    rewrite !andb_true_iff. intros [[_ Hs] _].
    apply RiskHistoryFacts.severity_name_inj. exact Hs. }
  split; [exact HF|].
  unfold RiskHistory.high_risk, RiskHistory.found.
  induction HF as [|r l Hr _ IH]; [destruct sev; reflexivity|].
  cbn [List.filter length]. rewrite Hr.
  destruct sev; cbn [Dashboard.severity_eqb orb length]; rewrite ?IH; reflexivity.
Qed.

Lemma severity_filter_and_summary_witness :
  RiskHistory.high_risk
    (RiskHistory.filteredRisks (fun s => s)
       (RiskHistory.setSeverityFilter "critical" RiskHistory.initial)
       (fun _ => 10000000%Z) [sample_incident])
  = RiskHistory.found
      (RiskHistory.filteredRisks (fun s => s)
         (RiskHistory.setSeverityFilter "critical" RiskHistory.initial)
         (fun _ => 10000000%Z) [sample_incident]).
Proof.
  apply (severity_filter_and_summary (fun s => s)
           (RiskHistory.setSeverityFilter "critical" RiskHistory.initial)
           (fun _ => 10000000%Z) [sample_incident] Dashboard.critical).
  reflexivity.
Defined.

(** ** The camera *)

Module CameraFacts.
Import Camera.

Lemma camera_run_snoc (w : World) (evs : list Event) (ev : Event) :
  run w (evs ++ [ev]) = step (run w evs) ev.
Proof. unfold run. rewrite fold_left_app. reflexivity. Qed.

Lemma consistent_step (w : World) (ev : Event) :
  camera_consistent w -> camera_consistent (step w ev).
Proof.
  destruct w as [m [z ce [v cv] sr] rq st cs]. unfold camera_consistent.
  cbn [component mounted request stopped CameraFeed.refs CameraFeed.streamRef
       CameraFeed.cameraError videoRef].
  intros [Hv H].
  destruct ev as [video|stream| | | |]; cbn [step request mounted].
  - destruct rq; cbn; [|split; assumption..].
    destruct H as (-> & -> & -> & ->). split; [discriminate|]. auto.
  - destruct rq; [cbn; split; assumption| |cbn; split; assumption].
    destruct H as (-> & -> & ->).
    destruct m.
    + destruct v as [video|]; cbn; (split; [discriminate|]); eauto.
    + rewrite (Hv eq_refl). cbn. auto.
  - destruct rq; [cbn; split; assumption| |cbn; split; assumption].
    destruct H as (-> & -> & ->).
    destruct m; cbn; (split; [first [discriminate | assumption]|]); auto.
  - destruct m; [|cbn; split; assumption].
    unfold cleanup. cbn [component CameraFeed.streamRef].
    destruct sr as [s|]; cbn; (split; [reflexivity|]).
    + destruct rq; try (destruct H as (? & ? & ?); discriminate).
      destruct H as (? & Hst & _). rewrite Hst. auto.
    + destruct rq; intuition (try discriminate; auto).
  - destruct m; cbn; split; assumption.
  - destruct m; cbn; split; assumption.
Qed.

Lemma consistent_run (evs : list Event) : camera_consistent (run blank evs).
Proof.
  induction evs as [|ev evs IH] using rev_ind.
  - cbn. unfold camera_consistent. cbn. auto.
  - rewrite camera_run_snoc. apply consistent_step, IH.
Qed.

(** Nothing happens to an unmounted component whose request is settled. *)
Lemma inert_step (w : World) (ev : Event) :
  mounted w = false -> request w = Settled -> step w ev = w.
Proof.
  destruct w as [m c rq st cs]. cbn [mounted request]. intros -> ->.
  destruct ev; reflexivity.
Qed.

Lemma inert_run (w : World) (evs : list Event) :
  mounted w = false -> request w = Settled -> run w evs = w.
Proof.
  intros Hm Hr. induction evs as [|ev evs IH] using rev_ind; [reflexivity|].
  rewrite camera_run_snoc, IH. apply inert_step; assumption.
Qed.

Lemma camera_run_cons (w : World) (ev : Event) (evs : list Event) :
  run w (ev :: evs) = run (step w ev) evs.
Proof. reflexivity. Qed.

End CameraFacts.

(** X25.  The stream the camera component exposes: whatever happens,
    while the component is mounted it is the stream of the preview and
    its tracks run; once the component is unmounted its tracks have been
    stopped.  In both cases no camera error is shown. *)
Theorem exposed_camera_stream (evs : list Camera.Event) (s : MediaStream) :
  let w := Camera.run Camera.blank evs in
  let c := Camera.component w in
  CameraFeed.getStream c = Some s ->
  CameraFeed.cameraError c = None
  /\ if Camera.mounted w
     then Camera.stopped w = []
          /\ exists v, videoRef (CameraFeed.refs c) = Some v /\ srcObject v = Some s
     else Camera.stopped w = [s].
Proof.
  intros w c Hs. subst c. unfold CameraFeed.getStream in Hs.
  destruct (CameraFacts.consistent_run evs) as [_ H]. fold w in H.
  rewrite Hs in H.
  destruct (Camera.request w); [destruct H as (_ & ? & _); discriminate
                               | destruct H as (? & _); discriminate | exact H].
Qed.

Lemma exposed_camera_stream_witness :
  Camera.stopped
    (Camera.run Camera.blank [Camera.Mount sample_video; Camera.Granted 3%nat; Camera.Unmount])
  = [3%nat].
Proof.
  apply (exposed_camera_stream
           [Camera.Mount sample_video; Camera.Granted 3%nat; Camera.Unmount] 3%nat).
  reflexivity.
Defined.

(** X26.  A camera granted too late is never released: when the
    component is unmounted while its request is pending, the stream the
    request then resolves with is neither exposed nor stopped, whatever
    happens afterwards. *)
Theorem late_grant_never_stopped (evs rest : list Camera.Event) (s : MediaStream) :
  let w := Camera.run Camera.blank evs in
  Camera.mounted w = false -> Camera.request w = Camera.Pending ->
  let w' := Camera.run w (Camera.Granted s :: rest) in
  ~ In s (Camera.stopped w') /\ CameraFeed.getStream (Camera.component w') = None.
Proof.
  intros w Hm Hr w'. subst w'.
  destruct (CameraFacts.consistent_run evs) as [Hv H]. fold w in Hv, H.
  rewrite Hr in H. destruct H as (Hs & _ & Hst). specialize (Hv Hm).
  rewrite CameraFacts.camera_run_cons.
  assert (E : Camera.step w (Camera.Granted s) = Camera.set_request Camera.Settled w).
  { destruct w as [m [z ce [v cv] sr] rq st cs]. cbn in Hm, Hr, Hv. subst m rq v.
    reflexivity. }
  rewrite E, CameraFacts.inert_run by (destruct w; cbn in *; auto).
  destruct w as [m c rq st cs]. cbn in *. subst st. split; [tauto | exact Hs].
Qed.

Lemma late_grant_never_stopped_witness :
  ~ In 3%nat
      (Camera.stopped
         (Camera.run (Camera.run Camera.blank [Camera.Mount sample_video; Camera.Unmount])
            [Camera.Granted 3%nat; Camera.Unmount])).
Proof.
  apply (late_grant_never_stopped [Camera.Mount sample_video; Camera.Unmount]
           [Camera.Unmount] 3%nat); reflexivity.
Defined.

(** X27.  After a refusal of the camera: whenever the component shows a
    camera error, it is the fixed message, no stream is exposed and
    [captureFrame] returns [null] and changes nothing. *)
Theorem camera_error_is_final (B : Browser) (evs : list Camera.Event) (m : string) :
  let c := Camera.component (Camera.run Camera.blank evs) in
  CameraFeed.cameraError c = Some m ->
  m = Camera.access_message
  /\ CameraFeed.getStream c = None
  /\ CameraFeed.captureFrame B c = (Js.Normal None, c).
Proof.
  intros c He. subst c.
  destruct (CameraFacts.consistent_run evs) as [_ H].
  set (w := Camera.run Camera.blank evs) in *.
  rewrite He in H. unfold CameraFeed.getStream.
  assert (G : m = Camera.access_message
              /\ CameraFeed.streamRef (Camera.component w) = None
              /\ videoRef (CameraFeed.refs (Camera.component w)) = None).
  { destruct (Camera.request w).
    - destruct H as (_ & _ & ? & _); discriminate.
    - destruct H as (_ & ? & _); discriminate.
    - destruct (CameraFeed.streamRef (Camera.component w)).
      + destruct H as (? & _); discriminate.
      + destruct H as (_ & [?|(E & ?)]); [discriminate|]. split; [congruence|]. auto. }
  destruct G as (G1 & G2 & G3). split; [exact G1|]. split; [exact G2|].
  unfold CameraFeed.captureFrame. rewrite (captureFrame_no_element B _ G3).
  destruct (Camera.component w). reflexivity.
Qed.

Lemma camera_error_is_final_witness :
  CameraFeed.getStream
    (Camera.component (Camera.run Camera.blank [Camera.Mount sample_video; Camera.Denied]))
  = None.
Proof.
  apply (camera_error_is_final full_browser [Camera.Mount sample_video; Camera.Denied]
           Camera.access_message).
  reflexivity.
Defined.

(** ** The status layer of the live stream *)

Lemma message_matches_step (B : Browser) (w : LiveStream.World) (ev : LiveStream.Event) :
  message_matches (LiveStream.component w) ->
  message_matches (LiveStream.component (LiveStream.step B w ev)).
Proof.
  intros Hw.
  assert (Hsame : forall c' : LiveStream.Component,
            c' = LiveStream.component w -> message_matches c') by (intros c' ->; exact Hw).
  destruct ev as [url video|url| |t r|pc streams| |]; cbn [LiveStream.step].
  - (* Mount *)
    destruct (LiveStream.mounted w); [now apply Hsame|].
    match goal with
    | |- context [LiveStream.run_effect ?w1] =>
        destruct (run_effect_component w1) as [H|H]; rewrite H
    end; destruct w as [? ? [] ? ? ? ? ? ?]; reflexivity.
  - (* SetStreamUrl *)
    destruct (LiveStream.mounted w); [|now apply Hsame]. cbn [negb].
    destruct (String.eqb url _); [now apply Hsame|].
    match goal with
    | |- context [LiveStream.run_effect ?w1] =>
        destruct (run_effect_component w1) as [H|H]; rewrite H; clear H
    end;
    match goal with
    | |- context [LiveStream.run_cleanup ?w1] =>
        destruct (run_cleanup_component w1) as [rf H]; rewrite H; clear H
    end; destruct w as [? ? [] ? ? ? ? ? ?]; first [reflexivity | exact Hw].
  - (* Unmount *)
    destruct (LiveStream.mounted w); [|now apply Hsame]. cbn [negb]. cbv zeta.
    match goal with
    | |- context [LiveStream.run_cleanup ?w1] =>
        destruct (run_cleanup_component w1) as [rf H]; destruct (LiveStream.run_cleanup w1)
    end.
    cbn in *. rewrite H. destruct w as [? ? [] ? ? ? ? ? ?]; exact Hw.
  - (* Resume *)
    destruct (resume_component B t r w) as [H|(task & _ & _ & H)]; rewrite H;
      [exact Hw|].
    destruct w as [? ? [] ? ? ? ? ? ?]. reflexivity.
  - (* Track *)
    destruct (LiveStream.peers w !! pc) as [p|]; [|exact Hw].
    destruct (LiveStream.closed p); [exact Hw|].
    destruct (LiveStream.ontrack p) as [e|]; [|exact Hw].
    destruct (LiveStream.effects w !! e) as [eff|]; [|exact Hw].
    destruct (Nat.eqb _ _); [|exact Hw].
    destruct (ontrack_handler_component e streams w) as [H|(s & rest & video & _ & _ & [H|H])];
      rewrite H; [exact Hw| |];
      destruct w as [? ? [] ? ? ? ? ? ?]; first [exact Hw | exact I].
  - (* ClickZoom *)
    destruct (LiveStream.mounted w && _); [|exact Hw].
    destruct w as [? ? [] ? ? ? ? ? ?]. exact Hw.
  - (* ClickReset *)
    destruct (LiveStream.mounted w && _); [|exact Hw].
    destruct w as [? ? [] ? ? ? ? ? ?]. exact Hw.
Qed.

(** X28.  What the status layer shows depends on the status alone: the
    spinner while connecting, nothing when connected, and in the error
    status the fixed message with the retry button.  The fallback text
    "Stream Offline" is never shown. *)
Theorem status_layer_by_status (B : Browser) (evs : list LiveStream.Event) :
  let c := LiveStream.component (LiveStream.run B LiveStream.blank evs) in
  LiveStream.render_status c = status_layer (LiveStream.connectionStatus c)
  /\ ~ In (LiveStream.Paragraph "Stream Offline") (LiveStream.render_status c).
Proof.
  cbv zeta.
  assert (H : message_matches
                (LiveStream.component (LiveStream.run B LiveStream.blank evs))).
  { apply (run_invariant B (fun w => message_matches (LiveStream.component w))).
    - reflexivity.
    - intros w ev. apply message_matches_step. }
  unfold message_matches in H. unfold LiveStream.render_status.
  destruct (LiveStream.connectionStatus _); cbn [status_layer].
  - split; [reflexivity|]. cbn. intros [?|[?|[]]]; discriminate.
  - split; [reflexivity|]. intros [].
  - rewrite H. split; [reflexivity|]. cbn. intros [?|[?|[?|[]]]]; discriminate.
Qed.

(** ** Durations and uptimes in text *)

Lemma safe_integer_nonneg (n : Z) :
  (0 <= n < 2 ^ 53)%Z -> safe_integer n = true.
Proof. intros H. unfold safe_integer. apply Z.ltb_lt. rewrite Z.abs_eq by lia. lia. Qed.

(** X29.  The uptime of a whole number of hours from 0 to 2^53 - 1 is
    shown as days and hours that add up to it, with fewer than 24
    hours. *)
Theorem formatUptime_adds_up (hours : Z) :
  (0 <= hours < 2 ^ 53)%Z ->
  exists d h : Z,
    SystemOverview.formatUptime hours
    = Some (App.string_of_Z d ++ "d " ++ App.string_of_Z h ++ "h")%string
    /\ (0 <= d)%Z /\ (0 <= h < 24)%Z /\ hours = (24 * d + h)%Z.
Proof.
  intros H. exists (hours / 24)%Z, (Z.rem hours 24).
  unfold SystemOverview.formatUptime. rewrite (safe_integer_nonneg hours H).
  split; [reflexivity|].
  rewrite Z.rem_mod_nonneg by lia.
  pose proof (Z.div_mod hours 24 ltac:(lia)).
  pose proof (Z.mod_pos_bound hours 24 ltac:(lia)).
  pose proof (Z.div_pos hours 24 ltac:(lia) ltac:(lia)).
  lia.
Qed.

Lemma formatUptime_adds_up_witness :
  exists d h : Z,
    SystemOverview.formatUptime 168
    = Some (App.string_of_Z d ++ "d " ++ App.string_of_Z h ++ "h")%string
    /\ (0 <= d)%Z /\ (0 <= h < 24)%Z /\ 168%Z = (24 * d + h)%Z.
Proof. apply (formatUptime_adds_up 168). lia. Defined.

(** X30.  The duration of a risk, a whole number of seconds from 0 to
    2^53 - 1, is shown in seconds below a minute, in whole minutes below
    an hour, and in hours and minutes from there on; the minutes stay
    below 60 and the text is short of the duration by less than a
    minute. *)
Theorem formatDuration_rounds_down (seconds : Z) :
  (0 <= seconds < 2 ^ 53)%Z ->
  (seconds < 60
   /\ RiskHistory.formatDuration seconds = Some (App.string_of_Z seconds ++ "s")%string)%Z
  \/ (exists m : Z,
        RiskHistory.formatDuration seconds = Some (App.string_of_Z m ++ "m")%string
        /\ (1 <= m < 60)%Z /\ (60 * m <= seconds < 60 * m + 60)%Z)
  \/ (exists h m : Z,
        RiskHistory.formatDuration seconds
        = Some (App.string_of_Z h ++ "h " ++ App.string_of_Z m ++ "m")%string
        /\ (1 <= h)%Z /\ (0 <= m < 60)%Z
        /\ (3600 * h + 60 * m <= seconds < 3600 * h + 60 * m + 60)%Z).
Proof.
  intros H. unfold RiskHistory.formatDuration, Js.Math_floor_div.
  rewrite (safe_integer_nonneg seconds H).
  destruct (Z.ltb_spec seconds 60) as [H1|H1]; [left; auto|].
  destruct (Z.ltb_spec seconds 3600) as [H2|H2]; right; [left|right].
  - exists (seconds / 60)%Z. split; [reflexivity|].
    pose proof (Z.div_mod seconds 60 ltac:(lia)).
    pose proof (Z.mod_pos_bound seconds 60 ltac:(lia)). lia.
  - exists (seconds / 3600)%Z, (Z.rem seconds 3600 / 60)%Z. split; [reflexivity|].
    rewrite Z.rem_mod_nonneg by lia.
    pose proof (Z.div_mod seconds 3600 ltac:(lia)).
    pose proof (Z.mod_pos_bound seconds 3600 ltac:(lia)).
    pose proof (Z.div_mod (seconds mod 3600) 60 ltac:(lia)).
    pose proof (Z.mod_pos_bound (seconds mod 3600) 60 ltac:(lia)). lia.
Qed.

Lemma formatDuration_rounds_down_witness :
  exists h m : Z,
    RiskHistory.formatDuration 3725
    = Some (App.string_of_Z h ++ "h " ++ App.string_of_Z m ++ "m")%string
    /\ (1 <= h)%Z /\ (0 <= m < 60)%Z
    /\ (3600 * h + 60 * m <= 3725 < 3600 * h + 60 * m + 60)%Z.
Proof.
  destruct (formatDuration_rounds_down 3725 ltac:(lia)) as [[H _]|[(m & H & Hm & Hs)|H]].
  - lia.
  - exfalso. lia.
  - exact H.
Defined.
